(** * create_wallet: encrypted wallet custody and swap reconciliation

    A shallow embedding of the TypeScript sources (wallet generators,
    [MockDatabase], [MySQLDatabase], [WalletService], [SwapService]) and the
    properties the specification states about them.

    Conventions.  A JavaScript string is a [string] holding its UTF-8 bytes;
    a [Buffer] is a [list ascii]; a JavaScript integer [number] (ids, chain
    ids, counters) is a [Z]; an optional field is an [option]; [new Date()]
    is a clock reading passed in as [now].  A method of a class with mutable
    fields is a computation in the state-and-exception monad [Eff] over the
    record of those fields. *)

From Stdlib Require Import ZArith NArith String Ascii List Bool Lia DecimalString Btauto.
From stdpp Require Import base tactics option numbers list strings.

Set Default Proof Using "Type".

(** ** The JavaScript runtime, as far as the sources use it *)

Module Js.

(** A thrown [Error]; the sources read nothing but [message]. *)
Record Error := mkError { message : string }.

(** [error.message || 'Unknown error'] *)
Definition message_or (e : Error) (dflt : string) : string :=
  if decide (message e = "") then dflt else message e.

(** Template-literal rendering of an integer [number]. *)
Definition string_of_number (n : Z) : string :=
  NilZero.string_of_int (Z.to_int n).

Definition lower_ascii (c : ascii) : ascii :=
  let n := N_of_ascii c in
  if ((65 <=? n) && (n <=? 90))%N then ascii_of_N (n + 32) else c.

(** [String.prototype.toLowerCase] folds every cased letter of Unicode by
    the tables of the runtime; it is not defined here.  A method that
    calls it takes it as its argument [toLowerCase], and what is proved
    of the method is proved for every such function.  [toLowerCase_ascii]
    is the fold of the letters A to Z alone: what [toLowerCase] does to a
    string of ASCII characters. *)
Fixpoint toLowerCase_ascii (s : string) : string :=
  match s with
  | EmptyString => EmptyString
  | String c s' => String (lower_ascii c) (toLowerCase_ascii s')
  end.

(** The string of the one character U+0000. *)
Definition NUL : string := String Ascii.zero EmptyString.

(** [s.startsWith(p)] *)
Definition startsWith (s p : string) : bool := String.prefix p s.

(** A byte [10xxxxxx], which continues a UTF-8 sequence. *)
Definition is_continuation (b : ascii) : bool :=
  ((128 <=? N_of_ascii b) && (N_of_ascii b <=? 191))%N.

(** The UTF-16 code units of the character a leading byte starts: two
    for a supplementary character (a sequence of four bytes), else one. *)
Definition code_units (b : ascii) : nat :=
  if (240 <=? N_of_ascii b)%N then 2 else 1.

(** A surrogate on its own, once the string is encoded: U+FFFD. *)
Definition lone_surrogate : list ascii :=
  [ascii_of_N 239; ascii_of_N 191; ascii_of_N 189].

(** The bytes of the first [n] code units. *)
Fixpoint take_units (n : nat) (bs : list ascii) : list ascii :=
  match bs with
  | [] => []
  | b :: bs' =>
      if is_continuation b then b :: take_units n bs'
      else if (code_units b <=? n)%nat then b :: take_units (n - code_units b) bs'
      else if (n =? 1)%nat then lone_surrogate
      else []
  end.

(** [s.substring(0, n)] *)
Definition substring0 (n : nat) (s : string) : string :=
  string_of_list_ascii (take_units n (list_ascii_of_string s)).

(** The bytes of the last character. *)
Fixpoint last_char (bs : list ascii) : list ascii :=
  match bs with
  | [] => []
  | b :: bs' => if forallb is_continuation bs' then b :: bs' else last_char bs'
  end.

(** [s.slice(-1)]: the last code unit, which is the last character
    unless that one is supplementary. *)
Definition slice_last (s : string) : string :=
  let c := last_char (list_ascii_of_string s) in
  string_of_list_ascii (if (length c =? 4)%nat then lone_surrogate else c).

(** [s.length]: the number of code units. *)
Fixpoint string_length (s : string) : nat :=
  match s with
  | EmptyString => 0
  | String b s' =>
      (if is_continuation b then 0 else code_units b) + string_length s'
  end.

(** The message of the [TypeError] for a call of a property that is
    [undefined]. *)
Definition not_a_function (callee : string) : Error :=
  mkError (callee +:+ " is not a function").

Definition digit36 (c : ascii) : option Z :=
  let n := Z.of_N (N_of_ascii c) in
  if ((48 <=? n) && (n <=? 57))%Z then Some (n - 48)%Z
  else if ((97 <=? n) && (n <=? 122))%Z then Some (n - 87)%Z
  else if ((65 <=? n) && (n <=? 90))%Z then Some (n - 55)%Z
  else None.

(** [parseInt(s, 36)] for an [s] of at most one code unit, as [slice(-1)]
    returns it: a digit or a letter of either case has its value; the
    empty string and every other character give [NaN], here [None]. *)
Definition parseInt36 (s : string) : option Z :=
  match s with
  | String c EmptyString => digit36 c
  | _ => None
  end.

End Js.

(** ** State and exceptions *)

Definition Eff (S A : Type) : Type := S → (Js.Error + A) * S.

#[global] Instance eff_ret {S} : MRet (Eff S) := λ A a s, (inr a, s).

#[global] Instance eff_bind {S} : MBind (Eff S) := λ A B k m s,
  match m s with
  | (inl e, s') => (inl e, s')
  | (inr a, s') => k a s'
  end.

(** A call that returns or throws, with no state of its own. *)
#[global] Instance result_ret : MRet (sum Js.Error) := λ A a, inr a.

#[global] Instance result_bind : MBind (sum Js.Error) := λ A B k m,
  match m with
  | inl e => inl e
  | inr a => k a
  end.

Definition throw {S A} (e : Js.Error) : Eff S A := λ s, (inl e, s).

(** [try { body } catch (error) { handler }]; the state reached when the
    exception was thrown is the one the handler runs in. *)
Definition try_catch {S A} (body : Eff S A) (handler : Js.Error → Eff S A) : Eff S A :=
  λ s, match body s with
       | (inl e, s') => handler e s'
       | (inr a, s') => (inr a, s')
       end.

(** [await] of a call whose outcome the environment decides. *)
Definition await {S A} (r : Js.Error + A) : Eff S A := λ s, (r, s).

Definition get_state {S} : Eff S S := λ s, (inr s, s).
Definition put_state {S} (s' : S) : Eff S unit := λ _, (inr tt, s').

(** ** Record shapes ([src/types/db.ts]) *)

Module WalletType.
Inductive t := ethereum | bitcoin | solana | tron.
End WalletType.

Module TransactionType.
Inductive t := send | receive | swap.
End TransactionType.

Module TransactionStatus.
Inductive t := pending | completed | failed.
End TransactionStatus.

#[global] Instance WalletType_eq_dec : EqDecision WalletType.t.
Proof. solve_decision. Defined.
#[global] Instance TransactionType_eq_dec : EqDecision TransactionType.t.
Proof. solve_decision. Defined.
#[global] Instance TransactionStatus_eq_dec : EqDecision TransactionStatus.t.
Proof. solve_decision. Defined.

Module WalletRecord.
Record t := mk {
  id : Z;
  userId : string;
  walletType : WalletType.t;
  address : string;
  encryptedPrivateKey : string;
  salt : string;
  iv : string;
  network : option string;
  chainId : option Z;
  createdAt : Z;
  updatedAt : Z
}.
End WalletRecord.

Module CreateWalletData.
Record t := mk {
  walletType : WalletType.t;
  address : string;
  encryptedPrivateKey : string;
  salt : string;
  iv : string;
  network : option string;
  chainId : option Z
}.
End CreateWalletData.

Module TransactionRecord.
Record t := mk {
  id : Z;
  walletId : Z;
  transactionType : TransactionType.t;
  fromAddress : string;
  toAddress : string;
  amount : string;
  currency : string;
  fee : string;
  status : TransactionStatus.t;
  hash : string;
  chainId : option Z;
  fromChainId : option Z;
  toChainId : option Z;
  timestamp : Z
}.
End TransactionRecord.

(** [Omit<TransactionRecord, 'id' | 'timestamp'>] *)
Module TransactionData.
Record t := mk {
  walletId : Z;
  transactionType : TransactionType.t;
  fromAddress : string;
  toAddress : string;
  amount : string;
  currency : string;
  fee : string;
  status : TransactionStatus.t;
  hash : string;
  chainId : option Z;
  fromChainId : option Z;
  toChainId : option Z
}.
End TransactionData.

(** [Partial<TransactionRecord>]: the fields an update names. *)
Module PartialTransaction.
Record t := mk {
  id : option Z;
  walletId : option Z;
  transactionType : option TransactionType.t;
  fromAddress : option string;
  toAddress : option string;
  amount : option string;
  currency : option string;
  fee : option string;
  status : option TransactionStatus.t;
  hash : option string;
  chainId : option (option Z);
  fromChainId : option (option Z);
  toChainId : option (option Z);
  timestamp : option Z
}.

Definition empty : t :=
  mk None None None None None None None None None None None None None None.

(** [{ status }] *)
Definition of_status (s : TransactionStatus.t) : t :=
  mk None None None None None None None None (Some s) None None None None None.

(** [{ hash }] *)
Definition of_hash (h : string) : t :=
  mk None None None None None None None None None (Some h) None None None None.

(** [{ fee }] *)
Definition of_fee (f : string) : t :=
  mk None None None None None None None (Some f) None None None None None None.

(** [{ ...old, ...data }] *)
Definition spread (old : TransactionRecord.t) (data : t) : TransactionRecord.t :=
  TransactionRecord.mk
    (default (TransactionRecord.id old) (id data))
    (default (TransactionRecord.walletId old) (walletId data))
    (default (TransactionRecord.transactionType old) (transactionType data))
    (default (TransactionRecord.fromAddress old) (fromAddress data))
    (default (TransactionRecord.toAddress old) (toAddress data))
    (default (TransactionRecord.amount old) (amount data))
    (default (TransactionRecord.currency old) (currency data))
    (default (TransactionRecord.fee old) (fee data))
    (default (TransactionRecord.status old) (status data))
    (default (TransactionRecord.hash old) (hash data))
    (default (TransactionRecord.chainId old) (chainId data))
    (default (TransactionRecord.fromChainId old) (fromChainId data))
    (default (TransactionRecord.toChainId old) (toChainId data))
    (default (TransactionRecord.timestamp old) (timestamp data)).
End PartialTransaction.

(** [Partial<WalletRecord>]: the fields an update names. *)
Module PartialWallet.
Record t := mk {
  id : option Z;
  userId : option string;
  walletType : option WalletType.t;
  address : option string;
  encryptedPrivateKey : option string;
  salt : option string;
  iv : option string;
  network : option (option string);
  chainId : option (option Z);
  createdAt : option Z;
  updatedAt : option Z
}.

Definition empty : t := mk None None None None None None None None None None None.

(** [{ ...old, ...data, updatedAt: new Date() }] *)
Definition spread (old : WalletRecord.t) (data : t) (now : Z) : WalletRecord.t :=
  WalletRecord.mk
    (default (WalletRecord.id old) (id data))
    (default (WalletRecord.userId old) (userId data))
    (default (WalletRecord.walletType old) (walletType data))
    (default (WalletRecord.address old) (address data))
    (default (WalletRecord.encryptedPrivateKey old) (encryptedPrivateKey data))
    (default (WalletRecord.salt old) (salt data))
    (default (WalletRecord.iv old) (iv data))
    (default (WalletRecord.network old) (network data))
    (default (WalletRecord.chainId old) (chainId data))
    (default (WalletRecord.createdAt old) (createdAt data))
    now.
End PartialWallet.

#[global] Instance WalletRecord_eq_dec : EqDecision WalletRecord.t.
Proof. solve_decision. Defined.
#[global] Instance TransactionRecord_eq_dec : EqDecision TransactionRecord.t.
Proof. solve_decision. Defined.

(** ** The in-memory store ([src/db/MockDatabase.ts]) *)

Module MockDatabase.

Record t := mk {
  wallets : list WalletRecord.t;
  transactions : list TransactionRecord.t;
  walletIdCounter : Z;
  transactionIdCounter : Z;
  connected : bool
}.

(** [new MockDatabase()] *)
Definition new : t := mk [] [] 1 1 false.

Definition set_wallets (ws : list WalletRecord.t) (db : t) : t :=
  mk ws (transactions db) (walletIdCounter db) (transactionIdCounter db) (connected db).
Definition set_transactions (ts : list TransactionRecord.t) (db : t) : t :=
  mk (wallets db) ts (walletIdCounter db) (transactionIdCounter db) (connected db).
Definition set_connected (c : bool) (db : t) : t :=
  mk (wallets db) (transactions db) (walletIdCounter db) (transactionIdCounter db) c.

(** [connect]: the seeding hook adds no data. *)
Definition connect : Eff t unit :=
  db ← get_state; put_state (set_connected true db).

Definition disconnect : Eff t unit :=
  db ← get_state; put_state (set_connected false db).

Definition ensureConnected : Eff t unit :=
  db ← get_state;
  if connected db then mret tt
  else throw (Js.mkError "Database not connected. Call connect() first.").

Definition createWallet (now : Z) (userId : string) (walletData : CreateWalletData.t)
  : Eff t WalletRecord.t :=
  ensureConnected;;
  db ← get_state;
  let wallet :=
    WalletRecord.mk (walletIdCounter db) userId
      (CreateWalletData.walletType walletData)
      (CreateWalletData.address walletData)
      (CreateWalletData.encryptedPrivateKey walletData)
      (CreateWalletData.salt walletData)
      (CreateWalletData.iv walletData)
      (CreateWalletData.network walletData)
      (CreateWalletData.chainId walletData)
      now now in
  put_state (mk (wallets db ++ [wallet]) (transactions db)
                (walletIdCounter db + 1) (transactionIdCounter db) (connected db));;
  mret wallet.

(** [Array.prototype.find] *)
Definition find {A} (P : A → Prop) `{!∀ x, Decision (P x)} (l : list A) : option A :=
  snd <$> list_find P l.

Definition getWallet (toLowerCase : string → string) (userId address : string)
  : Eff t (option WalletRecord.t) :=
  ensureConnected;;
  db ← get_state;
  mret (find (λ w, WalletRecord.userId w = userId ∧
                   toLowerCase (WalletRecord.address w) = toLowerCase address)
             (wallets db)).

Definition getWalletById (walletId : Z) : Eff t (option WalletRecord.t) :=
  ensureConnected;;
  db ← get_state;
  mret (find (λ w, WalletRecord.id w = walletId) (wallets db)).

Definition getWalletsByUser (userId : string) : Eff t (list WalletRecord.t) :=
  ensureConnected;;
  db ← get_state;
  mret (filter (λ w, WalletRecord.userId w = userId) (wallets db)).

Definition getWalletsByChainId (userId : string) (chainId : Z) : Eff t (list WalletRecord.t) :=
  ensureConnected;;
  db ← get_state;
  mret (filter (λ w, WalletRecord.userId w = userId ∧
                     WalletRecord.chainId w = Some chainId) (wallets db)).

Definition deleteWallet (walletId : Z) : Eff t bool :=
  ensureConnected;;
  db ← get_state;
  let initialLength := length (wallets db) in
  let wallets' := filter (λ w, WalletRecord.id w ≠ walletId) (wallets db) in
  put_state (set_wallets wallets' db);;
  mret (negb (length wallets' =? initialLength)%nat).

Definition recordTransaction (now : Z) (transactionData : TransactionData.t)
  : Eff t TransactionRecord.t :=
  ensureConnected;;
  db ← get_state;
  let transaction :=
    TransactionRecord.mk (transactionIdCounter db)
      (TransactionData.walletId transactionData)
      (TransactionData.transactionType transactionData)
      (TransactionData.fromAddress transactionData)
      (TransactionData.toAddress transactionData)
      (TransactionData.amount transactionData)
      (TransactionData.currency transactionData)
      (TransactionData.fee transactionData)
      (TransactionData.status transactionData)
      (TransactionData.hash transactionData)
      (TransactionData.chainId transactionData)
      (TransactionData.fromChainId transactionData)
      (TransactionData.toChainId transactionData)
      now in
  put_state (mk (wallets db) (transactions db ++ [transaction])
                (walletIdCounter db) (transactionIdCounter db + 1) (connected db));;
  mret transaction.

Definition getTransactionsByWallet (walletId : Z) : Eff t (list TransactionRecord.t) :=
  ensureConnected;;
  db ← get_state;
  mret (filter (λ tx, TransactionRecord.walletId tx = walletId) (transactions db)).

Definition getTransactionsByHash (toLowerCase : string → string) (hash : string)
  : Eff t (option TransactionRecord.t) :=
  ensureConnected;;
  db ← get_state;
  mret (find (λ tx, toLowerCase (TransactionRecord.hash tx) = toLowerCase hash)
             (transactions db)).

(** [findIndex] and the element it stands at come from one [list_find];
    [None] is the index [-1]. *)
Definition updateTransaction (id : Z) (data : PartialTransaction.t) : Eff t bool :=
  ensureConnected;;
  db ← get_state;
  match list_find (λ tx, TransactionRecord.id tx = id) (transactions db) with
  | None => mret false
  | Some (index, old) =>
      put_state (set_transactions
                   (<[index := PartialTransaction.spread old data]> (transactions db)) db);;
      mret true
  end.

Definition updateWallet (now : Z) (walletId : Z) (data : PartialWallet.t) : Eff t bool :=
  ensureConnected;;
  db ← get_state;
  match list_find (λ w, WalletRecord.id w = walletId) (wallets db) with
  | None => mret false
  | Some (index, old) =>
      put_state (set_wallets
                   (<[index := PartialWallet.spread old data now]> (wallets db)) db);;
      mret true
  end.

Definition getTransactionsByUser (userId : string) : Eff t (list TransactionRecord.t) :=
  ensureConnected;;
  db ← get_state;
  let userWalletIds :=
    WalletRecord.id <$> filter (λ w, WalletRecord.userId w = userId) (wallets db) in
  mret (filter (λ tx, TransactionRecord.walletId tx ∈ userWalletIds) (transactions db)).

(** The three helpers for tests; they do not ask for a connection. *)
Definition getAllWallets : Eff t (list WalletRecord.t) :=
  db ← get_state; mret (wallets db).

Definition getAllTransactions : Eff t (list TransactionRecord.t) :=
  db ← get_state; mret (transactions db).

Definition clearAll : Eff t unit :=
  db ← get_state; put_state (mk [] [] 1 1 (connected db)).

End MockDatabase.

(** ** The relational store ([src/db/MySQLDatabase.ts])

    The two tables are lists of rows; a statement acts on them as SQL
    defines it.  Only the statements of [deleteWallet] and
    [getTransactionsByWallet] are needed here. *)

Module MySQLDatabase.

Record tables := mkTables {
  wallets : list WalletRecord.t;
  transactions : list TransactionRecord.t
}.

(** The field [connection]: [null] until [connect]. *)
Record t := mk { connection : option tables }.

Definition ensureConnected : Eff t tables :=
  db ← get_state;
  match connection db with
  | Some tb => mret tb
  | None => throw (Js.mkError "Database not connected. Call connect() first.")
  end.

(** [DELETE FROM transactions WHERE wallet_id = ?], then
    [DELETE FROM wallets WHERE id = ?]; the result is [affectedRows > 0]
    of the second statement. *)
Definition deleteWallet (walletId : Z) : Eff t bool :=
  tb ← ensureConnected;
  let transactions' :=
    filter (λ tx, TransactionRecord.walletId tx ≠ walletId) (transactions tb) in
  put_state (mk (Some (mkTables (wallets tb) transactions')));;
  let wallets' := filter (λ w, WalletRecord.id w ≠ walletId) (wallets tb) in
  let affectedRows := (length (wallets tb) - length wallets')%nat in
  put_state (mk (Some (mkTables wallets' transactions')));;
  mret (0 <? affectedRows)%nat.

(** Insertion of a row into rows ordered by [timestamp DESC]; rows of
    equal timestamp keep their table order. *)
Fixpoint insert_desc (tx : TransactionRecord.t) (rows : list TransactionRecord.t)
  : list TransactionRecord.t :=
  match rows with
  | [] => [tx]
  | r :: rows' =>
      if (TransactionRecord.timestamp r <? TransactionRecord.timestamp tx)%Z
      then tx :: r :: rows'
      else r :: insert_desc tx rows'
  end.

Definition order_by_timestamp_desc (rows : list TransactionRecord.t)
  : list TransactionRecord.t :=
  foldr insert_desc [] rows.

(** [SELECT * FROM transactions WHERE wallet_id = ? ORDER BY timestamp DESC] *)
Definition getTransactionsByWallet (walletId : Z) : Eff t (list TransactionRecord.t) :=
  tb ← ensureConnected;
  mret (order_by_timestamp_desc
          (filter (λ tx, TransactionRecord.walletId tx = walletId) (transactions tb))).

End MySQLDatabase.

(** ** The exchange gateway ([src/api/ChangeNowAPI.ts]) *)

Module ChangeNow.

(** [SwapStatus['status']] *)
Inductive status :=
  waiting | confirming | exchanging | sending | finished | failed | refunded.

#[global] Instance status_eq_dec : EqDecision status.
Proof. solve_decision. Defined.

Module SwapRate.
Record t := mk {
  estimatedAmount : string;
  rate : string;
  fee : string;
  networkFee : string;
  fromChainId : option Z;
  toChainId : option Z
}.
End SwapRate.

Module SwapStatus.
Record t := mk {
  status : ChangeNow.status;
  payinHash : option string;
  payoutHash : option string;
  fromAmount : option string;
  toAmount : option string;
  expectedToAmount : option string;
  fromChainId : option Z;
  toChainId : option Z
}.
End SwapStatus.

Module SwapTransaction.
Record t := mk {
  id : string;
  payinAddress : string;
  payoutAddress : string;
  fromCurrency : string;
  toCurrency : string;
  expectedAmountFrom : string;
  expectedAmountTo : string;
  refundAddress : option string;
  fromChainId : option Z;
  toChainId : option Z
}.
End SwapTransaction.

(** The three public methods of [ChangeNowAPI].  Each is a request to the
    provider (or to the mock); what it answers, or the [Error] it throws,
    is the environment's. *)
Record API := mkAPI {
  getExchangeRate :
    string → string → string → option Z → option Z → Js.Error + SwapRate.t;
  createTransaction :
    string → string → string → string → string → option Z → option Z →
    Js.Error + SwapTransaction.t;
  getTransactionStatus : string → Js.Error + SwapStatus.t
}.

(** Two gateways for the examples below.  [unreachable] answers no
    request; [scripted orderId st] accepts every order under the id
    [orderId] and reports the status [st] for it. *)
Definition unreachable : API :=
  mkAPI
    (λ _ _ _ _ _, inl (Js.mkError "Failed to get exchange rate: Network Error"))
    (λ _ _ _ _ _ _ _, inl (Js.mkError "Failed to create transaction: Network Error"))
    (λ _, inl (Js.mkError "Failed to get transaction status: Network Error")).

Definition scripted (orderId : string) (st : status) : API :=
  mkAPI
    (λ _ _ _ fromChainId toChainId,
       inr (SwapRate.mk "0.065" "0.065" "0.01" "0.0005" fromChainId toChainId))
    (λ fromCurrency toCurrency amount toAddress refundAddress fromChainId toChainId,
       inr (SwapTransaction.mk orderId "payin" toAddress fromCurrency toCurrency
              amount "0.065" (Some refundAddress) fromChainId toChainId))
    (λ transactionId,
       if decide (transactionId = orderId)
       then inr (SwapStatus.mk st None None None None None None None)
       else inl (Js.mkError "Failed to get transaction status: not found")).

End ChangeNow.

(** The private methods of [ChangeNowAPI]: the network table of the
    requests, and the answers given when [useMock] is set. *)

Module ChangeNowAPI.

Definition getNetworkName (currency : string) (chainId : option Z) : option string :=
  match chainId with
  | None => None
  | Some chainId =>
      if (chainId =? 0)%Z then None
      else
        match chainId with
        | 1%Z => Some "eth"
        | 56%Z => Some "bsc"
        | 137%Z => Some "polygon"
        | 43114%Z => Some "avalanche"
        | 10%Z => Some "optimism"
        | 42161%Z => Some "arbitrum"
        | _ => None
        end
  end.

Definition statusOptions : list ChangeNow.status :=
  [ChangeNow.waiting; ChangeNow.confirming; ChangeNow.exchanging; ChangeNow.sending;
   ChangeNow.finished; ChangeNow.failed; ChangeNow.refunded].

(** The object [getMockTransactionStatus] returns.  [status] is
    [statusOptions[statusIndex]], which is [undefined] when the index
    is [NaN]. *)
Module MockStatus.
Record t := mk {
  status : option ChangeNow.status;
  payinHash : string;
  payoutHash : option string;
  fromAmount : string;
  toAmount : string;
  expectedToAmount : string
}.
End MockStatus.

Definition getMockTransactionStatus (transactionId : string) : MockStatus.t :=
  let lastChar := Js.slice_last transactionId in
  let statusIndex :=
    (λ n, n mod Z.of_nat (length statusOptions))%Z <$> Js.parseInt36 lastChar in
  let status := statusIndex ≫= (λ i, statusOptions !! Z.to_nat i) in
  MockStatus.mk status
    ("0x" +:+ Js.substring0 64 transactionId)
    (if decide (status = Some ChangeNow.finished)
     then Some ("0x" +:+ Js.substring0 64 transactionId) else None)
    "1.0" "15.5" "15.7".

Section Numbers.

(** The doubles of the runtime, with [parseFloat], [*] and
    [Number.prototype.toString]; the literal [0.01] is the number
    [parseFloat] reads from its digits. *)
Variable number : Type.
Variable parseFloat : string → number.
Variable times : number → number → number.
Variable number_toString : number → string.

(** [String.prototype.toLowerCase] *)
Variable toLowerCase : string → string.

Definition getMockExchangeRate (fromCurrency toCurrency amount : string)
    (fromChainId toChainId : option Z) : ChangeNow.SwapRate.t :=
  let rate :=
    if decide (fromCurrency = "BTC" ∧ toCurrency = "ETH") then "15.5"
    else if decide (fromCurrency = "ETH" ∧ toCurrency = "BTC") then "0.065"
    else if decide (fromCurrency = "ETH" ∧ toCurrency = "MATIC") then "500"
    else if decide (fromCurrency = "USDT" ∧ toCurrency = "BTC") then "0.000035"
    else "0.05" in
  let numAmount := parseFloat amount in
  let estimatedAmount := number_toString (times numAmount (parseFloat rate)) in
  ChangeNow.SwapRate.mk estimatedAmount rate
    (number_toString (times numAmount (parseFloat "0.01")))
    "0.0005" fromChainId toChainId.

(** [now] is [Date.now()] and [random] is
    [Math.floor(Math.random() * 1000)]. *)
Definition getMockTransaction (now random : Z)
    (fromCurrency toCurrency amount toAddress refundAddress : string)
    (fromChainId toChainId : option Z) : ChangeNow.SwapTransaction.t :=
  let rateInfo :=
    getMockExchangeRate fromCurrency toCurrency amount fromChainId toChainId in
  ChangeNow.SwapTransaction.mk
    ("mock-tx-" +:+ Js.string_of_number now +:+ "-" +:+ Js.string_of_number random)
    ("mock-address-" +:+ toLowerCase fromCurrency)
    toAddress fromCurrency toCurrency amount
    (ChangeNow.SwapRate.estimatedAmount rateInfo)
    (Some refundAddress) fromChainId toChainId.

End Numbers.

End ChangeNowAPI.

(** ** [SwapService] ([src/services/SwapService.ts]) *)

Module SwapService.

Import MockDatabase.

Section WithGateway.

Variable api : ChangeNow.API.

(** The error thrown when [getWalletById] finds nothing. *)
Definition walletNotFound (walletId : Z) : Js.Error :=
  Js.mkError ("Wallet with ID " +:+ Js.string_of_number walletId +:+ " not found").

Definition createSwap (now : Z) (walletId : Z)
    (fromCurrency toCurrency fromAmount toAddress refundAddress : string)
    (fromChainId toChainId : option Z) : Eff MockDatabase.t TransactionRecord.t :=
  try_catch
    (wallet ← getWalletById walletId;
     match wallet with
     | None => throw (walletNotFound walletId)
     | Some wallet =>
         swap ← await (ChangeNow.createTransaction api fromCurrency toCurrency
                         fromAmount toAddress refundAddress fromChainId toChainId);
         rateData ← await (ChangeNow.getExchangeRate api fromCurrency toCurrency
                             fromAmount fromChainId toChainId);
         transaction ← recordTransaction now
           (TransactionData.mk walletId TransactionType.swap
              (WalletRecord.address wallet) toAddress fromAmount fromCurrency
              (ChangeNow.SwapRate.fee rateData) TransactionStatus.pending
              (ChangeNow.SwapTransaction.id swap)
              fromChainId fromChainId toChainId);
         mret transaction
     end)
    (λ error,
       throw (Js.mkError ("Failed to create swap: "
                          +:+ Js.message_or error "Unknown error"))).

(** The status the scan derives from the gateway's answer. *)
Definition newStatus (swapStatus : ChangeNow.SwapStatus.t) : TransactionStatus.t :=
  if decide (ChangeNow.SwapStatus.status swapStatus = ChangeNow.finished)
  then TransactionStatus.completed
  else if decide (ChangeNow.SwapStatus.status swapStatus = ChangeNow.failed
                  ∨ ChangeNow.SwapStatus.status swapStatus = ChangeNow.refunded)
  then TransactionStatus.failed
  else TransactionStatus.pending.

(** One turn of the [for] loop of [updatePendingSwaps], with its own
    [try]/[catch]; [updatedCount] is threaded through. *)
Definition updatePendingSwaps_body (updatedCount : Z) (swap : TransactionRecord.t)
  : Eff MockDatabase.t Z :=
  try_catch
    (swapStatus ← await (ChangeNow.getTransactionStatus api (TransactionRecord.hash swap));
     let newStatus := newStatus swapStatus in
     if decide (newStatus ≠ TransactionStatus.pending) then
       updated ← updateTransaction (TransactionRecord.id swap)
                   (PartialTransaction.of_status newStatus);
       if updated : bool then mret (updatedCount + 1)%Z else mret updatedCount
     else mret updatedCount)
    (λ _, mret updatedCount).

Fixpoint updatePendingSwaps_loop (updatedCount : Z) (swaps : list TransactionRecord.t)
  : Eff MockDatabase.t Z :=
  match swaps with
  | [] => mret updatedCount
  | swap :: rest =>
      updatedCount' ← updatePendingSwaps_body updatedCount swap;
      updatePendingSwaps_loop updatedCount' rest
  end.

(** [this.db.getTransactionsByStatus('pending')].  The interface
    [IWalletDatabase] declares the method, but neither [MockDatabase]
    nor [MySQLDatabase] defines it: the property read from the store is
    [undefined], and calling it is a [TypeError], whatever the state of
    the store. *)
Definition db_getTransactionsByStatus (status : TransactionStatus.t)
  : Eff MockDatabase.t (list TransactionRecord.t) :=
  throw (Js.not_a_function "this.db.getTransactionsByStatus").

Definition updatePendingSwaps : Eff MockDatabase.t Z :=
  try_catch
    (pendingSwaps ← db_getTransactionsByStatus TransactionStatus.pending;
     updatePendingSwaps_loop 0
       (filter (λ tx, TransactionRecord.transactionType tx = TransactionType.swap)
               pendingSwaps))
    (λ error,
       throw (Js.mkError ("Failed to update pending swaps: "
                          +:+ Js.message_or error "Unknown error"))).

Definition getExchangeRate (fromCurrency toCurrency amount : string)
    (fromChainId toChainId : option Z) : Eff MockDatabase.t ChangeNow.SwapRate.t :=
  await (ChangeNow.getExchangeRate api fromCurrency toCurrency amount
           fromChainId toChainId).

Definition getSwapStatus (transactionId : string)
  : Eff MockDatabase.t ChangeNow.SwapStatus.t :=
  await (ChangeNow.getTransactionStatus api transactionId).

End WithGateway.

Definition init : Eff MockDatabase.t unit := connect.
Definition cleanup : Eff MockDatabase.t unit := disconnect.

Definition updateSwapStatus (transactionId : Z) (status : TransactionStatus.t)
  : Eff MockDatabase.t bool :=
  updateTransaction transactionId (PartialTransaction.of_status status).

Definition getSwapsByWallet (walletId : Z) : Eff MockDatabase.t (list TransactionRecord.t) :=
  transactions ← getTransactionsByWallet walletId;
  mret (filter (λ tx, TransactionRecord.transactionType tx = TransactionType.swap)
               transactions).

Definition getSwapsByUser (userId : string) : Eff MockDatabase.t (list TransactionRecord.t) :=
  transactions ← getTransactionsByUser userId;
  mret (filter (λ tx, TransactionRecord.transactionType tx = TransactionType.swap)
               transactions).

End SwapService.

(** ** [TransactionService] ([src/services/TransactionService.ts]) *)

Module TransactionService.

Definition init : Eff MockDatabase.t unit := MockDatabase.connect.
Definition cleanup : Eff MockDatabase.t unit := MockDatabase.disconnect.

Definition recordTransaction (now : Z) (walletId : Z)
    (transactionType : TransactionType.t)
    (fromAddress toAddress amount currency fee : string)
    (status : TransactionStatus.t) (hash : string)
    (chainId fromChainId toChainId : option Z)
  : Eff MockDatabase.t TransactionRecord.t :=
  MockDatabase.recordTransaction now
    (TransactionData.mk walletId transactionType fromAddress toAddress amount
       currency fee status hash chainId fromChainId toChainId).

Definition getTransactionsByWallet (walletId : Z)
  : Eff MockDatabase.t (list TransactionRecord.t) :=
  MockDatabase.getTransactionsByWallet walletId.

Definition getTransactionsByUser (userId : string)
  : Eff MockDatabase.t (list TransactionRecord.t) :=
  MockDatabase.getTransactionsByUser userId.

Definition getTransactionByHash (toLowerCase : string → string) (hash : string)
  : Eff MockDatabase.t (option TransactionRecord.t) :=
  MockDatabase.getTransactionsByHash toLowerCase hash.

Definition updateTransactionStatus (id : Z) (status : TransactionStatus.t)
  : Eff MockDatabase.t bool :=
  MockDatabase.updateTransaction id (PartialTransaction.of_status status).

Definition updateTransactionHash (id : Z) (hash : string) : Eff MockDatabase.t bool :=
  MockDatabase.updateTransaction id (PartialTransaction.of_hash hash).

Definition updateTransactionFee (id : Z) (fee : string) : Eff MockDatabase.t bool :=
  MockDatabase.updateTransaction id (PartialTransaction.of_fee fee).

End TransactionService.

(** ** What a generator returns ([EncryptedWallet] and its variants) *)

Module EncryptedWallet.
Record t := mk {
  address : string;
  encryptedPrivateKey : string;
  salt : string;
  iv : string
}.
End EncryptedWallet.

Module BitcoinNetwork.
Inductive t := mainnet | testnet.
Definition to_string (n : t) : string :=
  match n with mainnet => "mainnet" | testnet => "testnet" end.
End BitcoinNetwork.

Module EncryptedBitcoinWallet.
Record t := mk {
  address : string;
  encryptedPrivateKey : string;
  salt : string;
  iv : string;
  network : BitcoinNetwork.t
}.
End EncryptedBitcoinWallet.

(** ** Bytes ([Buffer]) and the encodings the sources name *)

Module Buffer.

(** A byte is an [ascii]; a [Buffer] is a list of them. *)
Definition t := list ascii.

Definition byte (n : N) : ascii := ascii_of_N (n mod 256).

Definition xor_byte (a b : ascii) : ascii :=
  match a, b with
  | Ascii a0 a1 a2 a3 a4 a5 a6 a7, Ascii b0 b1 b2 b3 b4 b5 b6 b7 =>
      Ascii (xorb a0 b0) (xorb a1 b1) (xorb a2 b2) (xorb a3 b3)
            (xorb a4 b4) (xorb a5 b5) (xorb a6 b6) (xorb a7 b7)
  end.

(** Byte-wise exclusive or of [s] with [k]; bytes of [s] beyond the
    length of [k] are kept. *)
Fixpoint xor (s k : t) : t :=
  match s, k with
  | a :: s', b :: k' => xor_byte a b :: xor s' k'
  | _, _ => s
  end.

(** [Buffer.from(s, 'utf8')]: a string is held as its UTF-8 bytes. *)
Definition from_utf8 (s : string) : t := list_ascii_of_string s.

Definition hex_digit (n : N) : ascii :=
  if (n <? 10)%N then ascii_of_N (48 + n) else ascii_of_N (87 + n).

(** [buf.toString('hex')] *)
Fixpoint to_hex (b : t) : string :=
  match b with
  | [] => EmptyString
  | c :: b' =>
String (hex_digit (N_of_ascii c / 16))
  (String (hex_digit (N_of_ascii c mod 16)) (to_hex b'))
end.

Definition hex_value (c : ascii) : option N :=
  let n := N_of_ascii c in
  if ((48 <=? n) && (n <=? 57))%N then Some (n - 48)%N
  else if ((97 <=? n) && (n <=? 102))%N then Some (n - 87)%N
  else if ((65 <=? n) && (n <=? 70))%N then Some (n - 55)%N
  else None.

(** [Buffer.from(s, 'hex')]: pairs of digits are decoded up to the first
    pair that is not two hexadecimal digits; a trailing single character
    is dropped. *)
Fixpoint from_hex (s : string) : t :=
  match s with
  | String c (String d s') =>
      match hex_value c, hex_value d with
      | Some h, Some l => ascii_of_N (16 * h + l) :: from_hex s'
      | _, _ => []
      end
  | _ => []
  end.

Definition in_range (lo hi : N) (c : ascii) : bool :=
  ((lo <=? N_of_ascii c) && (N_of_ascii c <=? hi))%N.

(** The length and the range of the second byte that a leading byte
    announces (Unicode, table 3-7); [None] for a byte that leads nothing. *)
Definition utf8_lead (b0 : ascii) : option (nat * N * N) :=
  if in_range 0xC2 0xDF b0 then Some (2%nat, 0x80, 0xBF)%N
  else if in_range 0xE0 0xE0 b0 then Some (3%nat, 0xA0, 0xBF)%N
  else if in_range 0xE1 0xEC b0 then Some (3%nat, 0x80, 0xBF)%N
  else if in_range 0xED 0xED b0 then Some (3%nat, 0x80, 0x9F)%N
  else if in_range 0xEE 0xEF b0 then Some (3%nat, 0x80, 0xBF)%N
  else if in_range 0xF0 0xF0 b0 then Some (4%nat, 0x90, 0xBF)%N
  else if in_range 0xF1 0xF3 b0 then Some (4%nat, 0x80, 0xBF)%N
  else if in_range 0xF4 0xF4 b0 then Some (4%nat, 0x80, 0x8F)%N
  else None.

(** One step of the decoder: how many bytes it takes, and whether they
    are a well-formed sequence (otherwise they are the longest prefix of
    one, at least one byte, and decode to one U+FFFD). *)
Definition utf8_step (bs : t) : nat * bool :=
  match bs with
  | [] => (0, true)
  | b0 :: rest =>
      if in_range 0 0x7F b0 then (1, true)
      else
        match utf8_lead b0, rest with
        | Some (len, lo, hi), b1 :: rest1 =>
            if negb (in_range lo hi b1) then (1, false)
            else if (len =? 2)%nat then (2, true)
            else
              match rest1 with
              | b2 :: rest2 =>
                  if negb (in_range 0x80 0xBF b2) then (2, false)
                  else if (len =? 3)%nat then (3, true)
                  else
                    match rest2 with
                    | b3 :: _ => if in_range 0x80 0xBF b3 then (4, true) else (3, false)
                    | [] => (3, false)
                    end
              | [] => (2, false)
              end
        | _, _ => (1, false)
        end
  end.

(** U+FFFD in UTF-8. *)
Definition replacement : t := [byte 0xEF; byte 0xBF; byte 0xBD].

Fixpoint decode_utf8 (fuel : nat) (bs : t) : t :=
  match fuel, bs with
  | S fuel', _ :: _ =>
      let '(n, ok) := utf8_step bs in
      (if ok then firstn n bs else replacement) ++ decode_utf8 fuel' (skipn n bs)
  | _, _ => []
  end.

(** [buf.toString('utf8')]: ill-formed input decodes to U+FFFD. *)
Definition to_utf8 (bs : t) : string :=
  string_of_list_ascii (decode_utf8 (length bs) bs).

Fixpoint wellformed_utf8 (fuel : nat) (bs : t) : bool :=
  match fuel, bs with
  | _, [] => true
  | S fuel', _ :: _ =>
      let '(n, ok) := utf8_step bs in ok && wellformed_utf8 fuel' (skipn n bs)
  | O, _ :: _ => false
  end.

(** The strings this model holds that are JavaScript strings: those
    whose bytes are well-formed UTF-8. *)
Definition is_string (s : string) : bool :=
  wellformed_utf8 (String.length s) (list_ascii_of_string s).

(** Big-endian bytes of a 32-bit word, and back. *)
Definition of_word (w : N) : t :=
  [byte (w / 16777216); byte (w / 65536); byte (w / 256); byte w].

Definition to_word (b0 b1 b2 b3 : ascii) : N :=
  (N_of_ascii b0 * 16777216 + N_of_ascii b1 * 65536
   + N_of_ascii b2 * 256 + N_of_ascii b3)%N.

End Buffer.

(** ** SHA-256, HMAC and PBKDF2 ([crypto.pbkdf2Sync(…, 'sha256')]) *)

Module SHA256.

Local Open Scope N_scope.

Definition w32 (x : N) : N := N.land x 4294967295.
Definition add (x y : N) : N := w32 (x + y).
Definition rotr (n x : N) : N := N.lor (N.shiftr x n) (w32 (N.shiftl x (32 - n))).
Definition shr (n x : N) : N := N.shiftr x n.
Definition Ch (x y z : N) : N := N.lxor (N.land x y) (N.land (N.lxor x 4294967295) z).
Definition Maj (x y z : N) : N :=
  N.lxor (N.lxor (N.land x y) (N.land x z)) (N.land y z).
Definition Sigma0 (x : N) : N := N.lxor (N.lxor (rotr 2 x) (rotr 13 x)) (rotr 22 x).
Definition Sigma1 (x : N) : N := N.lxor (N.lxor (rotr 6 x) (rotr 11 x)) (rotr 25 x).
Definition sigma0 (x : N) : N := N.lxor (N.lxor (rotr 7 x) (rotr 18 x)) (shr 3 x).
Definition sigma1 (x : N) : N := N.lxor (N.lxor (rotr 17 x) (rotr 19 x)) (shr 10 x).

(** The big-endian 32-bit words of a buffer (sixteen for a block). *)
Fixpoint words (bs : Buffer.t) : list N :=
  match bs with
  | b0 :: b1 :: b2 :: b3 :: bs' => Buffer.to_word b0 b1 b2 b3 :: words bs'
  | _ => []
  end.

(** The sixty-four round constants, as the bytes of their words. *)
Definition K : list N :=
  words (Buffer.from_hex
           ("428a2f9871374491b5c0fbcfe9b5dba53956c25b59f111f1923f82a4ab1c5ed5"
            +:+ "d807aa9812835b01243185be550c7dc372be5d7480deb1fe9bdc06a7c19bf174"
            +:+ "e49b69c1efbe47860fc19dc6240ca1cc2de92c6f4a7484aa5cb0a9dc76f988da"
            +:+ "983e5152a831c66db00327c8bf597fc7c6e00bf3d5a7914706ca635114292967"
            +:+ "27b70a852e1b21384d2c6dfc53380d13650a7354766a0abb81c2c92e92722c85"
            +:+ "a2bfe8a1a81a664bc24b8b70c76c51a3d192e819d6990624f40e3585106aa070"
            +:+ "19a4c1161e376c082748774c34b0bcb5391c0cb34ed8aa4a5b9cca4f682e6ff3"
            +:+ "748f82ee78a5636f84c878148cc7020890befffaa4506cebbef9a3f7c67178f2")).

(** The eight working variables, and the chaining value. *)
Record state := mkState { a : N; b : N; c : N; d : N; e : N; f : N; g : N; h : N }.

Definition H0 : state :=
  mkState 0x6a09e667 0xbb67ae85 0x3c6ef372 0xa54ff53a
          0x510e527f 0x9b05688c 0x1f83d9ab 0x5be0cd19.

(** The message schedule, built from the sixteen words before: [w] holds
    the last sixteen, most recent first. *)
Fixpoint schedule (n : nat) (w : list N) : list N :=
  match n with
  | O => []
  | S n' =>
      let wt := add (add (sigma1 (nth 1 w 0)) (nth 6 w 0))
                    (add (sigma0 (nth 14 w 0)) (nth 15 w 0)) in
      wt :: schedule n' (wt :: firstn 15 w)
  end.

Definition round (s : state) (kw : N * N) : state :=
  let T1 := add (add (add (add (h s) (Sigma1 (e s))) (Ch (e s) (f s) (g s))) (fst kw))
                (snd kw) in
  let T2 := add (Sigma0 (a s)) (Maj (a s) (b s) (c s)) in
  mkState (add T1 T2) (a s) (b s) (c s) (add (d s) T1) (e s) (f s) (g s).

Definition compress (hv : state) (block : Buffer.t) : state :=
  let w16 := words block in
  let w := w16 ++ schedule 48 (rev w16) in
  let s := fold_left round (combine K w) hv in
  mkState (add (a hv) (a s)) (add (b hv) (b s)) (add (c hv) (c s)) (add (d hv) (d s))
          (add (e hv) (e s)) (add (f hv) (f s)) (add (g hv) (g s)) (add (h hv) (h s)).

(** Padding: a [1] bit, zeros, and the bit length as 64 bits. *)
Definition pad (len : N) : Buffer.t :=
  let zeros := (119 - len mod 64) mod 64 in
  Buffer.byte 128 :: repeat (Buffer.byte 0) (N.to_nat zeros)
  ++ Buffer.of_word (len * 8 / 4294967296) ++ Buffer.of_word (len * 8).

Fixpoint blocks (fuel : nat) (hv : state) (bs : Buffer.t) : state :=
  match fuel, bs with
  | S fuel', _ :: _ => blocks fuel' (compress hv (firstn 64 bs)) (skipn 64 bs)
  | _, _ => hv
  end.

Definition digest (hv : state) : Buffer.t :=
  Buffer.of_word (a hv) ++ Buffer.of_word (b hv) ++ Buffer.of_word (c hv)
  ++ Buffer.of_word (d hv) ++ Buffer.of_word (e hv) ++ Buffer.of_word (f hv)
  ++ Buffer.of_word (g hv) ++ Buffer.of_word (h hv).

Definition hash (msg : Buffer.t) : Buffer.t :=
  let padded := msg ++ pad (N.of_nat (length msg)) in
  digest (blocks (length padded) H0 padded).

End SHA256.

Module HMAC.

(** The key as the 64-byte block HMAC works with: hashed when longer
    than a block, then filled up with zero bytes. *)
Definition key_block (key : Buffer.t) : Buffer.t :=
  let k := if (64 <? length key)%nat then SHA256.hash key else key in
  k ++ repeat (Buffer.byte 0) (64 - length k).

(** HMAC-SHA256 under a key given as its block. *)
Definition keyed (kb msg : Buffer.t) : Buffer.t :=
  let ipad := Buffer.xor kb (repeat (Buffer.byte 54) 64) in
  let opad := Buffer.xor kb (repeat (Buffer.byte 92) 64) in
  SHA256.hash (opad ++ SHA256.hash (ipad ++ msg)).

Definition sha256 (key msg : Buffer.t) : Buffer.t := keyed (key_block key) msg.

End HMAC.

Module PBKDF2.

(** The block [T_i = U_1 xor ... xor U_c], under the password's key
    block [kb]. *)
Definition F (kb salt : Buffer.t) (iterations : N) (i : N) : Buffer.t :=
  let U1 := HMAC.keyed kb (salt ++ Buffer.of_word i) in
  snd (N.iter (iterations - 1)
         (λ ut, let u := HMAC.keyed kb (fst ut) in (u, Buffer.xor (snd ut) u))
         (U1, U1)).

Fixpoint T (kb salt : Buffer.t) (iterations : N) (i : N) (nblocks : nat) : Buffer.t :=
  match nblocks with
  | O => []
  | S n => F kb salt iterations i ++ T kb salt iterations (i + 1) n
  end.

Definition derive (password salt : Buffer.t) (iterations keylen : N) : Buffer.t :=
  firstn (N.to_nat keylen)
    (T (HMAC.key_block password) salt iterations 1 (N.to_nat ((keylen + 31) / 32))).

End PBKDF2.

(** ** AES-256 in CBC mode with PKCS#7 padding (['aes-256-cbc']) *)

Module AES256.

Definition sbox_table : list N :=
  [
      0x63; 0x7c; 0x77; 0x7b; 0xf2; 0x6b; 0x6f; 0xc5; 0x30; 0x01; 0x67; 0x2b; 0xfe; 0xd7; 0xab; 0x76;
      0xca; 0x82; 0xc9; 0x7d; 0xfa; 0x59; 0x47; 0xf0; 0xad; 0xd4; 0xa2; 0xaf; 0x9c; 0xa4; 0x72; 0xc0;
      0xb7; 0xfd; 0x93; 0x26; 0x36; 0x3f; 0xf7; 0xcc; 0x34; 0xa5; 0xe5; 0xf1; 0x71; 0xd8; 0x31; 0x15;
      0x04; 0xc7; 0x23; 0xc3; 0x18; 0x96; 0x05; 0x9a; 0x07; 0x12; 0x80; 0xe2; 0xeb; 0x27; 0xb2; 0x75;
      0x09; 0x83; 0x2c; 0x1a; 0x1b; 0x6e; 0x5a; 0xa0; 0x52; 0x3b; 0xd6; 0xb3; 0x29; 0xe3; 0x2f; 0x84;
      0x53; 0xd1; 0x00; 0xed; 0x20; 0xfc; 0xb1; 0x5b; 0x6a; 0xcb; 0xbe; 0x39; 0x4a; 0x4c; 0x58; 0xcf;
      0xd0; 0xef; 0xaa; 0xfb; 0x43; 0x4d; 0x33; 0x85; 0x45; 0xf9; 0x02; 0x7f; 0x50; 0x3c; 0x9f; 0xa8;
      0x51; 0xa3; 0x40; 0x8f; 0x92; 0x9d; 0x38; 0xf5; 0xbc; 0xb6; 0xda; 0x21; 0x10; 0xff; 0xf3; 0xd2;
      0xcd; 0x0c; 0x13; 0xec; 0x5f; 0x97; 0x44; 0x17; 0xc4; 0xa7; 0x7e; 0x3d; 0x64; 0x5d; 0x19; 0x73;
      0x60; 0x81; 0x4f; 0xdc; 0x22; 0x2a; 0x90; 0x88; 0x46; 0xee; 0xb8; 0x14; 0xde; 0x5e; 0x0b; 0xdb;
      0xe0; 0x32; 0x3a; 0x0a; 0x49; 0x06; 0x24; 0x5c; 0xc2; 0xd3; 0xac; 0x62; 0x91; 0x95; 0xe4; 0x79;
      0xe7; 0xc8; 0x37; 0x6d; 0x8d; 0xd5; 0x4e; 0xa9; 0x6c; 0x56; 0xf4; 0xea; 0x65; 0x7a; 0xae; 0x08;
      0xba; 0x78; 0x25; 0x2e; 0x1c; 0xa6; 0xb4; 0xc6; 0xe8; 0xdd; 0x74; 0x1f; 0x4b; 0xbd; 0x8b; 0x8a;
      0x70; 0x3e; 0xb5; 0x66; 0x48; 0x03; 0xf6; 0x0e; 0x61; 0x35; 0x57; 0xb9; 0x86; 0xc1; 0x1d; 0x9e;
      0xe1; 0xf8; 0x98; 0x11; 0x69; 0xd9; 0x8e; 0x94; 0x9b; 0x1e; 0x87; 0xe9; 0xce; 0x55; 0x28; 0xdf;
      0x8c; 0xa1; 0x89; 0x0d; 0xbf; 0xe6; 0x42; 0x68; 0x41; 0x99; 0x2d; 0x0f; 0xb0; 0x54; 0xbb; 0x16]%N.

Definition inv_sbox_table : list N :=
  [
      0x52; 0x09; 0x6a; 0xd5; 0x30; 0x36; 0xa5; 0x38; 0xbf; 0x40; 0xa3; 0x9e; 0x81; 0xf3; 0xd7; 0xfb;
      0x7c; 0xe3; 0x39; 0x82; 0x9b; 0x2f; 0xff; 0x87; 0x34; 0x8e; 0x43; 0x44; 0xc4; 0xde; 0xe9; 0xcb;
      0x54; 0x7b; 0x94; 0x32; 0xa6; 0xc2; 0x23; 0x3d; 0xee; 0x4c; 0x95; 0x0b; 0x42; 0xfa; 0xc3; 0x4e;
      0x08; 0x2e; 0xa1; 0x66; 0x28; 0xd9; 0x24; 0xb2; 0x76; 0x5b; 0xa2; 0x49; 0x6d; 0x8b; 0xd1; 0x25;
      0x72; 0xf8; 0xf6; 0x64; 0x86; 0x68; 0x98; 0x16; 0xd4; 0xa4; 0x5c; 0xcc; 0x5d; 0x65; 0xb6; 0x92;
      0x6c; 0x70; 0x48; 0x50; 0xfd; 0xed; 0xb9; 0xda; 0x5e; 0x15; 0x46; 0x57; 0xa7; 0x8d; 0x9d; 0x84;
      0x90; 0xd8; 0xab; 0x00; 0x8c; 0xbc; 0xd3; 0x0a; 0xf7; 0xe4; 0x58; 0x05; 0xb8; 0xb3; 0x45; 0x06;
      0xd0; 0x2c; 0x1e; 0x8f; 0xca; 0x3f; 0x0f; 0x02; 0xc1; 0xaf; 0xbd; 0x03; 0x01; 0x13; 0x8a; 0x6b;
      0x3a; 0x91; 0x11; 0x41; 0x4f; 0x67; 0xdc; 0xea; 0x97; 0xf2; 0xcf; 0xce; 0xf0; 0xb4; 0xe6; 0x73;
      0x96; 0xac; 0x74; 0x22; 0xe7; 0xad; 0x35; 0x85; 0xe2; 0xf9; 0x37; 0xe8; 0x1c; 0x75; 0xdf; 0x6e;
      0x47; 0xf1; 0x1a; 0x71; 0x1d; 0x29; 0xc5; 0x89; 0x6f; 0xb7; 0x62; 0x0e; 0xaa; 0x18; 0xbe; 0x1b;
      0xfc; 0x56; 0x3e; 0x4b; 0xc6; 0xd2; 0x79; 0x20; 0x9a; 0xdb; 0xc0; 0xfe; 0x78; 0xcd; 0x5a; 0xf4;
      0x1f; 0xdd; 0xa8; 0x33; 0x88; 0x07; 0xc7; 0x31; 0xb1; 0x12; 0x10; 0x59; 0x27; 0x80; 0xec; 0x5f;
      0x60; 0x51; 0x7f; 0xa9; 0x19; 0xb5; 0x4a; 0x0d; 0x2d; 0xe5; 0x7a; 0x9f; 0x93; 0xc9; 0x9c; 0xef;
      0xa0; 0xe0; 0x3b; 0x4d; 0xae; 0x2a; 0xf5; 0xb0; 0xc8; 0xeb; 0xbb; 0x3c; 0x83; 0x53; 0x99; 0x61;
      0x17; 0x2b; 0x04; 0x7e; 0xba; 0x77; 0xd6; 0x26; 0xe1; 0x69; 0x14; 0x63; 0x55; 0x21; 0x0c; 0x7d]%N.

Definition sub_byte (c : ascii) : ascii :=
  ascii_of_N (nth (N.to_nat (N_of_ascii c)) sbox_table 0%N).

Definition inv_sub_byte (c : ascii) : ascii :=
  ascii_of_N (nth (N.to_nat (N_of_ascii c)) inv_sbox_table 0%N).

(** Multiplication by [x] in GF(2^8) modulo [x^8 + x^4 + x^3 + x + 1]. *)
Definition xtime (c : ascii) : ascii :=
  match c with
  | Ascii b0 b1 b2 b3 b4 b5 b6 b7 =>
      Ascii b7 (xorb b0 b7) b1 (xorb b2 b7) (xorb b3 b7) b4 b5 b6
  end.

Notation "a ⊕ b" := (Buffer.xor_byte a b) (at level 50, left associativity).

Definition mul2 (c : ascii) : ascii := xtime c.
Definition mul3 (c : ascii) : ascii := xtime c ⊕ c.
Definition mul9 (c : ascii) : ascii := xtime (xtime (xtime c)) ⊕ c.
Definition mul11 (c : ascii) : ascii := xtime (xtime (xtime c)) ⊕ xtime c ⊕ c.
Definition mul13 (c : ascii) : ascii := xtime (xtime (xtime c)) ⊕ xtime (xtime c) ⊕ c.
Definition mul14 (c : ascii) : ascii :=
  xtime (xtime (xtime c)) ⊕ xtime (xtime c) ⊕ xtime c.

Definition mix_column (a0 a1 a2 a3 : ascii) : list ascii :=
  [mul2 a0 ⊕ mul3 a1 ⊕ a2 ⊕ a3;
   a0 ⊕ mul2 a1 ⊕ mul3 a2 ⊕ a3;
   a0 ⊕ a1 ⊕ mul2 a2 ⊕ mul3 a3;
   mul3 a0 ⊕ a1 ⊕ a2 ⊕ mul2 a3].

Definition inv_mix_column (a0 a1 a2 a3 : ascii) : list ascii :=
  [mul14 a0 ⊕ mul11 a1 ⊕ mul13 a2 ⊕ mul9 a3;
   mul9 a0 ⊕ mul14 a1 ⊕ mul11 a2 ⊕ mul13 a3;
   mul13 a0 ⊕ mul9 a1 ⊕ mul14 a2 ⊕ mul11 a3;
   mul11 a0 ⊕ mul13 a1 ⊕ mul9 a2 ⊕ mul14 a3].

(** The state is the block's sixteen bytes, column after column.  The
    four transformations leave a list of another length as it is. *)
Definition sub_bytes (s : Buffer.t) : Buffer.t := map sub_byte s.
Definition inv_sub_bytes (s : Buffer.t) : Buffer.t := map inv_sub_byte s.

Definition shift_rows (s : Buffer.t) : Buffer.t :=
  match s with
  | [s0; s1; s2; s3; s4; s5; s6; s7; s8; s9; s10; s11; s12; s13; s14; s15] =>
      [s0; s5; s10; s15; s4; s9; s14; s3; s8; s13; s2; s7; s12; s1; s6; s11]
  | _ => s
  end.

Definition inv_shift_rows (s : Buffer.t) : Buffer.t :=
  match s with
  | [s0; s1; s2; s3; s4; s5; s6; s7; s8; s9; s10; s11; s12; s13; s14; s15] =>
      [s0; s13; s10; s7; s4; s1; s14; s11; s8; s5; s2; s15; s12; s9; s6; s3]
  | _ => s
  end.

Definition mix_columns (s : Buffer.t) : Buffer.t :=
  match s with
  | [s0; s1; s2; s3; s4; s5; s6; s7; s8; s9; s10; s11; s12; s13; s14; s15] =>
      mix_column s0 s1 s2 s3 ++ mix_column s4 s5 s6 s7
      ++ mix_column s8 s9 s10 s11 ++ mix_column s12 s13 s14 s15
  | _ => s
  end.

Definition inv_mix_columns (s : Buffer.t) : Buffer.t :=
  match s with
  | [s0; s1; s2; s3; s4; s5; s6; s7; s8; s9; s10; s11; s12; s13; s14; s15] =>
      inv_mix_column s0 s1 s2 s3 ++ inv_mix_column s4 s5 s6 s7
      ++ inv_mix_column s8 s9 s10 s11 ++ inv_mix_column s12 s13 s14 s15
  | _ => s
  end.

Definition add_round_key (s rk : Buffer.t) : Buffer.t := Buffer.xor s rk.

(** *** Key expansion (eight key words, sixty schedule words) *)

Definition rot_word (w : Buffer.t) : Buffer.t :=
  match w with
  | b0 :: w' => w' ++ [b0]
  | [] => []
  end.

Definition rcon (i : nat) : Buffer.t :=
  [Buffer.byte (nth i [0; 1; 2; 4; 8; 16; 32; 64]%N 0%N);
   Buffer.byte 0; Buffer.byte 0; Buffer.byte 0].

(** [w] holds the schedule so far, latest word first; [i] is the index
    of the word to come. *)
Fixpoint expand (n i : nat) (w : list Buffer.t) : list Buffer.t :=
  match n with
  | O => w
  | S n' =>
      let prev := nth 0 w [] in
      let temp :=
        if (i mod 8 =? 0)%nat
        then Buffer.xor (sub_bytes (rot_word prev)) (rcon (i / 8))
        else if (i mod 8 =? 4)%nat then sub_bytes prev
        else prev in
      expand n' (S i) (Buffer.xor (nth 7 w []) temp :: w)
  end.

Fixpoint words4 (n : nat) (bs : Buffer.t) : list Buffer.t :=
  match n with
  | O => []
  | S n' => firstn 4 bs :: words4 n' (skipn 4 bs)
  end.

Fixpoint round_keys_of (n : nat) (w : list Buffer.t) : list Buffer.t :=
  match n, w with
  | S n', w0 :: w1 :: w2 :: w3 :: w' => (w0 ++ w1 ++ w2 ++ w3) :: round_keys_of n' w'
  | _, _ => []
  end.

(** The fifteen round keys of a 32-byte key. *)
Definition key_schedule (key : Buffer.t) : list Buffer.t :=
  round_keys_of 15 (rev (expand 52 8 (rev (words4 8 key)))).

(** *** The cipher and its inverse on one block *)

Definition round (rk s : Buffer.t) : Buffer.t :=
  add_round_key (mix_columns (shift_rows (sub_bytes s))) rk.

Definition final_round (rk s : Buffer.t) : Buffer.t :=
  add_round_key (shift_rows (sub_bytes s)) rk.

Definition inv_round (rk s : Buffer.t) : Buffer.t :=
  inv_sub_bytes (inv_shift_rows (inv_mix_columns (add_round_key s rk))).

Definition inv_final_round (rk s : Buffer.t) : Buffer.t :=
  inv_sub_bytes (inv_shift_rows (add_round_key s rk)).

Fixpoint rounds (rks : list Buffer.t) (s : Buffer.t) : Buffer.t :=
  match rks with
  | [] => s
  | [rk] => final_round rk s
  | rk :: rks' => rounds rks' (round rk s)
  end.

Fixpoint inv_rounds (rks : list Buffer.t) (s : Buffer.t) : Buffer.t :=
  match rks with
  | [] => s
  | [rk] => inv_final_round rk s
  | rk :: rks' => inv_round rk (inv_rounds rks' s)
  end.

Definition encrypt_block (rks : list Buffer.t) (s : Buffer.t) : Buffer.t :=
  match rks with
  | [] => s
  | rk0 :: rks' => rounds rks' (add_round_key s rk0)
  end.

Definition decrypt_block (rks : list Buffer.t) (s : Buffer.t) : Buffer.t :=
  match rks with
  | [] => s
  | rk0 :: rks' => add_round_key (inv_rounds rks' s) rk0
  end.

(** *** CBC over the blocks, PKCS#7 padding *)

Fixpoint chunks (fuel : nat) (bs : Buffer.t) : list Buffer.t :=
  match fuel, bs with
  | S fuel', _ :: _ => firstn 16 bs :: chunks fuel' (skipn 16 bs)
  | _, _ => []
  end.

Definition blocks (bs : Buffer.t) : list Buffer.t := chunks (length bs) bs.

Fixpoint cbc_encrypt (rks : list Buffer.t) (prev : Buffer.t) (ps : list Buffer.t)
  : list Buffer.t :=
  match ps with
  | [] => []
  | p :: ps' =>
      let c := encrypt_block rks (Buffer.xor p prev) in
      c :: cbc_encrypt rks c ps'
  end.

Fixpoint cbc_decrypt (rks : list Buffer.t) (prev : Buffer.t) (cs : list Buffer.t)
  : list Buffer.t :=
  match cs with
  | [] => []
  | c :: cs' => Buffer.xor (decrypt_block rks c) prev :: cbc_decrypt rks c cs'
  end.

Definition pad (bs : Buffer.t) : Buffer.t :=
  let n := (16 - length bs mod 16)%nat in
  bs ++ repeat (Buffer.byte (N.of_nat n)) n.

(** The padding check of the final block: the last byte [n] must be
    between 1 and 16 and the last [n] bytes must all be [n]. *)
Definition unpad (bs : Buffer.t) : option Buffer.t :=
  match last bs with
  | None => None
  | Some c =>
      let n := N.to_nat (N_of_ascii c) in
      if (n =? 0)%nat || (16 <? n)%nat || (length bs <? n)%nat then None
      else if forallb (Ascii.eqb c) (skipn (length bs - n) bs)
           then Some (firstn (length bs - n) bs)
           else None
  end.

End AES256.

(** ** [node:crypto], as the generators call it *)

Module crypto.

(** [crypto.pbkdf2Sync(password, salt, iterations, keylen, 'sha256')]
    with [password] and [salt] given as strings. *)
Definition pbkdf2Sync (password salt : string) (iterations keylen : N) : Buffer.t :=
  PBKDF2.derive (Buffer.from_utf8 password) (Buffer.from_utf8 salt) iterations keylen.

(** A [Cipher] or [Decipher] object for ['aes-256-cbc']. *)
Record Cipheriv := mkCipheriv { key : Buffer.t; iv : Buffer.t }.

(** [crypto.createCipheriv('aes-256-cbc', key, iv)] *)
Definition createCipheriv (key iv : Buffer.t) : Js.Error + Cipheriv :=
  if negb (length key =? 32)%nat then inl (Js.mkError "Invalid key length")
  else if negb (length iv =? 16)%nat then inl (Js.mkError "Invalid initialization vector")
  else inr (mkCipheriv key iv).

(** [crypto.createDecipheriv('aes-256-cbc', key, iv)] *)
Definition createDecipheriv (key iv : Buffer.t) : Js.Error + Cipheriv :=
  createCipheriv key iv.

(** [cipher.update(data, 'utf8', 'hex')] followed by [cipher.final('hex')],
    the two results joined. *)
Definition cipher_update_final (cipher : Cipheriv) (data : string) : string :=
  Buffer.to_hex
    (concat (AES256.cbc_encrypt (AES256.key_schedule (key cipher)) (iv cipher)
               (AES256.blocks (AES256.pad (Buffer.from_utf8 data))))).

(** The messages of the errors the cipher throws (OpenSSL 3). *)
Definition wrong_final_block_length : Js.Error :=
  Js.mkError "error:1C80006B:Provider routines::wrong final block length".

Definition bad_decrypt : Js.Error :=
  Js.mkError "error:1C800064:Provider routines::bad decrypt".

(** The [TypeError] of [update] for a hexadecimal string of odd length. *)
Definition invalid_hex_length (data : string) : Js.Error :=
  Js.mkError ("The argument 'encoding' is invalid for data of length "
              +:+ Js.string_of_number (Z.of_nat (Js.string_length data))
              +:+ ". Received 'hex'").

(** [decipher.update(data, 'hex', 'utf8')] followed by
    [decipher.final('utf8')], the two results joined.  [update] throws
    for a string of odd length; [final] throws when the input is not a
    positive number of whole blocks, and when the padding of the last
    block is not valid. *)
Definition decipher_update_final (decipher : Cipheriv) (data : string)
  : Js.Error + string :=
  if Nat.odd (Js.string_length data) then inl (invalid_hex_length data)
  else
    let ct := Buffer.from_hex data in
    if (length ct =? 0)%nat || negb (length ct mod 16 =? 0)%nat
    then inl wrong_final_block_length
    else
      match AES256.unpad
              (concat (AES256.cbc_decrypt (AES256.key_schedule (key decipher))
                         (iv decipher) (AES256.blocks ct))) with
      | None => inl bad_decrypt
      | Some plain => inr (Buffer.to_utf8 plain)
      end.

End crypto.

(** ** The wallet generators *)

(** What one call of a generator draws: the key pair of the chain's
    library, and the two results of [crypto.randomBytes(16)]. *)
Module Draws.
Record t := mk {
  address : string;
  privateKey : string;
  salt : Buffer.t;
  iv : Buffer.t
}.
End Draws.

Module EthereumWalletGenerator.

Definition generateEncryptedWallet (drawn : Draws.t) (password : string)
  : Js.Error + EncryptedWallet.t :=
  let salt := Buffer.to_hex (Draws.salt drawn) in
  let iv := Draws.iv drawn in
  let key := crypto.pbkdf2Sync password salt 100000 32 in
  cipher ← crypto.createCipheriv key iv;
  let encryptedPrivateKey := crypto.cipher_update_final cipher (Draws.privateKey drawn) in
  mret (EncryptedWallet.mk (Draws.address drawn) encryptedPrivateKey salt
          (Buffer.to_hex iv)).

Section Ethers.

(** [new ethers.Wallet(privateKey)], which belongs to the library. *)
Variable Wallet : Type.
Variable new_Wallet : string → Js.Error + Wallet.

Definition decryptWallet (encryptedWallet : EncryptedWallet.t) (password : string)
  : Js.Error + Wallet :=
  let key := crypto.pbkdf2Sync password (EncryptedWallet.salt encryptedWallet)
               100000 32 in
  let iv := Buffer.from_hex (EncryptedWallet.iv encryptedWallet) in
  decipher ← crypto.createDecipheriv key iv;
  decryptedPrivateKey ←
    crypto.decipher_update_final decipher
      (EncryptedWallet.encryptedPrivateKey encryptedWallet);
  new_Wallet decryptedPrivateKey.

End Ethers.

End EthereumWalletGenerator.

(** ** The Tron address check ([src/tronWalletGenerator.ts]) *)

Module TronWalletGenerator.

Definition base58Chars : string :=
  "123456789ABCDEFGHJKLMNPQRSTUVWXYZabcdefghijkmnopqrstuvwxyz".

Definition in_class (cls : string) (c : ascii) : bool :=
  existsb (Ascii.eqb c) (list_ascii_of_string cls).

(** [/^[cls]+$/.test(s)]: at least one character, all of the class. *)
Definition test_class_plus (cls s : string) : bool :=
  match list_ascii_of_string s with
  | [] => false
  | cs => forallb (in_class cls) cs
  end.

Definition validateTronAddress (address : string) : bool :=
  if (String.eqb address "")
     || negb (Js.startsWith address "T")
     || negb (String.length address =? 34)%nat
  then false
  else test_class_plus base58Chars address.

Definition generateEncryptedWallet (drawn : Draws.t) (password : string)
  : Js.Error + EncryptedWallet.t :=
  let privateKey := Draws.privateKey drawn in
  let address := Draws.address drawn in
  if negb (validateTronAddress address)
  then inl (Js.mkError "Generated address is invalid")
  else
    let salt := Buffer.to_hex (Draws.salt drawn) in
    let iv := Draws.iv drawn in
    let key := crypto.pbkdf2Sync password salt 100000 32 in
    cipher ← crypto.createCipheriv key iv;
    let encryptedPrivateKey := crypto.cipher_update_final cipher privateKey in
    mret (EncryptedWallet.mk address encryptedPrivateKey salt (Buffer.to_hex iv)).

(** The object [{ address, privateKey }] that [decryptWallet] returns. *)
Record account := mkAccount { address : string; privateKey : string }.

Definition decryptWallet (encryptedWallet : EncryptedWallet.t) (password : string)
  : Js.Error + account :=
  if negb (validateTronAddress (EncryptedWallet.address encryptedWallet))
  then inl (Js.mkError "Invalid Tron address format")
  else
    let key := crypto.pbkdf2Sync password (EncryptedWallet.salt encryptedWallet)
                 100000 32 in
    let iv := Buffer.from_hex (EncryptedWallet.iv encryptedWallet) in
    decipher ← crypto.createDecipheriv key iv;
    decryptedPrivateKey ←
      crypto.decipher_update_final decipher
        (EncryptedWallet.encryptedPrivateKey encryptedWallet);
    mret (mkAccount (EncryptedWallet.address encryptedWallet) decryptedPrivateKey).

End TronWalletGenerator.

(** ** The Bitcoin and Solana generators *)

Module BitcoinWalletGenerator.

(** [drawn] is the key pair made for [network]: the P2PKH address of
    its public key and its private key in WIF. *)
Definition generateEncryptedWallet (drawn : Draws.t) (password : string)
    (network : BitcoinNetwork.t) : Js.Error + EncryptedBitcoinWallet.t :=
  let privateKeyWIF := Draws.privateKey drawn in
  let salt := Buffer.to_hex (Draws.salt drawn) in
  let iv := Draws.iv drawn in
  let key := crypto.pbkdf2Sync password salt 100000 32 in
  cipher ← crypto.createCipheriv key iv;
  let encryptedPrivateKey := crypto.cipher_update_final cipher privateKeyWIF in
  mret (EncryptedBitcoinWallet.mk (Draws.address drawn) encryptedPrivateKey salt
          (Buffer.to_hex iv) network).

Section ECPair.

(** [ECPair.fromWIF(wif, network)], with [network] one of
    [bitcoin.networks.bitcoin] and [bitcoin.networks.testnet]. *)
Variable KeyPair : Type.
Variable fromWIF : string → BitcoinNetwork.t → Js.Error + KeyPair.

Definition decryptWallet (encryptedWallet : EncryptedBitcoinWallet.t)
    (password : string) : Js.Error + KeyPair :=
  let key := crypto.pbkdf2Sync password (EncryptedBitcoinWallet.salt encryptedWallet)
               100000 32 in
  let iv := Buffer.from_hex (EncryptedBitcoinWallet.iv encryptedWallet) in
  decipher ← crypto.createDecipheriv key iv;
  decryptedPrivateKeyWIF ←
    crypto.decipher_update_final decipher
      (EncryptedBitcoinWallet.encryptedPrivateKey encryptedWallet);
  let network :=
    match EncryptedBitcoinWallet.network encryptedWallet with
    | BitcoinNetwork.mainnet => BitcoinNetwork.mainnet
    | _ => BitcoinNetwork.testnet
    end in
  fromWIF decryptedPrivateKeyWIF network.

End ECPair.

End BitcoinWalletGenerator.

Module SolanaWalletGenerator.

(** [drawn] is the key pair of [Keypair.generate()]: the Base58 text of
    its public key, and the Base58 text [bs58.encode] gives for its
    secret key. *)
Definition generateEncryptedWallet (drawn : Draws.t) (password : string)
  : Js.Error + EncryptedWallet.t :=
  let privateKeyString := Draws.privateKey drawn in
  let salt := Buffer.to_hex (Draws.salt drawn) in
  let iv := Draws.iv drawn in
  let key := crypto.pbkdf2Sync password salt 100000 32 in
  cipher ← crypto.createCipheriv key iv;
  let encryptedPrivateKey := crypto.cipher_update_final cipher privateKeyString in
  mret (EncryptedWallet.mk (Draws.address drawn) encryptedPrivateKey salt
          (Buffer.to_hex iv)).

Section Libraries.

(** [bs58.decode] and [Keypair.fromSecretKey]. *)
Variable Keypair : Type.
Variable bs58_decode : string → Js.Error + Buffer.t.
Variable fromSecretKey : Buffer.t → Js.Error + Keypair.

Definition decryptWallet (encryptedWallet : EncryptedWallet.t) (password : string)
  : Js.Error + Keypair :=
  let key := crypto.pbkdf2Sync password (EncryptedWallet.salt encryptedWallet)
               100000 32 in
  let iv := Buffer.from_hex (EncryptedWallet.iv encryptedWallet) in
  decipher ← crypto.createDecipheriv key iv;
  decryptedPrivateKeyString ←
    crypto.decipher_update_final decipher
      (EncryptedWallet.encryptedPrivateKey encryptedWallet);
  decryptedPrivateKeyBytes ← bs58_decode decryptedPrivateKeyString;
  fromSecretKey decryptedPrivateKeyBytes.

End Libraries.

End SolanaWalletGenerator.

(** ** [WalletService] ([src/services/WalletService.ts]) *)

Module CHAIN_IDS.
Definition ETHEREUM_MAINNET : Z := 1.
Definition ETHEREUM_GOERLI : Z := 5.
Definition ETHEREUM_SEPOLIA : Z := 11155111.
Definition BSC_MAINNET : Z := 56.
Definition BSC_TESTNET : Z := 97.
Definition POLYGON_MAINNET : Z := 137.
Definition POLYGON_MUMBAI : Z := 80001.
Definition ARBITRUM_ONE : Z := 42161.
Definition ARBITRUM_NOVA : Z := 42170.
Definition OPTIMISM : Z := 10.
Definition AVALANCHE_C : Z := 43114.
Definition FANTOM : Z := 250.
End CHAIN_IDS.

Module WalletService.

Import MockDatabase.

(** The four [generateEncryptedWallet] functions as the service sees them:
    each call draws fresh key material and may throw. *)
Record Generators := mkGenerators {
  EthereumWalletGenerator : string → Js.Error + EncryptedWallet.t;
  BitcoinWalletGenerator : string → BitcoinNetwork.t → Js.Error + EncryptedBitcoinWallet.t;
  SolanaWalletGenerator : string → Js.Error + EncryptedWallet.t;
  TronWalletGenerator : string → Js.Error + EncryptedWallet.t
}.

(** [DatabaseWalletData], every field set. *)
Record DatabaseWalletData := mkData {
  data_ethereum : EncryptedWallet.t * option Z;
  data_bitcoin : EncryptedBitcoinWallet.t;
  data_solana : EncryptedWallet.t;
  data_tron : EncryptedWallet.t
}.

(** [chainId || dflt] on an optional [number]: [undefined] and [0] are falsy. *)
Definition number_or (chainId : option Z) (dflt : Z) : Z :=
  match chainId with
  | Some n => if (n =? 0)%Z then dflt else n
  | None => dflt
  end.

Definition plainWalletData (ty : WalletType.t) (w : EncryptedWallet.t) : CreateWalletData.t :=
  CreateWalletData.mk ty (EncryptedWallet.address w)
    (EncryptedWallet.encryptedPrivateKey w) (EncryptedWallet.salt w)
    (EncryptedWallet.iv w) None None.

Section WithGenerators.

Variable gen : Generators.

Definition generateAndStoreWallets (now : Z) (userId password : string)
    (chainId : option Z) : Eff MockDatabase.t DatabaseWalletData :=
  ethWallet ← await (EthereumWalletGenerator gen password);
  let ethWalletData :=
    CreateWalletData.mk WalletType.ethereum (EncryptedWallet.address ethWallet)
      (EncryptedWallet.encryptedPrivateKey ethWallet) (EncryptedWallet.salt ethWallet)
      (EncryptedWallet.iv ethWallet) None
      (Some (number_or chainId CHAIN_IDS.ETHEREUM_MAINNET)) in
  storedEthWallet ← createWallet now userId ethWalletData;
  btcWallet ← await (BitcoinWalletGenerator gen password BitcoinNetwork.mainnet);
  let btcWalletData :=
    CreateWalletData.mk WalletType.bitcoin (EncryptedBitcoinWallet.address btcWallet)
      (EncryptedBitcoinWallet.encryptedPrivateKey btcWallet)
      (EncryptedBitcoinWallet.salt btcWallet) (EncryptedBitcoinWallet.iv btcWallet)
      (Some (BitcoinNetwork.to_string (EncryptedBitcoinWallet.network btcWallet)))
      None in
  storedBtcWallet ← createWallet now userId btcWalletData;
  solWallet ← await (SolanaWalletGenerator gen password);
  storedSolWallet ← createWallet now userId (plainWalletData WalletType.solana solWallet);
  tronWallet ← await (TronWalletGenerator gen password);
  storedTronWallet ← createWallet now userId (plainWalletData WalletType.tron tronWallet);
  mret (mkData (ethWallet, CreateWalletData.chainId ethWalletData)
               btcWallet solWallet tronWallet).

Definition generateEthereumWallet (now : Z) (userId password : string) (chainId : Z)
  : Eff MockDatabase.t WalletRecord.t :=
  ethWallet ← await (EthereumWalletGenerator gen password);
  let walletData :=
    CreateWalletData.mk WalletType.ethereum (EncryptedWallet.address ethWallet)
      (EncryptedWallet.encryptedPrivateKey ethWallet) (EncryptedWallet.salt ethWallet)
      (EncryptedWallet.iv ethWallet) None (Some chainId) in
  createWallet now userId walletData.

Definition generateBitcoinWallet (now : Z) (userId password : string)
    (network : BitcoinNetwork.t) : Eff MockDatabase.t WalletRecord.t :=
  btcWallet ← await (BitcoinWalletGenerator gen password network);
  let walletData :=
    CreateWalletData.mk WalletType.bitcoin (EncryptedBitcoinWallet.address btcWallet)
      (EncryptedBitcoinWallet.encryptedPrivateKey btcWallet)
      (EncryptedBitcoinWallet.salt btcWallet) (EncryptedBitcoinWallet.iv btcWallet)
      (Some (BitcoinNetwork.to_string (EncryptedBitcoinWallet.network btcWallet)))
      None in
  createWallet now userId walletData.

Definition generateSolanaWallet (now : Z) (userId password : string)
  : Eff MockDatabase.t WalletRecord.t :=
  solWallet ← await (SolanaWalletGenerator gen password);
  createWallet now userId (plainWalletData WalletType.solana solWallet).

Definition generateTronWallet (now : Z) (userId password : string)
  : Eff MockDatabase.t WalletRecord.t :=
  tronWallet ← await (TronWalletGenerator gen password);
  createWallet now userId (plainWalletData WalletType.tron tronWallet).

End WithGenerators.

Definition init : Eff MockDatabase.t unit := connect.
Definition cleanup : Eff MockDatabase.t unit := disconnect.

Definition getWallets (userId : string) : Eff MockDatabase.t (list WalletRecord.t) :=
  getWalletsByUser userId.

Definition getWalletsByChain (userId : string) (chainId : Z)
  : Eff MockDatabase.t (list WalletRecord.t) :=
  getWalletsByChainId userId chainId.

Definition getWalletByAddress (toLowerCase : string → string) (userId address : string)
  : Eff MockDatabase.t (option WalletRecord.t) :=
  getWallet toLowerCase userId address.

Definition deleteWallet (walletId : Z) : Eff MockDatabase.t bool :=
  MockDatabase.deleteWallet walletId.

End WalletService.


(** ** [DatabaseFactory] ([src/db/DatabaseFactory.ts]) *)

Module DatabaseFactory.

(** The two implementations of [IWalletDatabase]. *)
Inductive database :=
  | Mock (db : MockDatabase.t)
  | MySQL (db : MySQLDatabase.t).

(** [createDatabase()], with [DB_MOCK] the value of
    [process.env.DB_MOCK]: every call makes a new store. *)
Definition createDatabase (DB_MOCK : option string) : database :=
  let useMock := bool_decide (DB_MOCK = Some "true") in
  if useMock then Mock MockDatabase.new else MySQL (MySQLDatabase.mk None).

End DatabaseFactory.

(** ** The swap test ([src/tests/testSwapService.ts])

    [new WalletService()] and [new SwapService(true)] each keep the store
    that their own call of [DatabaseFactory.createDatabase] returned.  The
    test is modelled for the in-memory store, where its state is the two
    stores; with the relational store both services talk to one
    database server, which is not modelled. *)

Module testSwapService.

Record services := mkServices {
  walletService : MockDatabase.t;
  swapService : MockDatabase.t
}.

(** The two constructor calls; [None] when they return relational
    stores. *)
Definition new_services (DB_MOCK : option string) : option services :=
  match DatabaseFactory.createDatabase DB_MOCK, DatabaseFactory.createDatabase DB_MOCK with
  | DatabaseFactory.Mock db1, DatabaseFactory.Mock db2 => Some (mkServices db1 db2)
  | _, _ => None
  end.

(** A method of a service, run on the store of that service. *)
Definition on_walletService {A} (m : Eff MockDatabase.t A) : Eff services A :=
  λ s, let '(r, db') := m (walletService s) in (r, mkServices db' (swapService s)).

Definition on_swapService {A} (m : Eff MockDatabase.t A) : Eff services A :=
  λ s, let '(r, db') := m (swapService s) in (r, mkServices (walletService s) db').

Section Run.

Variable gen : WalletService.Generators.
Variable api : ChangeNow.API.

(** The body of the [try] of [testSwapService]; [userId] is
    [`test-${Date.now()}`], [now] and [now'] are the times of the two
    writes. *)
Definition try_body (now now' : Z) (userId : string) : Eff services Z :=
  let password := "Test123!" in
  on_walletService WalletService.init;;
  on_swapService SwapService.init;;
  wallets ← on_walletService
              (WalletService.generateAndStoreWallets gen now userId password None);
  storedWallets ← on_walletService (WalletService.getWallets userId);
  match MockDatabase.find (λ w, WalletRecord.walletType w = WalletType.ethereum)
                          storedWallets with
  | None => throw (Js.mkError "Failed to retrieve Ethereum wallet from database")
  | Some ethWallet =>
      let fromCurrency := "ETH" in
      let toCurrency := "BTC" in
      let amount := "1.0" in
      rate ← on_swapService
               (SwapService.getExchangeRate api fromCurrency toCurrency amount
                  (Some CHAIN_IDS.ETHEREUM_MAINNET) None);
      swap ← on_swapService
               (SwapService.createSwap api now' (WalletRecord.id ethWallet)
                  fromCurrency toCurrency amount "mock-btc-address-for-testing"
                  (WalletRecord.address ethWallet)
                  (Some CHAIN_IDS.ETHEREUM_MAINNET) None);
      status ← on_swapService (SwapService.getSwapStatus api (TransactionRecord.hash swap));
      walletSwaps ← on_swapService
                      (SwapService.getSwapsByWallet (WalletRecord.id ethWallet));
      userSwaps ← on_swapService (SwapService.getSwapsByUser userId);
      on_swapService (SwapService.updatePendingSwaps api)
  end.

End Run.

End testSwapService.
(** ** Vocabulary of the statements below *)

(** A store built through the interface alone: one wallet, one transaction
    of that wallet. *)
Definition one_wallet_one_transaction : Eff MockDatabase.t TransactionRecord.t :=
  MockDatabase.connect;;
  w ← MockDatabase.createWallet 0 "alice"
        (CreateWalletData.mk WalletType.ethereum "0xAbC" "c0ffee" "00" "11" None (Some 1%Z));
  MockDatabase.recordTransaction 1
    (TransactionData.mk (WalletRecord.id w) TransactionType.send "0xAbC" "0xDeF"
       "1.5" "ETH" "0.002" TransactionStatus.completed "0x01" (Some 1%Z) None None).

(** The Base58 alphabet, as a predicate on character codes. *)
Definition is_base58 (c : ascii) : Prop :=
  let n := N_of_ascii c in
  ((49 ≤ n ≤ 57) ∨ (65 ≤ n ≤ 90 ∧ n ≠ 73 ∧ n ≠ 79)
   ∨ (97 ≤ n ≤ 122 ∧ n ≠ 108))%N.

(** Two characters that are equal or the two cases of one ASCII letter. *)
Definition is_upper (c : ascii) : Prop := (65 ≤ N_of_ascii c ≤ 90)%N.

Inductive same_letter : ascii → ascii → Prop :=
  | same_letter_refl c : same_letter c c
  | same_letter_down c : is_upper c → same_letter c (Js.lower_ascii c)
  | same_letter_up c : is_upper c → same_letter (Js.lower_ascii c) c.

(** Two strings that differ only in ASCII letter case. *)
Inductive differs_only_in_case : string → string → Prop :=
  | differs_nil : differs_only_in_case "" ""
  | differs_cons c d s t :
      same_letter c d → differs_only_in_case s t →
      differs_only_in_case (String c s) (String d t).

(** What the statements below ask of the runtime's [toLowerCase]: two
    strings that differ only in ASCII letter case have one lower-case
    form. *)
Definition folds_letter_case (toLowerCase : string → string) : Prop :=
  ∀ s t, differs_only_in_case s t → toLowerCase s = toLowerCase t.

(** The error [updatePendingSwaps] throws: the [TypeError] of the call of
    the method the store lacks, wrapped by the outer [catch]. *)
Definition updatePendingSwaps_error : Js.Error :=
  Js.mkError
    "Failed to update pending swaps: this.db.getTransactionsByStatus is not a function".

(** A store with two wallets of one owner whose addresses differ only in
    letter case, built through the interface. *)
Definition case_clash_store : MockDatabase.t :=
  snd ((MockDatabase.connect;;
        MockDatabase.createWallet 0 "bob"
          (CreateWalletData.mk WalletType.bitcoin "1AbCd" "c0ffee" "00" "11"
             (Some "mainnet") None);;
        MockDatabase.createWallet 1 "bob"
          (CreateWalletData.mk WalletType.bitcoin "1aBcD" "decade" "22" "33"
             (Some "mainnet") None)) MockDatabase.new).

(** A later state of a connected store that still holds every wallet of
    the earlier one. *)
Definition extends (db db' : MockDatabase.t) : Prop :=
  MockDatabase.connected db' = true
  ∧ ∀ w, w ∈ MockDatabase.wallets db → w ∈ MockDatabase.wallets db'.

(** The projection of the gateway's status onto the stored one, as the
    specification tabulates it. *)
Definition coarse_status (s : ChangeNow.status) : TransactionStatus.t :=
  match s with
  | ChangeNow.waiting | ChangeNow.confirming | ChangeNow.exchanging | ChangeNow.sending =>
      TransactionStatus.pending
  | ChangeNow.finished => TransactionStatus.completed
  | ChangeNow.failed | ChangeNow.refunded => TransactionStatus.failed
  end.

(** The record [tx] with the status [s] and every other field as it is. *)
Definition with_status (s : TransactionStatus.t) (tx : TransactionRecord.t)
  : TransactionRecord.t :=
  TransactionRecord.mk
    (TransactionRecord.id tx) (TransactionRecord.walletId tx)
    (TransactionRecord.transactionType tx) (TransactionRecord.fromAddress tx)
    (TransactionRecord.toAddress tx) (TransactionRecord.amount tx)
    (TransactionRecord.currency tx) (TransactionRecord.fee tx)
    s
    (TransactionRecord.hash tx) (TransactionRecord.chainId tx)
    (TransactionRecord.fromChainId tx) (TransactionRecord.toChainId tx)
    (TransactionRecord.timestamp tx).

Definition is_pending_swap (tx : TransactionRecord.t) : Prop :=
  TransactionRecord.status tx = TransactionStatus.pending
  ∧ TransactionRecord.transactionType tx = TransactionType.swap.

(** The terminal status a record is due, if any: it is a pending swap, the
    gateway answers for its hash, and the answer projects to [completed]
    or [failed]. *)
Definition settlement (api : ChangeNow.API) (tx : TransactionRecord.t)
  : option TransactionStatus.t :=
  if decide (is_pending_swap tx) then
    match ChangeNow.getTransactionStatus api (TransactionRecord.hash tx) with
    | inr st =>
        let s := coarse_status (ChangeNow.SwapStatus.status st) in
        if decide (s = TransactionStatus.pending) then None else Some s
    | inl _ => None
    end
  else None.

Definition reconciled (api : ChangeNow.API) (tx : TransactionRecord.t)
  : TransactionRecord.t :=
  match settlement api tx with
  | Some s => with_status s tx
  | None => tx
  end.

(** The invariant of the in-memory store's transactions: ids are distinct
    and below the counter. *)
Definition well_formed (db : MockDatabase.t) : Prop :=
  NoDup (TransactionRecord.id <$> MockDatabase.transactions db)
  ∧ Forall (λ tx, (TransactionRecord.id tx < MockDatabase.transactionIdCounter db)%Z)
           (MockDatabase.transactions db).

(** Generators that hand out fixed wallets, for the examples below. *)
Definition sample_wallet : EncryptedWallet.t :=
  EncryptedWallet.mk "0x52908400098527886E0F7030069857D2E4169EE7"
    "c0ffee" "000102030405060708090a0b0c0d0e0f" "f0e0d0c0b0a090807060504030201000".

Definition sample_generators : WalletService.Generators :=
  WalletService.mkGenerators
    (λ _, inr sample_wallet)
    (λ _ network,
       inr (EncryptedBitcoinWallet.mk "1BoatSLRHtKNngkdXEeobR76b53LETtpyT"
              "c0ffee" "00" "11" network))
    (λ _, inr (EncryptedWallet.mk "4Nd1mY" "c0ffee" "00" "11"))
    (λ _, inr (EncryptedWallet.mk "TRjE1H8dxypKM1NZRdysbs9wo7huR4bdNz" "c0ffee" "00" "11")).

(** A connected store with one wallet, and the same store after two swaps
    were created from that wallet under the order ids [order-1] and
    [order-2]. *)
Definition store_with_wallet : MockDatabase.t :=
  snd ((MockDatabase.connect;;
        MockDatabase.createWallet 0 "alice"
          (CreateWalletData.mk WalletType.ethereum
             "0x52908400098527886E0F7030069857D2E4169EE7" "c0ffee" "00" "11"
             None (Some 1%Z))) MockDatabase.new).

Definition stored_wallet : WalletRecord.t :=
  WalletRecord.mk 1 "alice" WalletType.ethereum
    "0x52908400098527886E0F7030069857D2E4169EE7" "c0ffee" "00" "11" None (Some 1%Z) 0 0.

Definition store_with_two_swaps : MockDatabase.t :=
  snd ((SwapService.createSwap (ChangeNow.scripted "order-1" ChangeNow.waiting) 1 1
          "ETH" "BTC" "1.0" "bc1q" "0xAbC" (Some 1%Z) None;;
        SwapService.createSwap (ChangeNow.scripted "order-2" ChangeNow.waiting) 2 1
          "ETH" "MATIC" "2.0" "0xDeF" "0xAbC" (Some 1%Z) (Some 137%Z))
         store_with_wallet).

(** One outcome of the draws of [generateEncryptedWallet]. *)
Definition sample_draws : Draws.t :=
  Draws.mk "0x2c7536E3605D9C16a7a3D7b1898e529396a65c23"
    "0x4c0883a69102937d6231471b5dbb6204fe5129617082792ae468d01a3f362318"
    (Buffer.from_hex "000102030405060708090a0b0c0d0e0f")
    (Buffer.from_hex "f0e0d0c0b0a090807060504030201000").


(** The error of [ensureConnected]. *)
Definition notConnected : Js.Error :=
  Js.mkError "Database not connected. Call connect() first.".

(** The invariant of the in-memory store's wallets: ids are distinct and
    below the counter. *)
Definition wallets_well_formed (db : MockDatabase.t) : Prop :=
  NoDup (WalletRecord.id <$> MockDatabase.wallets db)
  ∧ Forall (λ w, (WalletRecord.id w < MockDatabase.walletIdCounter db)%Z)
           (MockDatabase.wallets db).

(** The chain ids for which the gateway's requests name a network. *)
Definition named_chain_ids : list Z :=
  [CHAIN_IDS.ETHEREUM_MAINNET; CHAIN_IDS.BSC_MAINNET; CHAIN_IDS.POLYGON_MAINNET;
   CHAIN_IDS.AVALANCHE_C; CHAIN_IDS.OPTIMISM; CHAIN_IDS.ARBITRUM_ONE].

(** The decimal digit of a number below ten, as a character. *)
Definition digit_char (d : Z) : ascii := ascii_of_N (48 + Z.to_N d).

(** What the check below asks of the rendering of [r]: its last code unit
    is the digit of [r mod 10]. *)
Definition ends_in_last_digit (r : Z) : bool :=
  let s := Js.string_of_number r in
String.eqb (Js.slice_last s) (String (digit_char (r mod 10)) EmptyString)
&& existsb (λ b, negb (Js.is_continuation b)) (list_ascii_of_string s).

(** The record [createWallet] makes of [walletData] for the owner
    [userId] at the time [now], when the counter stands at [id]. *)
Definition wallet_record (id now : Z) (userId : string) (walletData : CreateWalletData.t)
  : WalletRecord.t :=
  WalletRecord.mk id userId
    (CreateWalletData.walletType walletData) (CreateWalletData.address walletData)
    (CreateWalletData.encryptedPrivateKey walletData) (CreateWalletData.salt walletData)
    (CreateWalletData.iv walletData) (CreateWalletData.network walletData)
    (CreateWalletData.chainId walletData) now now.

(** What [WalletService] hands to [createWallet] for an Ethereum wallet
    on the chain [chainId], and for a Bitcoin wallet. *)
Definition ethereum_data (w : EncryptedWallet.t) (chainId : Z) : CreateWalletData.t :=
  CreateWalletData.mk WalletType.ethereum (EncryptedWallet.address w)
    (EncryptedWallet.encryptedPrivateKey w) (EncryptedWallet.salt w)
    (EncryptedWallet.iv w) None (Some chainId).

Definition bitcoin_data (w : EncryptedBitcoinWallet.t) : CreateWalletData.t :=
  CreateWalletData.mk WalletType.bitcoin (EncryptedBitcoinWallet.address w)
    (EncryptedBitcoinWallet.encryptedPrivateKey w) (EncryptedBitcoinWallet.salt w)
    (EncryptedBitcoinWallet.iv w)
    (Some (BitcoinNetwork.to_string (EncryptedBitcoinWallet.network w))) None.

(** A store after the wallets [ws] were created in it, one after the
    other. *)
Definition with_wallets (ws : list WalletRecord.t) (db : MockDatabase.t) : MockDatabase.t :=
  MockDatabase.mk (MockDatabase.wallets db ++ ws) (MockDatabase.transactions db)
    (MockDatabase.walletIdCounter db + Z.of_nat (length ws))
    (MockDatabase.transactionIdCounter db) (MockDatabase.connected db).

(** Generators of which the last throws as [TronWalletGenerator] does for
    an address that is not one of Tron. *)
Definition generators_without_tron : WalletService.Generators :=
  WalletService.mkGenerators
    (WalletService.EthereumWalletGenerator sample_generators)
    (WalletService.BitcoinWalletGenerator sample_generators)
    (WalletService.SolanaWalletGenerator sample_generators)
    (TronWalletGenerator.generateEncryptedWallet
       (Draws.mk "AB123" "00" (Buffer.from_hex "00") (Buffer.from_hex "11"))).

(** * Properties *)

(** ** Running a computation *)

Ltac eff_unfold :=
  unfold mbind, mret, eff_bind, eff_ret, throw, try_catch, await, get_state, put_state.


Section MockDatabaseRuns.

Import MockDatabase.

Variable db : MockDatabase.t.
Hypothesis Hconn : connected db = true.

Lemma run_ensureConnected : ensureConnected db = (inr tt, db).
Proof using Hconn. unfold ensureConnected. eff_unfold. by rewrite Hconn. Qed.

Lemma run_getWallet toLowerCase userId address :
  getWallet toLowerCase userId address db =
  (inr (find (λ w, WalletRecord.userId w = userId ∧
                   toLowerCase (WalletRecord.address w) = toLowerCase address)
             (wallets db)), db).
Proof using Hconn.
  unfold getWallet. unfold mbind at 1, eff_bind. rewrite run_ensureConnected. done.
Qed.

Lemma run_getWalletById walletId :
  getWalletById walletId db =
  (inr (find (λ w, WalletRecord.id w = walletId) (wallets db)), db).
Proof using Hconn.
  unfold getWalletById. unfold mbind at 1, eff_bind. rewrite run_ensureConnected. done.
Qed.

Lemma run_getWalletsByChainId userId chainId :
  getWalletsByChainId userId chainId db =
  (inr (filter (λ w, WalletRecord.userId w = userId ∧
                     WalletRecord.chainId w = Some chainId) (wallets db)), db).
Proof using Hconn.
  unfold getWalletsByChainId. unfold mbind at 1, eff_bind. rewrite run_ensureConnected. done.
Qed.

Lemma run_getTransactionsByWallet walletId :
  getTransactionsByWallet walletId db =
  (inr (filter (λ tx, TransactionRecord.walletId tx = walletId) (transactions db)), db).
Proof using Hconn.
  unfold getTransactionsByWallet. unfold mbind at 1, eff_bind. rewrite run_ensureConnected. done.
Qed.

Lemma run_getTransactionsByHash toLowerCase hash :
  getTransactionsByHash toLowerCase hash db =
  (inr (find (λ tx, toLowerCase (TransactionRecord.hash tx) = toLowerCase hash)
             (transactions db)), db).
Proof using Hconn.
  unfold getTransactionsByHash. unfold mbind at 1, eff_bind. rewrite run_ensureConnected. done.
Qed.

Lemma run_deleteWallet walletId :
  deleteWallet walletId db =
  (inr (negb (length (filter (λ w, WalletRecord.id w ≠ walletId) (wallets db))
              =? length (wallets db))%nat),
   set_wallets (filter (λ w, WalletRecord.id w ≠ walletId) (wallets db)) db).
Proof using Hconn.
  unfold deleteWallet. unfold mbind at 1, eff_bind. rewrite run_ensureConnected. done.
Qed.

Lemma run_createWallet now userId walletData :
  createWallet now userId walletData db =
  (let wallet :=
     WalletRecord.mk (walletIdCounter db) userId
       (CreateWalletData.walletType walletData) (CreateWalletData.address walletData)
       (CreateWalletData.encryptedPrivateKey walletData) (CreateWalletData.salt walletData)
       (CreateWalletData.iv walletData) (CreateWalletData.network walletData)
       (CreateWalletData.chainId walletData) now now in
   (inr wallet,
    mk (wallets db ++ [wallet]) (transactions db) (walletIdCounter db + 1)
       (transactionIdCounter db) (connected db))).
Proof using Hconn.
  unfold createWallet. unfold mbind at 1, eff_bind. rewrite run_ensureConnected. done.
Qed.

Lemma run_recordTransaction now d :
  recordTransaction now d db =
  (let transaction :=
     TransactionRecord.mk (transactionIdCounter db)
       (TransactionData.walletId d) (TransactionData.transactionType d)
       (TransactionData.fromAddress d) (TransactionData.toAddress d)
       (TransactionData.amount d) (TransactionData.currency d) (TransactionData.fee d)
       (TransactionData.status d) (TransactionData.hash d) (TransactionData.chainId d)
       (TransactionData.fromChainId d) (TransactionData.toChainId d) now in
   (inr transaction,
    mk (wallets db) (transactions db ++ [transaction]) (walletIdCounter db)
       (transactionIdCounter db + 1) (connected db))).
Proof using Hconn.
  unfold recordTransaction. unfold mbind at 1, eff_bind. rewrite run_ensureConnected. done.
Qed.

Lemma run_updateTransaction id data :
  updateTransaction id data db =
  match list_find (λ tx, TransactionRecord.id tx = id) (transactions db) with
  | None => (inr false, db)
  | Some (index, old) =>
      (inr true,
       set_transactions (<[index := PartialTransaction.spread old data]> (transactions db)) db)
  end.
Proof using Hconn.
  unfold updateTransaction. unfold mbind at 1, eff_bind. rewrite run_ensureConnected.
  eff_unfold. by destruct (list_find _ _) as [[??]|].
Qed.

End MockDatabaseRuns.

(** ** Deleting a wallet *)

Lemma filter_none {A} (P : A → Prop) `{!∀ x, Decision (P x)} (l : list A) :
  Forall (λ x, ¬ P x) l → filter P l = [].
Proof. induction 1 as [|x l Hx _ IH]; [done|]. by rewrite filter_cons_False. Qed.

Section DeleteWallet.

(** In the in-memory store [deleteWallet] filters [wallets] only: the
    transactions of the deleted wallet are all still returned. *)
Lemma mock_deleteWallet_keeps_transactions db walletId :
  MockDatabase.connected db = true →
  ∃ deleted db',
    MockDatabase.deleteWallet walletId db = (inr deleted, db') ∧
    MockDatabase.getTransactionsByWallet walletId db' =
      (inr (filter (λ tx, TransactionRecord.walletId tx = walletId)
                   (MockDatabase.transactions db)), db').
Proof.
  intros Hc. eexists _, _. split; [by apply run_deleteWallet|].
  by rewrite run_getTransactionsByWallet.
Qed.

(** The relational store deletes the wallet's transactions first: the
    query afterwards is empty. *)
Lemma mysql_deleteWallet_cascades tb walletId :
  ∃ deleted db',
    MySQLDatabase.deleteWallet walletId (MySQLDatabase.mk (Some tb)) = (inr deleted, db') ∧
    MySQLDatabase.getTransactionsByWallet walletId db' = (inr [], db').
Proof.
  eexists _, _. split.
  { unfold MySQLDatabase.deleteWallet, MySQLDatabase.ensureConnected.
    eff_unfold. cbn. reflexivity. }
  unfold MySQLDatabase.getTransactionsByWallet, MySQLDatabase.ensureConnected.
  eff_unfold. cbn.
  rewrite filter_none; [done|].
  apply Forall_forall. intros tx Htx. apply list_elem_of_filter in Htx. tauto.
Qed.

End DeleteWallet.

(** C3 (evaluated on the in-memory store): after a wallet and one of its
    transactions are stored through the interface, [deleteWallet] of that
    wallet answers [true] and [getTransactionsByWallet] of its id still
    returns the transaction; the cascade the claim states does not happen. *)
Theorem mock_deleteWallet_leaves_orphan_transaction :
  fst ((tx ← one_wallet_one_transaction;
        deleted ← MockDatabase.deleteWallet (TransactionRecord.walletId tx);
        remaining ← MockDatabase.getTransactionsByWallet (TransactionRecord.walletId tx);
        mret (deleted, remaining)) MockDatabase.new)
  = inr (true,
         [TransactionRecord.mk 1 1 TransactionType.send "0xAbC" "0xDeF" "1.5" "ETH" "0.002"
            TransactionStatus.completed "0x01" (Some 1%Z) None None 1]).
Proof. reflexivity. Qed.

(** ** [createSwap] on an unknown wallet *)

Lemma find_None {A} (P : A → Prop) `{!∀ x, Decision (P x)} (l : list A) :
  Forall (λ x, ¬ P x) l → MockDatabase.find P l = None.
Proof.
  intros Hall. unfold MockDatabase.find.
  by rewrite (proj2 (list_find_None P l) Hall).
Qed.

Lemma message_walletNotFound walletId dflt :
  Js.message_or (SwapService.walletNotFound walletId) dflt
  = "Wallet with ID " +:+ Js.string_of_number walletId +:+ " not found".
Proof. unfold Js.message_or. by case_decide. Qed.




(** ** The Tron address check *)

Section TronAddress.

Import TronWalletGenerator.

Lemma in_class_base58 c : is_base58 c → in_class base58Chars c = true.
Proof.
  unfold is_base58. intros H.
  destruct c as [[] [] [] [] [] [] [] []]; try reflexivity;
    exfalso; cbn in H; lia.
Qed.

Lemma forallb_in_class cs :
  Forall is_base58 cs → forallb (in_class base58Chars) cs = true.
Proof.
  induction 1 as [|c cs Hc _ IH]; [done|].
  cbn [forallb]. by rewrite in_class_base58, IH.
Qed.

Lemma length_list_ascii s : length (list_ascii_of_string s) = String.length s.
Proof. induction s as [|c s IH]; cbn; congruence. Qed.

End TronAddress.

(** C8: [validateTronAddress] accepts every string of 34 Base58 characters
    that starts with [T], the address of the test among them, and rejects
    every string of length 5, [AB123] among them. *)
Theorem validateTronAddress_spec :
  (∀ s, String.length s = 34 →
        Forall is_base58 (list_ascii_of_string s) →
        Js.startsWith s "T" = true →
        TronWalletGenerator.validateTronAddress s = true)
  ∧ TronWalletGenerator.validateTronAddress "TRjE1H8dxypKM1NZRdysbs9wo7huR4bdNz" = true
  ∧ (∀ s, String.length s = 5 → TronWalletGenerator.validateTronAddress s = false)
  ∧ TronWalletGenerator.validateTronAddress "AB123" = false.
Proof.
  split; [|split; [reflexivity|split; [|reflexivity]]].
  - intros s Hlen Hall HT. unfold TronWalletGenerator.validateTronAddress.
    rewrite HT, Hlen. destruct s as [|c s]; [discriminate|].
    cbn [String.eqb negb orb Nat.eqb].
    unfold TronWalletGenerator.test_class_plus.
    cbn [list_ascii_of_string] in *.
    by apply forallb_in_class.
  - intros s Hlen. unfold TronWalletGenerator.validateTronAddress.
    rewrite Hlen. cbn [Nat.eqb negb]. by rewrite !orb_true_r.
Qed.

Lemma validateTronAddress_spec_witness :
  TronWalletGenerator.validateTronAddress "T1111111111111111111111111111zzzzz" = true
  ∧ TronWalletGenerator.validateTronAddress "Tabcd" = false.
Proof.
  split.
  - apply (proj1 validateTronAddress_spec "T1111111111111111111111111111zzzzz").
    + reflexivity.
    + repeat (apply List.Forall_cons; [unfold is_base58; cbn; lia|]).
      apply List.Forall_nil.
    + reflexivity.
  - apply (proj1 (proj2 (proj2 validateTronAddress_spec)) "Tabcd"). reflexivity.
Defined.

(** ** Case-insensitive lookups in the in-memory store *)

Section LetterCase.

Lemma lower_ascii_idem c : Js.lower_ascii (Js.lower_ascii c) = Js.lower_ascii c.
Proof. by destruct c as [[] [] [] [] [] [] [] []]. Qed.

Lemma lower_ascii_upper c :
  is_upper c → Js.lower_ascii c = ascii_of_N (N_of_ascii c + 32).
Proof.
  unfold is_upper, Js.lower_ascii. intros [H1 H2].
  apply N.leb_le in H1, H2. by rewrite H1, H2.
Qed.

Lemma lower_ascii_not_upper c : ¬ is_upper c → Js.lower_ascii c = c.
Proof.
  unfold is_upper, Js.lower_ascii. intros H.
  destruct (65 <=? N_of_ascii c)%N eqn:H1; [|done].
  destruct (N_of_ascii c <=? 90)%N eqn:H2; [|done].
  apply N.leb_le in H1, H2. by destruct H.
Qed.

Lemma is_upper_dec c : is_upper c ∨ ¬ is_upper c.
Proof. unfold is_upper. lia. Qed.

Lemma same_letter_lower c d :
  same_letter c d ↔ Js.lower_ascii c = Js.lower_ascii d.
Proof.
  split.
  - destruct 1; by rewrite ?lower_ascii_idem.
  - intros Heq.
    destruct (is_upper_dec c) as [Hc|Hc], (is_upper_dec d) as [Hd|Hd].
    + rewrite (lower_ascii_upper c), (lower_ascii_upper d) in Heq by done.
      apply (f_equal N_of_ascii) in Heq.
      unfold is_upper in Hc, Hd.
      rewrite !N_ascii_embedding in Heq by lia.
      assert (N_of_ascii c = N_of_ascii d) as Hn by lia.
      apply (f_equal ascii_of_N) in Hn. rewrite !ascii_N_embedding in Hn.
      subst d. constructor.
    + rewrite (lower_ascii_not_upper d) in Heq by done. subst d. by constructor.
    + rewrite (lower_ascii_not_upper c) in Heq by done. subst c. by constructor.
    + rewrite (lower_ascii_not_upper c), (lower_ascii_not_upper d) in Heq by done.
      subst d. constructor.
Qed.

Lemma differs_only_in_case_lower s t :
  differs_only_in_case s t ↔ Js.toLowerCase_ascii s = Js.toLowerCase_ascii t.
Proof.
  split.
  - induction 1 as [|c d s t Hcd _ IH]; [done|].
    cbn. apply same_letter_lower in Hcd. congruence.
  - revert t. induction s as [|c s IH]; intros [|d t] Heq; try discriminate.
    + constructor.
    + cbn in Heq. injection Heq as Hcd Hst.
      constructor; [by apply same_letter_lower|by apply IH].
Qed.

Lemma folds_letter_case_ascii : folds_letter_case Js.toLowerCase_ascii.
Proof. intros s t. apply differs_only_in_case_lower. Qed.

(** [find] returns an element of the list that satisfies the test, and
    none before it does. *)
Lemma find_Some_first {A} (P : A → Prop) `{!∀ x, Decision (P x)} (l : list A) x :
  MockDatabase.find P l = Some x →
  ∃ pre post, l = pre ++ x :: post ∧ Forall (λ y, ¬ P y) pre ∧ P x.
Proof.
  unfold MockDatabase.find. intros Hf.
  destruct (list_find P l) as [[i y]|] eqn:Hl; [|done].
  cbn in Hf. injection Hf as ->.
  apply list_find_Some in Hl as (Hi & HP & Hbefore).
  exists (take i l), (drop (S i) l). split_and!; [|
    |done].
  - by rewrite <- (take_drop_middle l i x Hi) at 1.
  - apply Forall_forall. intros y Hy.
    apply list_elem_of_lookup in Hy as [j Hj].
    apply lookup_take_Some in Hj as [Hj Hlt]. by eapply Hbefore.
Qed.

(** [find] finds something as soon as one element satisfies the test. *)
Lemma find_is_Some {A} (P : A → Prop) `{!∀ x, Decision (P x)} (l : list A) x :
  x ∈ l → P x → is_Some (MockDatabase.find P l).
Proof.
  intros Hin HP. unfold MockDatabase.find.
  destruct (list_find_elem_of P l x Hin HP) as [[i y] ->]. by eexists.
Qed.

(** [find] returns the first element that satisfies the test. *)
Lemma find_first {A} (P : A → Prop) `{!∀ x, Decision (P x)} (pre post : list A) x :
  Forall (λ y, ¬ P y) pre → P x → MockDatabase.find P (pre ++ x :: post) = Some x.
Proof.
  intros Hpre Hx. unfold MockDatabase.find.
  induction Hpre as [|y pre Hy _ IH]; cbn.
  - by rewrite decide_True.
  - rewrite decide_False by done.
    destruct (list_find P (pre ++ x :: post)) as [[i z]|]; cbn in *; congruence.
Qed.

Lemma find_Some_inv {A} (P : A → Prop) `{!∀ x, Decision (P x)} (l : list A) x :
  MockDatabase.find P l = Some x → x ∈ l ∧ P x.
Proof.
  unfold MockDatabase.find. intros Hf.
  destruct (list_find P l) as [[i y]|] eqn:Hl; [|done].
  cbn in Hf. injection Hf as ->.
  apply list_find_Some in Hl as (Hi & HP & _).
  split; [|done]. by eapply list_elem_of_lookup_2.
Qed.

End LetterCase.

(** The claim of C10 as stated, refuted: the store holds two wallets of
    one owner whose addresses differ only in letter case; a query that
    differs from the second one's address only in letter case returns the
    first wallet, not that record.  The strings are ASCII, on which
    [toLowerCase] folds the letters A to Z and nothing else. *)
Lemma getWallet_returns_earlier_match :
  let first := WalletRecord.mk 1 "bob" WalletType.bitcoin "1AbCd" "c0ffee" "00" "11"
                 (Some "mainnet") None 0 0 in
  let second := WalletRecord.mk 2 "bob" WalletType.bitcoin "1aBcD" "decade" "22" "33"
                  (Some "mainnet") None 1 1 in
  MockDatabase.wallets case_clash_store = [first; second]
  ∧ differs_only_in_case (WalletRecord.address second) "1abcd"
  ∧ MockDatabase.getWallet Js.toLowerCase_ascii (WalletRecord.userId second) "1abcd"
      case_clash_store
    = (inr (Some first), case_clash_store)
  ∧ first ≠ second.
Proof.
  cbv zeta. split; [reflexivity|]. split; [|split; [reflexivity|discriminate]].
  by apply differs_only_in_case_lower.
Qed.

(** C10 (amended): in the connected in-memory store, for every stored
    wallet a [getWallet] of its owner with an address that differs from
    the stored one only in ASCII letter case returns a stored wallet: the
    first one of that owner whose address equals the queried one up to
    [toLowerCase], which is that record unless an earlier record matches
    the query too.  Likewise [getTransactionsByHash] for every stored
    transaction and a hash that differs from its hash only in ASCII letter
    case.  What [getWallet] returns has exactly the queried owner, and
    [getWalletsByChainId] returns the stored wallets that have exactly the
    queried owner and chain id.  [toLowerCase] is the runtime's; all that
    is used of it is that it gives two strings that differ only in ASCII
    letter case one lower-case form. *)
Theorem mock_lookups_ignore_letter_case (toLowerCase : string → string) db :
  folds_letter_case toLowerCase →
  MockDatabase.connected db = true →
  (∀ pre w post q,
     MockDatabase.wallets db = pre ++ w :: post →
     differs_only_in_case (WalletRecord.address w) q →
     Forall (λ w', ¬ (WalletRecord.userId w' = WalletRecord.userId w
                      ∧ toLowerCase (WalletRecord.address w') = toLowerCase q)) pre →
     MockDatabase.getWallet toLowerCase (WalletRecord.userId w) q db = (inr (Some w), db))
  ∧ (∀ w q,
       w ∈ MockDatabase.wallets db →
       differs_only_in_case (WalletRecord.address w) q →
       ∃ pre found post,
         MockDatabase.getWallet toLowerCase (WalletRecord.userId w) q db
         = (inr (Some found), db)
         ∧ MockDatabase.wallets db = pre ++ found :: post
         ∧ WalletRecord.userId found = WalletRecord.userId w
         ∧ toLowerCase (WalletRecord.address found) = toLowerCase q
         ∧ Forall (λ w', ¬ (WalletRecord.userId w' = WalletRecord.userId w
                            ∧ toLowerCase (WalletRecord.address w') = toLowerCase q)) pre)
  ∧ (∀ pre tx post q,
       MockDatabase.transactions db = pre ++ tx :: post →
       differs_only_in_case (TransactionRecord.hash tx) q →
       Forall (λ tx', toLowerCase (TransactionRecord.hash tx') ≠ toLowerCase q) pre →
       MockDatabase.getTransactionsByHash toLowerCase q db = (inr (Some tx), db))
  ∧ (∀ tx q,
       tx ∈ MockDatabase.transactions db →
       differs_only_in_case (TransactionRecord.hash tx) q →
       ∃ pre found post,
         MockDatabase.getTransactionsByHash toLowerCase q db = (inr (Some found), db)
         ∧ MockDatabase.transactions db = pre ++ found :: post
         ∧ toLowerCase (TransactionRecord.hash found) = toLowerCase q
         ∧ Forall (λ tx', toLowerCase (TransactionRecord.hash tx') ≠ toLowerCase q) pre)
  ∧ (∀ u q w,
       MockDatabase.getWallet toLowerCase u q db = (inr (Some w), db) →
       w ∈ MockDatabase.wallets db ∧ WalletRecord.userId w = u)
  ∧ (∀ u c, ∃ ws,
       MockDatabase.getWalletsByChainId u c db = (inr ws, db)
       ∧ ∀ w, w ∈ ws ↔ w ∈ MockDatabase.wallets db
                        ∧ WalletRecord.userId w = u ∧ WalletRecord.chainId w = Some c).
Proof.
  intros Hfold Hc. split_and!.
  - intros pre w post q Hw Hq Hpre.
    rewrite run_getWallet, Hw by done. f_equal. f_equal.
    apply find_first; [done|]. split; [done|by apply Hfold].
  - intros w q Hw Hq. rewrite run_getWallet by done.
    destruct (find_is_Some
                (λ w', WalletRecord.userId w' = WalletRecord.userId w
                       ∧ toLowerCase (WalletRecord.address w') = toLowerCase q)
                (MockDatabase.wallets db) w Hw) as [found Hfound].
    { split; [done|by apply Hfold]. }
    rewrite Hfound.
    destruct (find_Some_first _ _ _ Hfound) as (pre & post & Hl & Hpre & Hu & Ha).
    by exists pre, found, post.
  - intros pre tx post q Htx Hq Hpre.
    rewrite run_getTransactionsByHash, Htx by done. f_equal. f_equal.
    apply find_first; [done|by apply Hfold].
  - intros tx q Htx Hq. rewrite run_getTransactionsByHash by done.
    destruct (find_is_Some
                (λ tx', toLowerCase (TransactionRecord.hash tx') = toLowerCase q)
                (MockDatabase.transactions db) tx Htx) as [found Hfound].
    { by apply Hfold. }
    rewrite Hfound.
    destruct (find_Some_first _ _ _ Hfound) as (pre & post & Hl & Hpre & Ha).
    by exists pre, found, post.
  - intros u q w H. rewrite run_getWallet in H by done. injection H as H.
    apply find_Some_inv in H as [? [? _]]. done.
  - intros u c. eexists. split; [by apply run_getWalletsByChainId|].
    intros w. rewrite list_elem_of_filter. tauto.
Qed.

Lemma mock_lookups_ignore_letter_case_witness :
  let first := WalletRecord.mk 1 "bob" WalletType.bitcoin "1AbCd" "c0ffee" "00" "11"
                 (Some "mainnet") None 0 0 in
  MockDatabase.getWallet Js.toLowerCase_ascii "bob" "1ABCD" case_clash_store
  = (inr (Some first), case_clash_store).
Proof.
  cbv zeta.
  apply (proj1 (mock_lookups_ignore_letter_case Js.toLowerCase_ascii case_clash_store
                  folds_letter_case_ascii eq_refl) []
           (WalletRecord.mk 1 "bob" WalletType.bitcoin "1AbCd" "c0ffee" "00" "11"
              (Some "mainnet") None 0 0)
           [WalletRecord.mk 2 "bob" WalletType.bitcoin "1aBcD" "decade" "22" "33"
              (Some "mainnet") None 1 1]
           "1ABCD" eq_refl).
  - apply differs_only_in_case_lower. reflexivity.
  - apply List.Forall_nil.
Defined.

(** ** EVM chain ids of stored wallets *)

Section ChainIds.

Import MockDatabase WalletService.

Lemma extends_refl db : connected db = true → extends db db.
Proof. by split. Qed.

Lemma extends_trans db1 db2 db3 : extends db1 db2 → extends db2 db3 → extends db1 db3.
Proof. intros [_ H1] [? H2]. split; auto. Qed.

Lemma createWallet_extends now userId walletData db :
  connected db = true →
  ∃ w db', createWallet now userId walletData db = (inr w, db')
           ∧ extends db db' ∧ w ∈ wallets db'
           ∧ WalletRecord.userId w = userId
           ∧ WalletRecord.walletType w = CreateWalletData.walletType walletData
           ∧ WalletRecord.address w = CreateWalletData.address walletData
           ∧ WalletRecord.chainId w = CreateWalletData.chainId walletData.
Proof.
  intros Hc. rewrite run_createWallet by done. cbv zeta.
  eexists _, _. split; [done|]. cbn. repeat split; try done.
  - intros w Hw. apply elem_of_app. by left.
  - apply elem_of_app. right. by apply list_elem_of_singleton.
Qed.

Variable gen : Generators.

(** Whatever the later generators do, the Ethereum wallet is stored by
    then, under [chainId || 1]. *)
Lemma generateAndStoreWallets_ethereum now userId password chainId ethWallet db :
  connected db = true →
  EthereumWalletGenerator gen password = inr ethWallet →
  ∃ r db' w,
    generateAndStoreWallets gen now userId password chainId db = (r, db')
    ∧ extends db db' ∧ w ∈ wallets db'
    ∧ WalletRecord.userId w = userId
    ∧ WalletRecord.walletType w = WalletType.ethereum
    ∧ WalletRecord.address w = EncryptedWallet.address ethWallet
    ∧ WalletRecord.chainId w = Some (number_or chainId CHAIN_IDS.ETHEREUM_MAINNET).
Proof using Type.
  intros Hc Heth. unfold generateAndStoreWallets.
  unfold mbind at 1, eff_bind, await at 1. rewrite Heth.
  unfold mbind at 1, eff_bind.
  edestruct (createWallet_extends now userId) as (w & db1 & -> & Hext1 & Hin & Hu & Ht & Ha & Hch);
    [exact Hc|].
  assert (∀ r db', extends db1 db' →
            ∃ (r0 : Js.Error + DatabaseWalletData) db0 w0, (r, db') = (r0, db0)
              ∧ extends db db0 ∧ w0 ∈ wallets db0
              ∧ WalletRecord.userId w0 = userId
              ∧ WalletRecord.walletType w0 = WalletType.ethereum
              ∧ WalletRecord.address w0 = EncryptedWallet.address ethWallet
              ∧ WalletRecord.chainId w0
                = Some (number_or chainId CHAIN_IDS.ETHEREUM_MAINNET)) as Hfin.
  { intros r db' Hext. exists r, db', w. split; [done|].
    split; [by eapply extends_trans|]. split; [by apply Hext|]. done. }
  unfold mbind at 1, eff_bind, await at 1.
  destruct (BitcoinWalletGenerator gen password _) as [e|btcWallet];
    [apply Hfin, extends_refl, Hext1|].
  unfold mbind at 1, eff_bind.
  edestruct (createWallet_extends now userId) as (w2 & db2 & -> & Hext2 & _);
    [exact (proj1 Hext1)|].
  unfold mbind at 1, eff_bind, await at 1.
  destruct (SolanaWalletGenerator gen password) as [e|solWallet];
    [apply Hfin, Hext2|].
  unfold mbind at 1, eff_bind.
  edestruct (createWallet_extends now userId) as (w3 & db3 & -> & Hext3 & _);
    [exact (proj1 Hext2)|].
  unfold mbind at 1, eff_bind, await at 1.
  destruct (TronWalletGenerator gen password) as [e|tronWallet];
    [apply Hfin; by eapply extends_trans|].
  unfold mbind at 1, eff_bind.
  edestruct (createWallet_extends now userId) as (w4 & db4 & -> & Hext4 & _);
    [exact (proj1 Hext3)|].
  apply Hfin. eauto using extends_trans.
Qed.

End ChainIds.

(** C7: on a connected in-memory store, [generateAndStoreWallets] without
    a chain id stores an Ethereum wallet of the owner whose [chainId] is 1
    (whatever becomes of the three wallets generated after it), and with
    chain id 137 one whose [chainId] is 137; [generateEthereumWallet] with
    137 then stores and returns a wallet whose [chainId] is 137, which
    [getWalletsByChain] returns for that owner and 137 and does not return
    for that owner and 1. *)
Theorem evm_chain_id_default_and_filter gen1 gen2 gen3 now owner password
    ethWallet1 ethWallet2 ethWallet3 db :
  MockDatabase.connected db = true →
  WalletService.EthereumWalletGenerator gen1 password = inr ethWallet1 →
  WalletService.EthereumWalletGenerator gen2 password = inr ethWallet2 →
  WalletService.EthereumWalletGenerator gen3 password = inr ethWallet3 →
  ∃ r1 db1 w1 r2 db2 w2 db3 w3 ws137 ws1,
    WalletService.generateAndStoreWallets gen1 now owner password None db = (r1, db1)
    ∧ w1 ∈ MockDatabase.wallets db1
    ∧ WalletRecord.userId w1 = owner
    ∧ WalletRecord.address w1 = EncryptedWallet.address ethWallet1
    ∧ WalletRecord.chainId w1 = Some 1%Z
    ∧ WalletService.generateAndStoreWallets gen2 now owner password (Some 137%Z) db1
      = (r2, db2)
    ∧ w2 ∈ MockDatabase.wallets db2
    ∧ WalletRecord.address w2 = EncryptedWallet.address ethWallet2
    ∧ WalletRecord.chainId w2 = Some 137%Z
    ∧ WalletService.generateEthereumWallet gen3 now owner password 137 db2 = (inr w3, db3)
    ∧ w3 ∈ MockDatabase.wallets db3
    ∧ WalletRecord.address w3 = EncryptedWallet.address ethWallet3
    ∧ WalletRecord.chainId w3 = Some 137%Z
    ∧ WalletService.getWalletsByChain owner 137 db3 = (inr ws137, db3)
    ∧ w2 ∈ ws137 ∧ w3 ∈ ws137
    ∧ WalletService.getWalletsByChain owner 1 db3 = (inr ws1, db3)
    ∧ w1 ∈ ws1 ∧ (w2 ∉ ws1) ∧ (w3 ∉ ws1).
Proof.
  intros Hc H1 H2 H3.
  destruct (generateAndStoreWallets_ethereum gen1 now owner password None ethWallet1 db)
    as (r1 & db1 & w1 & E1 & Hext1 & Hin1 & Hu1 & _ & Ha1 & Hch1); [done..|].
  destruct (generateAndStoreWallets_ethereum gen2 now owner password (Some 137%Z)
              ethWallet2 db1)
    as (r2 & db2 & w2 & E2 & Hext2 & Hin2 & Hu2 & _ & Ha2 & Hch2);
    [exact (proj1 Hext1)|done|].
  unfold WalletService.generateEthereumWallet.
  unfold mbind at 1, eff_bind, await at 1. rewrite H3.
  edestruct (createWallet_extends now owner) as (w3 & db3 & E3 & Hext3 & Hin3 & Hu3 & _ & Ha3 & Hch3);
    [exact (proj1 Hext2)|].
  exists r1, db1, w1, r2, db2, w2, db3, w3.
  unfold WalletService.getWalletsByChain.
  rewrite !run_getWalletsByChainId by exact (proj1 Hext3).
  eexists _, _. simpl in Hch1, Hch2, Hch3, Ha3.
  split_and!; try done; rewrite ?list_elem_of_filter.
  - split_and!; try done. by apply Hext3.
  - done.
  - split_and!; try done. apply Hext3. by apply Hext2.
  - intros [[_ Hx] _]. rewrite Hch2 in Hx. discriminate Hx.
  - intros [[_ Hx] _]. rewrite Hch3 in Hx. discriminate Hx.
Qed.

Lemma evm_chain_id_default_and_filter_witness :
  ∃ r1 db1 w1,
    WalletService.generateAndStoreWallets sample_generators 0 "alice" "hunter2" None
      (MockDatabase.set_connected true MockDatabase.new) = (r1, db1)
    ∧ w1 ∈ MockDatabase.wallets db1
    ∧ WalletRecord.chainId w1 = Some 1%Z.
Proof.
  destruct (evm_chain_id_default_and_filter sample_generators sample_generators
              sample_generators 0 "alice" "hunter2"
              sample_wallet sample_wallet sample_wallet
              (MockDatabase.set_connected true MockDatabase.new)
              eq_refl eq_refl eq_refl eq_refl)
    as (r1 & db1 & w1 & _ & _ & _ & _ & _ & _ & _ & E & Hin & _ & _ & Hch & _).
  exists r1, db1, w1. split; [exact E|]. split; [exact Hin|exact Hch].
Defined.

(** ** The reconciliation scan *)

Section Reconciliation.

Import MockDatabase SwapService.

Lemma newStatus_coarse st :
  newStatus st = coarse_status (ChangeNow.SwapStatus.status st).
Proof.
  unfold newStatus.
  destruct (ChangeNow.SwapStatus.status st); repeat case_decide;
    try done; intuition discriminate.
Qed.

(** [{ ...tx, ...{ status } }] is [tx] with that status. *)
Lemma spread_of_status s tx :
  PartialTransaction.spread tx (PartialTransaction.of_status s) = with_status s tx.
Proof. reflexivity. Qed.

Lemma well_formed_new : well_formed MockDatabase.new.
Proof. split; constructor. Qed.

Lemma fmap_unless {A} (P : A → Prop) `{!∀ x, Decision (P x)} (f : A → A) (l : list A) :
  Forall (λ x, ¬ P x) l → (λ x, if decide (P x) then f x else x) <$> l = l.
Proof.
  induction 1 as [|x l Hx _ IH]; [done|]. cbn. by rewrite decide_False, IH.
Qed.

(** Writing at the index [findIndex] returned is a [map] over the
    records of that id, while ids are distinct. *)
Lemma insert_found (f : TransactionRecord.t → TransactionRecord.t) i l k old :
  NoDup (TransactionRecord.id <$> l) →
  list_find (λ tx, TransactionRecord.id tx = i) l = Some (k, old) →
  <[k := f old]> l
  = (λ tx, if decide (TransactionRecord.id tx = i) then f tx else tx) <$> l.
Proof.
  revert k. induction l as [|tx l IH]; intros k Hnd Hfind; [done|].
  cbn in Hnd. apply NoDup_cons in Hnd as [Hnotin Hnd].
  cbn in Hfind. case_decide as Hi.
  - injection Hfind as <- <-. cbn. rewrite decide_True by done. f_equal.
    symmetry. apply (fmap_unless (λ tx', TransactionRecord.id tx' = i)).
    apply Forall_forall. intros tx' Hin Heq. apply Hnotin.
    rewrite Hi, <- Heq. by apply list_elem_of_fmap_2.
  - destruct (list_find _ l) as [[k' old']|] eqn:Hl; [|done].
    cbn in Hfind. injection Hfind as <- <-. cbn.
    rewrite decide_False by done. f_equal. by apply IH.
Qed.

Variable api : ChangeNow.API.

(** One turn of the loop, for a record whose id the store holds and
    whose status lookup answers. *)
Lemma run_body updatedCount swap swapStatus db :
  connected db = true →
  NoDup (TransactionRecord.id <$> transactions db) →
  swap ∈ transactions db →
  ChangeNow.getTransactionStatus api (TransactionRecord.hash swap) = inr swapStatus →
  updatePendingSwaps_body api updatedCount swap db
  = if decide (coarse_status (ChangeNow.SwapStatus.status swapStatus)
               = TransactionStatus.pending)
    then (inr updatedCount, db)
    else (inr (updatedCount + 1)%Z,
          set_transactions
            ((λ tx, if decide (TransactionRecord.id tx = TransactionRecord.id swap)
                    then with_status
                           (coarse_status (ChangeNow.SwapStatus.status swapStatus)) tx
                    else tx) <$> transactions db) db).
Proof using Type.
  intros Hc Hnd Hin Hst. unfold updatePendingSwaps_body.
  unfold try_catch, mbind at 1, eff_bind, await. rewrite Hst.
  cbv zeta. rewrite newStatus_coarse.
  destruct (decide (coarse_status _ = TransactionStatus.pending)) as [Hs|Hs].
  { by rewrite decide_False by naive_solver. }
  rewrite decide_True by done.
  unfold mbind, eff_bind. rewrite run_updateTransaction by done.
  destruct (list_find_elem_of (λ tx', TransactionRecord.id tx' = TransactionRecord.id swap)
              _ swap Hin eq_refl) as [[k old] Hfind].
  rewrite Hfind. cbn. rewrite spread_of_status.
  by rewrite <- (insert_found (with_status _) _ _ _ _ Hnd Hfind).
Qed.

(** One turn of the loop for a record whose status lookup throws. *)
Lemma run_body_failed updatedCount swap e db :
  ChangeNow.getTransactionStatus api (TransactionRecord.hash swap) = inl e →
  updatePendingSwaps_body api updatedCount swap db = (inr updatedCount, db).
Proof using Type.
  intros He. unfold updatePendingSwaps_body.
  unfold try_catch, mbind at 1, eff_bind, await. by rewrite He.
Qed.

(** No turn of the loop throws, and so the loop does not. *)
Lemma body_returns updatedCount swap db :
  ∃ updatedCount' db',
    updatePendingSwaps_body api updatedCount swap db = (inr updatedCount', db').
Proof using Type.
  unfold updatePendingSwaps_body, try_catch.
  match goal with |- context [match ?m with _ => _ end] => destruct m as [[e|n] db'] end;
    by eexists _, _.
Qed.

Lemma loop_returns swaps : ∀ updatedCount db,
  ∃ updatedCount' db',
    updatePendingSwaps_loop api updatedCount swaps db = (inr updatedCount', db').
Proof using Type.
  induction swaps as [|swap swaps IH]; intros c db; [by eexists _, _|].
  cbn [updatePendingSwaps_loop]. unfold mbind, eff_bind.
  destruct (body_returns c swap db) as (c' & db' & ->). apply IH.
Qed.

(** The pass: the call of the method the store lacks throws, the outer
    [catch] wraps the error, and the store is as it was. *)
Lemma run_updatePendingSwaps db :
  updatePendingSwaps api db = (inl updatePendingSwaps_error, db).
Proof using Type. reflexivity. Qed.

(** [run_body] for a pending swap, by the terminal status it is due. *)
Lemma run_body_settlement updatedCount tx db :
  connected db = true →
  NoDup (TransactionRecord.id <$> transactions db) →
  tx ∈ transactions db →
  is_pending_swap tx →
  updatePendingSwaps_body api updatedCount tx db
  = match settlement api tx with
    | Some s =>
        ((inr (updatedCount + 1)%Z),
         set_transactions
           ((λ tx', if decide (TransactionRecord.id tx' = TransactionRecord.id tx)
                    then with_status s tx' else tx') <$> transactions db) db)
    | None => (inr updatedCount, db)
    end.
Proof using Type.
  intros Hc Hnd Hin Hps. unfold settlement. rewrite decide_True by done.
  destruct (ChangeNow.getTransactionStatus api _) as [e|st] eqn:Hst.
  { by eapply run_body_failed. }
  rewrite (run_body _ _ st) by done. cbv zeta. by case_decide.
Qed.

(** The loop over a snapshot [swaps] of pending swaps whose records the
    store still holds: each record that is due a terminal status gets
    it, the others stay, and the count rises by the number settled. *)
Lemma run_loop swaps : ∀ updatedCount db,
  connected db = true →
  NoDup (TransactionRecord.id <$> transactions db) →
  NoDup (TransactionRecord.id <$> swaps) →
  Forall (λ tx, tx ∈ transactions db ∧ is_pending_swap tx) swaps →
  updatePendingSwaps_loop api updatedCount swaps db
  = (inr (updatedCount
          + Z.of_nat (length (filter (λ tx, is_Some (settlement api tx)) swaps)))%Z,
     set_transactions
       ((λ tx, if decide (tx ∈ swaps) then reconciled api tx else tx)
          <$> transactions db) db).
Proof using Type.
  induction swaps as [|tx swaps IH]; intros c db Hc Hnd Hnds Hall.
  { cbn. rewrite Z.add_0_r.
    rewrite (fmap_unless (λ tx, tx ∈ []))
      by (apply Forall_forall; intros; apply not_elem_of_nil).
    by destruct db. }
  cbn in Hnds. apply NoDup_cons in Hnds as [Hfresh Hnds].
  apply Forall_cons in Hall as [[Hin Hps] Hall].
  cbn [updatePendingSwaps_loop]. unfold mbind, eff_bind.
  rewrite run_body_settlement by done.
  (* records of the rest are not the one of this turn *)
  assert (∀ tx', tx' ∈ swaps → TransactionRecord.id tx' ≠ TransactionRecord.id tx) as Hne.
  { intros tx' Hin' Heq. apply Hfresh. rewrite <- Heq. by apply list_elem_of_fmap_2. }
  (* a stored record with the id of [tx] is [tx] *)
  assert (∀ tx', tx' ∈ transactions db →
                 TransactionRecord.id tx' = TransactionRecord.id tx → tx' = tx) as Huniq.
  { intros tx' Hin' Heq.
    apply list_elem_of_lookup in Hin as [i Hi], Hin' as [j Hj].
    assert (i = j) as ->; [|congruence].
    eapply NoDup_lookup; [exact Hnd|..]; rewrite list_lookup_fmap.
    - by rewrite Hi.
    - rewrite Hj. cbn. by rewrite Heq. }
  destruct (settlement api tx) as [s|] eqn:Hset.
  - rewrite IH.
    + rewrite filter_cons_True by (by rewrite Hset).
      cbn [length]. f_equal; [f_equal; lia|].
      unfold set_transactions; cbn. f_equal.
      rewrite <- list_fmap_compose. apply list_fmap_ext.
      intros i tx' Hi. cbn. apply list_elem_of_lookup_2 in Hi.
      destruct (decide (TransactionRecord.id tx' = TransactionRecord.id tx)) as [Heq|Hneq].
      * rewrite (Huniq tx' Hi Heq).
        rewrite decide_False by (intros Hx; by apply Hne in Hx).
        rewrite decide_True by (by left).
        unfold reconciled. by rewrite Hset.
      * destruct (decide (tx' ∈ swaps)) as [Hx|Hx].
        -- by rewrite decide_True by (by right).
        -- rewrite decide_False; [done|].
           intros [->|?]%elem_of_cons; done.
    + done.
    + cbn. rewrite <- list_fmap_compose.
      erewrite list_fmap_ext; [exact Hnd|]. intros i tx' _. cbn. by case_decide.
    + done.
    + apply Forall_forall. intros tx' Hin'.
      pose proof (proj1 (Forall_forall _ _) Hall tx' Hin') as [Hin'' Hps'].
      split; [|done]. cbn. apply list_elem_of_fmap.
      exists tx'. split; [|done]. rewrite decide_False; [done|]. by apply Hne.
  - rewrite IH by done.
    rewrite filter_cons_False by (rewrite Hset; by intros [? ?]).
    f_equal. unfold set_transactions; cbn. f_equal.
    apply list_fmap_ext. intros i tx' Hi. cbn. apply list_elem_of_lookup_2 in Hi.
    destruct (decide (tx' ∈ swaps)) as [Hx|Hx].
    + by rewrite decide_True by (by right).
    + destruct (decide (tx' ∈ tx :: swaps)) as [[->|?]%elem_of_cons|Hy]; [|done..].
      unfold reconciled. by rewrite Hset.
Qed.

End Reconciliation.
(** C5 (the code diverges): the projection is the specified one, but no
    record is ever scanned.  The status the loop of [updatePendingSwaps]
    derives from the gateway's answer is the specified projection
    ([waiting], [confirming], [exchanging], [sending] to [pending];
    [finished] to [completed]; [failed], [refunded] to [failed]), and one
    turn of the loop for a stored record whose lookup answers writes that
    status into the records of its id, and nothing else, when it is
    [completed] or [failed], and writes nothing when it is [pending].
    The pass itself throws on every store and for every gateway before the
    loop is entered: the store is afterwards as it was, so no status is
    projected or written, and a pending swap that the gateway reports
    [finished], [failed] or [refunded] stays [pending]. *)
Theorem updatePendingSwaps_projects_no_status api db :
  SwapService.updatePendingSwaps api db = (inl updatePendingSwaps_error, db)
  ∧ (∀ swapStatus,
       SwapService.newStatus swapStatus
       = coarse_status (ChangeNow.SwapStatus.status swapStatus))
  ∧ (∀ updatedCount swap swapStatus,
       MockDatabase.connected db = true →
       well_formed db →
       swap ∈ MockDatabase.transactions db →
       ChangeNow.getTransactionStatus api (TransactionRecord.hash swap) = inr swapStatus →
       SwapService.updatePendingSwaps_body api updatedCount swap db
       = if decide (coarse_status (ChangeNow.SwapStatus.status swapStatus)
                    = TransactionStatus.pending)
         then (inr updatedCount, db)
         else (inr (updatedCount + 1)%Z,
               MockDatabase.mk (MockDatabase.wallets db)
                 ((λ tx, if decide (TransactionRecord.id tx = TransactionRecord.id swap)
                         then with_status
                                (coarse_status (ChangeNow.SwapStatus.status swapStatus)) tx
                         else tx) <$> MockDatabase.transactions db)
                 (MockDatabase.walletIdCounter db) (MockDatabase.transactionIdCounter db)
                 (MockDatabase.connected db))).
Proof.
  split_and!.
  - apply run_updatePendingSwaps.
  - apply newStatus_coarse.
  - intros updatedCount swap swapStatus Hc [Hnd _] Hin Hst.
    by rewrite (run_body api updatedCount swap swapStatus db).
Qed.

(** C6 (the code diverges): [updatePendingSwaps] raises on every call.
    Whatever the store holds and whatever the gateway answers, the pass
    throws the error of the missing store method and returns no count,
    the store being as it was.  Its loop would isolate the failures: a
    turn whose status lookup throws leaves the count and the store as
    they are, and the loop over any records returns a count; but the
    loop is not reached. *)
Theorem updatePendingSwaps_raises_on_every_call api db :
  SwapService.updatePendingSwaps api db = (inl updatePendingSwaps_error, db)
  ∧ (∀ updatedCount db',
       SwapService.updatePendingSwaps api db ≠ (inr updatedCount, db'))
  ∧ (∀ updatedCount swap e,
       ChangeNow.getTransactionStatus api (TransactionRecord.hash swap) = inl e →
       SwapService.updatePendingSwaps_body api updatedCount swap db
       = (inr updatedCount, db))
  ∧ (∀ updatedCount swaps,
       ∃ updatedCount' db',
         SwapService.updatePendingSwaps_loop api updatedCount swaps db
         = (inr updatedCount', db')).
Proof.
  split_and!.
  - apply run_updatePendingSwaps.
  - intros updatedCount db'. by rewrite run_updatePendingSwaps.
  - intros updatedCount swap e. apply run_body_failed.
  - intros updatedCount swaps. apply loop_returns.
Qed.
(** ** A swap from creation to the reconciliation pass *)

Section SwapLifecycle.

Import MockDatabase SwapService.

Lemma well_formed_recordTransaction now d db :
  connected db = true → well_formed db →
  ∃ tx db', recordTransaction now d db = (inr tx, db')
            ∧ connected db' = true ∧ well_formed db'
            ∧ wallets db' = wallets db
            ∧ transactions db' = transactions db ++ [tx]
            ∧ TransactionRecord.walletId tx = TransactionData.walletId d
            ∧ TransactionRecord.transactionType tx = TransactionData.transactionType d
            ∧ TransactionRecord.status tx = TransactionData.status d
            ∧ TransactionRecord.hash tx = TransactionData.hash d.
Proof.
  intros Hc [Hnd Hlt]. rewrite run_recordTransaction by done. cbv zeta.
  eexists _, _. split; [done|]. cbn. split_and!; try done.
  split; cbn.
  - rewrite fmap_app. apply NoDup_app. split_and!; [done| |apply NoDup_singleton].
    intros i (tx & -> & Hin)%list_elem_of_fmap Hi. cbn in Hi.
    apply list_elem_of_singleton in Hi.
    pose proof (proj1 (Forall_forall _ _) Hlt tx Hin) as Hlt'. cbn in Hlt'. lia.
  - apply Forall_app. split.
    + eapply Forall_impl; [exact Hlt|]. cbn. intros; lia.
    + apply Forall_singleton. cbn. lia.
Qed.

Variable api : ChangeNow.API.

(** [createSwap] for a stored wallet when the gateway accepts the order
    and quotes a rate. *)
Lemma run_createSwap now walletId wallet fromCurrency toCurrency fromAmount toAddress
    refundAddress fromChainId toChainId order rate db :
  connected db = true →
  wallet ∈ wallets db → WalletRecord.id wallet = walletId →
  ChangeNow.createTransaction api fromCurrency toCurrency fromAmount toAddress
    refundAddress fromChainId toChainId = inr order →
  ChangeNow.getExchangeRate api fromCurrency toCurrency fromAmount fromChainId toChainId
    = inr rate →
  ∃ tx db', createSwap api now walletId fromCurrency toCurrency fromAmount toAddress
              refundAddress fromChainId toChainId db = (inr tx, db')
            ∧ connected db' = true
            ∧ wallets db' = wallets db
            ∧ transactions db' = transactions db ++ [tx]
            ∧ TransactionRecord.id tx = transactionIdCounter db
            ∧ TransactionRecord.transactionType tx = TransactionType.swap
            ∧ TransactionRecord.status tx = TransactionStatus.pending
            ∧ TransactionRecord.walletId tx = walletId
            ∧ TransactionRecord.hash tx = ChangeNow.SwapTransaction.id order.
Proof using Type.
  intros Hc Hin Hid Horder Hrate.
  unfold createSwap, try_catch. unfold mbind at 1, eff_bind.
  rewrite run_getWalletById by done.
  destruct (list_find_elem_of (λ w, WalletRecord.id w = walletId) _ wallet Hin Hid)
    as [[k w] Hfind].
  unfold find. rewrite Hfind. cbn [fmap option_fmap option_map snd].
  unfold mbind at 1, eff_bind, await at 1. rewrite Horder.
  unfold mbind at 1, eff_bind, await at 1. rewrite Hrate.
  unfold mbind at 1, eff_bind.
  rewrite run_recordTransaction by done. cbv zeta.
  eexists _, _. unfold mret, eff_ret. split; [reflexivity|]. by cbn.
Qed.

End SwapLifecycle.

(** C2 (the code diverges): in a connected in-memory store that holds the
    wallet, [createSwap] (the gateway accepting the order and quoting a
    rate) stores one pending swap whose hash is the gateway's order id.
    When the gateway reports [finished] for that hash, the
    [updatePendingSwaps] that follows does not update the record: it
    throws the error of the missing store method, returns no count, and
    leaves the store as [createSwap] left it, the swap still [pending];
    and so does every further call. *)
Theorem createSwap_then_updatePendingSwaps_throws api now walletId wallet
    fromCurrency toCurrency fromAmount toAddress refundAddress fromChainId toChainId
    order rate st db :
  MockDatabase.connected db = true →
  wallet ∈ MockDatabase.wallets db →
  WalletRecord.id wallet = walletId →
  ChangeNow.createTransaction api fromCurrency toCurrency fromAmount toAddress
    refundAddress fromChainId toChainId = inr order →
  ChangeNow.getExchangeRate api fromCurrency toCurrency fromAmount fromChainId toChainId
    = inr rate →
  ChangeNow.getTransactionStatus api (ChangeNow.SwapTransaction.id order) = inr st →
  ChangeNow.SwapStatus.status st = ChangeNow.finished →
  ∃ tx db1,
    SwapService.createSwap api now walletId fromCurrency toCurrency fromAmount toAddress
      refundAddress fromChainId toChainId db = (inr tx, db1)
    ∧ is_pending_swap tx
    ∧ TransactionRecord.hash tx = ChangeNow.SwapTransaction.id order
    ∧ MockDatabase.transactions db1 = (MockDatabase.transactions db ++ [tx])%list
    ∧ coarse_status (ChangeNow.SwapStatus.status st) = TransactionStatus.completed
    ∧ SwapService.updatePendingSwaps api db1 = (inl updatePendingSwaps_error, db1)
    ∧ (∀ updatedCount db2,
         SwapService.updatePendingSwaps api db1 ≠ (inr updatedCount, db2)).
Proof.
  intros Hc Hin Hid Horder Hrate Hst Hfin.
  destruct (run_createSwap api now walletId wallet fromCurrency toCurrency fromAmount
              toAddress refundAddress fromChainId toChainId order rate db)
    as (tx & db1 & E1 & Hc1 & _ & Htxs1 & Hidtx & Hty & Hpend & _ & Hhash); [done..|].
  exists tx, db1. split_and!; [done|done|done|done|by rewrite Hfin|done|].
  intros updatedCount db2. by rewrite run_updatePendingSwaps.
Qed.
Lemma well_formed_store_with_two_swaps : well_formed store_with_two_swaps.
Proof. split; by apply (bool_decide_unpack _). Qed.

Lemma createSwap_then_updatePendingSwaps_throws_witness :
  let api := ChangeNow.scripted "order-1" ChangeNow.finished in
  let tx := TransactionRecord.mk 1 1 TransactionType.swap
              "0x52908400098527886E0F7030069857D2E4169EE7" "bc1q" "1.0" "ETH" "0.01"
              TransactionStatus.pending "order-1" (Some 1%Z) (Some 1%Z) None 1 in
  ∃ db1,
    SwapService.createSwap api 1 1 "ETH" "BTC" "1.0" "bc1q" "0xAbC" (Some 1%Z) None
      store_with_wallet = (inr tx, db1)
    ∧ MockDatabase.transactions db1 = [tx]
    ∧ SwapService.updatePendingSwaps api db1
      = (inl (Js.mkError
                "Failed to update pending swaps: this.db.getTransactionsByStatus is not a function"),
         db1).
Proof.
  cbv zeta.
  destruct (createSwap_then_updatePendingSwaps_throws
              (ChangeNow.scripted "order-1" ChangeNow.finished) 1 1 stored_wallet
              "ETH" "BTC" "1.0" "bc1q" "0xAbC" (Some 1%Z) None
              (ChangeNow.SwapTransaction.mk "order-1" "payin" "bc1q" "ETH" "BTC" "1.0"
                 "0.065" (Some "0xAbC") (Some 1%Z) None)
              (ChangeNow.SwapRate.mk "0.065" "0.065" "0.01" "0.0005" (Some 1%Z) None)
              (ChangeNow.SwapStatus.mk ChangeNow.finished None None None None None None None)
              store_with_wallet)
    as (tx & db1 & E1 & _ & _ & Htxs & _ & E2 & _);
    try reflexivity.
  - by apply (bool_decide_unpack _).
  - exists db1. pose proof E1 as E1'. vm_compute in E1'. injection E1' as <- <-.
    split; [exact E1|]. split; [reflexivity|exact E2].
Defined.

Lemma updatePendingSwaps_projects_no_status_witness :
  let api := ChangeNow.scripted "order-2" ChangeNow.finished in
  let first := TransactionRecord.mk 1 1 TransactionType.swap
                 "0x52908400098527886E0F7030069857D2E4169EE7" "bc1q" "1.0" "ETH" "0.01"
                 TransactionStatus.pending "order-1" (Some 1%Z) (Some 1%Z) None 1 in
  let second := TransactionRecord.mk 2 1 TransactionType.swap
                  "0x52908400098527886E0F7030069857D2E4169EE7" "0xDeF" "2.0" "ETH" "0.01"
                  TransactionStatus.pending "order-2" (Some 1%Z) (Some 1%Z) (Some 137%Z) 2 in
  let settled := TransactionRecord.mk 2 1 TransactionType.swap
                   "0x52908400098527886E0F7030069857D2E4169EE7" "0xDeF" "2.0" "ETH" "0.01"
                   TransactionStatus.completed "order-2" (Some 1%Z) (Some 1%Z)
                   (Some 137%Z) 2 in
  MockDatabase.transactions store_with_two_swaps = [first; second]
  ∧ SwapService.updatePendingSwaps api store_with_two_swaps
    = (inl (Js.mkError
              "Failed to update pending swaps: this.db.getTransactionsByStatus is not a function"),
       store_with_two_swaps)
  ∧ SwapService.updatePendingSwaps_body api 0 second store_with_two_swaps
    = (inr 1%Z, MockDatabase.set_transactions [first; settled] store_with_two_swaps).
Proof.
  cbv zeta.
  destruct (updatePendingSwaps_projects_no_status
              (ChangeNow.scripted "order-2" ChangeNow.finished) store_with_two_swaps)
    as (Hpass & _ & Hbody).
  split; [reflexivity|]. split; [exact Hpass|].
  rewrite (Hbody 0%Z _
             (ChangeNow.SwapStatus.mk ChangeNow.finished None None None None None None None)
             eq_refl well_formed_store_with_two_swaps).
  - reflexivity.
  - by apply (bool_decide_unpack _).
  - reflexivity.
Defined.

Lemma updatePendingSwaps_raises_on_every_call_witness :
  let api := ChangeNow.scripted "order-2" ChangeNow.finished in
  (TransactionRecord.hash <$> MockDatabase.transactions store_with_two_swaps)
  = ["order-1"; "order-2"]
  ∧ Forall is_pending_swap (MockDatabase.transactions store_with_two_swaps)
  ∧ ChangeNow.getTransactionStatus api "order-1"
    = inl (Js.mkError "Failed to get transaction status: not found")
  ∧ ChangeNow.getTransactionStatus api "order-2"
    = inr (ChangeNow.SwapStatus.mk ChangeNow.finished None None None None None None None)
  ∧ SwapService.updatePendingSwaps api store_with_two_swaps
    = (inl (Js.mkError
              "Failed to update pending swaps: this.db.getTransactionsByStatus is not a function"),
       store_with_two_swaps).
Proof.
  cbv zeta. split; [reflexivity|]. split; [by repeat constructor|].
  split; [reflexivity|]. split; [reflexivity|].
  exact (proj1 (updatePendingSwaps_raises_on_every_call
                  (ChangeNow.scripted "order-2" ChangeNow.finished) store_with_two_swaps)).
Defined.

(** ** Bytes and encodings *)

Section Bytes.

Lemma xor_byte_involutive a b : Buffer.xor_byte (Buffer.xor_byte a b) b = a.
Proof.
  destruct a, b. cbn.
  by rewrite !xorb_assoc, !xorb_nilpotent, !xorb_false_r.
Qed.

Lemma xor_involutive s : ∀ k, Buffer.xor (Buffer.xor s k) k = s.
Proof.
  induction s as [|a s IH]; intros [|b k]; cbn; try done.
  by rewrite xor_byte_involutive, IH.
Qed.

Lemma length_xor s : ∀ k, length (Buffer.xor s k) = length s.
Proof. induction s as [|a s IH]; intros [|b k]; cbn; by rewrite ?IH. Qed.

Lemma from_hex_to_hex b : Buffer.from_hex (Buffer.to_hex b) = b.
Proof.
  induction b as [|c b IH]; [done|].
  cbn [Buffer.to_hex]. rewrite <- IH at 2. clear IH.
  generalize (Buffer.to_hex b). intros s.
  by destruct c as [[] [] [] [] [] [] [] []].
Qed.

Lemma length_of_word w : length (Buffer.of_word w) = 4.
Proof. done. Qed.

End Bytes.

(** ** The block cipher is a permutation *)

Section BlockCipher.

Import AES256.

Lemma inv_sub_byte_sub_byte c : inv_sub_byte (sub_byte c) = c.
Proof. by destruct c as [[] [] [] [] [] [] [] []]; vm_compute. Qed.

Lemma inv_sub_bytes_sub_bytes s : inv_sub_bytes (sub_bytes s) = s.
Proof.
  unfold inv_sub_bytes, sub_bytes. rewrite map_map.
  induction s as [|c s IH]; cbn; by rewrite ?inv_sub_byte_sub_byte, ?IH.
Qed.

Ltac each_length s :=
  destruct s as [|? [|? [|? [|? [|? [|? [|? [|? [|? [|? [|? [|? [|? [|? [|? [|? [|? ?]]]]]]]]]]]]]]]]];
  try reflexivity.

Lemma inv_shift_rows_shift_rows s : inv_shift_rows (shift_rows s) = s.
Proof. each_length s. Qed.

Lemma inv_mix_column_mix_column a0 a1 a2 a3 :
  match mix_column a0 a1 a2 a3 with
  | [m0; m1; m2; m3] => inv_mix_column m0 m1 m2 m3
  | _ => []
  end = [a0; a1; a2; a3].
Proof.
  destruct a0 as [a00 a01 a02 a03 a04 a05 a06 a07],
           a1 as [a10 a11 a12 a13 a14 a15 a16 a17],
           a2 as [a20 a21 a22 a23 a24 a25 a26 a27],
           a3 as [a30 a31 a32 a33 a34 a35 a36 a37].
  cbv -[xorb]. repeat f_equal; btauto.
Qed.

Lemma inv_mix_columns_mix_columns s : inv_mix_columns (mix_columns s) = s.
Proof.
  each_length s.
  unfold mix_columns, inv_mix_columns. cbn [mix_column app].
  repeat match goal with
  | |- context [inv_mix_column (mul2 ?a0 ⊕ _ ⊕ _ ⊕ _) _ _ _] =>
      match goal with
      | |- context [mul3 a0 ⊕ ?a1 ⊕ ?a2 ⊕ mul2 ?a3] =>
          let H := fresh in
          pose proof (inv_mix_column_mix_column a0 a1 a2 a3) as H;
          cbn [mix_column] in H; rewrite H; clear H
      end
  end.
  reflexivity.
Qed.

Lemma add_round_key_involutive s rk : add_round_key (add_round_key s rk) rk = s.
Proof. apply xor_involutive. Qed.

Lemma inv_round_round rk s : inv_round rk (round rk s) = s.
Proof.
  unfold inv_round, round.
  by rewrite add_round_key_involutive, inv_mix_columns_mix_columns,
    inv_shift_rows_shift_rows, inv_sub_bytes_sub_bytes.
Qed.

Lemma inv_final_round_final_round rk s : inv_final_round rk (final_round rk s) = s.
Proof.
  unfold inv_final_round, final_round.
  by rewrite add_round_key_involutive, inv_shift_rows_shift_rows, inv_sub_bytes_sub_bytes.
Qed.

Lemma inv_rounds_rounds rks : ∀ s, inv_rounds rks (rounds rks s) = s.
Proof.
  induction rks as [|rk rks IH]; intros s; [done|].
  destruct rks as [|rk' rks].
  - apply inv_final_round_final_round.
  - change (inv_round rk (inv_rounds (rk' :: rks) (rounds (rk' :: rks) (round rk s))) = s).
    by rewrite IH, inv_round_round.
Qed.

(** Decryption of a block undoes its encryption, under every list of
    round keys. *)
Lemma decrypt_block_encrypt_block rks s : decrypt_block rks (encrypt_block rks s) = s.
Proof.
  destruct rks as [|rk0 rks]; [done|]. cbn.
  by rewrite inv_rounds_rounds, add_round_key_involutive.
Qed.

Lemma length_shift_rows s : length (shift_rows s) = length s.
Proof. each_length s. Qed.

Lemma length_mix_columns s : length (mix_columns s) = length s.
Proof. each_length s. Qed.

Lemma length_round rk s : length (round rk s) = length s.
Proof.
  unfold round, add_round_key, sub_bytes.
  by rewrite length_xor, length_mix_columns, length_shift_rows, length_map.
Qed.

Lemma length_final_round rk s : length (final_round rk s) = length s.
Proof.
  unfold final_round, add_round_key, sub_bytes.
  by rewrite length_xor, length_shift_rows, length_map.
Qed.

Lemma length_rounds rks : ∀ s, length (rounds rks s) = length s.
Proof.
  induction rks as [|rk rks IH]; intros s; [done|].
  destruct rks as [|rk' rks]; [apply length_final_round|].
  change (length (rounds (rk' :: rks) (round rk s)) = length s).
  by rewrite IH, length_round.
Qed.

Lemma length_encrypt_block rks s : length (encrypt_block rks s) = length s.
Proof.
  destruct rks as [|rk0 rks]; [done|]. cbn.
  unfold add_round_key. by rewrite length_rounds, length_xor.
Qed.

(** *** CBC *)

Lemma cbc_decrypt_cbc_encrypt rks ps :
  ∀ prev, cbc_decrypt rks prev (cbc_encrypt rks prev ps) = ps.
Proof.
  induction ps as [|p ps IH]; intros prev; [done|]. cbn.
  by rewrite decrypt_block_encrypt_block, xor_involutive, IH.
Qed.

Lemma length_cbc_encrypt rks ps :
  ∀ prev, Forall (λ p, length p = 16) ps →
          Forall (λ c, length c = 16) (cbc_encrypt rks prev ps).
Proof.
  induction ps as [|p ps IH]; intros prev Hall; [constructor|].
  apply Forall_cons in Hall as [Hp Hall]. cbn. constructor; [|by apply IH].
  by rewrite length_encrypt_block, length_xor.
Qed.

End BlockCipher.

(** ** Blocks, padding and UTF-8 *)

Section Framing.

Import AES256.

Lemma chunks_concat bl : ∀ fuel,
  Forall (λ b, length b = 16) bl → length (concat bl) ≤ fuel →
  chunks fuel (concat bl) = bl.
Proof.
  induction bl as [|b bl IH]; intros fuel Hall Hfuel.
  { by destruct fuel. }
  apply Forall_cons in Hall as [Hb Hall]. cbn [concat] in *.
  rewrite length_app, Hb in Hfuel.
  destruct fuel as [|fuel]; [lia|].
  destruct b as [|c b]; [done|]. cbn [chunks app].
  change (c :: b ++ concat bl) with ((c :: b) ++ concat bl).
  rewrite take_app_length', drop_app_length' by done.
  f_equal. apply IH; [done|lia].
Qed.

Lemma concat_chunks fuel : ∀ bs, length bs ≤ fuel → concat (chunks fuel bs) = bs.
Proof.
  induction fuel as [|fuel IH]; intros bs Hfuel.
  { destruct bs; [done|cbn in Hfuel; lia]. }
  destruct bs as [|c bs]; [done|]. cbn [chunks concat].
  rewrite IH; [apply take_drop|].
  rewrite length_drop. cbn in *. lia.
Qed.

Lemma length_chunks fuel : ∀ bs k,
  length bs ≤ fuel → length bs = 16 * k →
  Forall (λ b, length b = 16) (chunks fuel bs).
Proof.
  induction fuel as [|fuel IH]; intros bs k Hfuel Hk.
  { constructor. }
  destruct bs as [|c bs]; [constructor|]. cbn [chunks].
  assert (16 ≤ length (c :: bs)) by (cbn in *; lia).
  constructor.
  - by rewrite length_take_le.
  - apply (IH _ (k - 1)); rewrite length_drop; cbn in *; lia.
Qed.

Lemma length_pad bs : length (pad bs) = 16 * (length bs / 16 + 1).
Proof.
  unfold pad. rewrite length_app, repeat_length.
  pose proof (Nat.div_mod_eq (length bs) 16).
  pose proof (Nat.mod_upper_bound (length bs) 16). lia.
Qed.

Lemma forallb_eqb_repeat c n : forallb (Ascii.eqb c) (repeat c n) = true.
Proof. induction n as [|n IH]; cbn; by rewrite ?Ascii.eqb_refl. Qed.

Lemma last_repeat {A} (x : A) n l : last (l ++ repeat x (S n)) = Some x.
Proof.
  induction n as [|n IH] in l |- *; cbn.
  - apply last_snoc.
  - change (l ++ x :: x :: repeat x n) with (l ++ [x] ++ repeat x (S n)).
    by rewrite app_assoc, IH.
Qed.

Lemma unpad_pad bs : unpad (pad bs) = Some bs.
Proof.
  unfold unpad, pad.
  pose proof (Nat.mod_upper_bound (length bs) 16 ltac:(done)) as Hm.
  set (n := 16 - length bs mod 16) in *.
  assert (1 ≤ n ≤ 16) as Hn by (unfold n; lia).
  destruct n as [|n'] eqn:En; [lia|]. rewrite last_repeat.
  assert (N.to_nat (N_of_ascii (Buffer.byte (N.of_nat (S n')))) = S n') as ->.
  { unfold Buffer.byte. rewrite N.mod_small by lia.
    rewrite N_ascii_embedding by lia. lia. }
  rewrite length_app, repeat_length.
  replace (length bs + S n' - S n') with (length bs) by lia.
  rewrite take_app_length, drop_app_length, forallb_eqb_repeat.
  destruct (Nat.ltb_spec (length bs + S n') (S n')); [lia|].
  destruct (Nat.ltb_spec 16 (S n')); [lia|]. done.
Qed.

(** *** UTF-8 *)

Lemma utf8_step_wellformed bs n :
  bs ≠ [] → Buffer.utf8_step bs = (n, true) → 1 ≤ n ≤ length bs.
Proof.
  unfold Buffer.utf8_step. intros Hne Hstep.
  repeat (case_match; simplify_eq; cbn [length]; try lia).
Qed.

Lemma decode_utf8_wellformed fuel : ∀ bs,
  length bs ≤ fuel → Buffer.wellformed_utf8 fuel bs = true →
  Buffer.decode_utf8 fuel bs = bs.
Proof.
  induction fuel as [|fuel IH]; intros bs Hfuel Hwf.
  { destruct bs; [done|cbn in Hfuel; lia]. }
  destruct bs as [|c bs]; [done|]. cbn [Buffer.decode_utf8 Buffer.wellformed_utf8] in *.
  destruct (Buffer.utf8_step (c :: bs)) as [n ok] eqn:Hstep.
  apply andb_prop in Hwf as [-> Hwf].
  apply utf8_step_wellformed in Hstep; [|done].
  rewrite IH; [apply take_drop|..|done].
  rewrite length_drop. cbn in *. lia.
Qed.

Lemma to_utf8_from_utf8 s :
  Buffer.is_string s = true → Buffer.to_utf8 (Buffer.from_utf8 s) = s.
Proof.
  unfold Buffer.is_string, Buffer.to_utf8, Buffer.from_utf8. intros Hwf.
  rewrite length_list_ascii, decode_utf8_wellformed.
  - apply string_of_list_ascii_of_string.
  - by rewrite length_list_ascii.
  - done.
Qed.

End Framing.

(** ** Key derivation *)

Section KeyDerivation.

Lemma length_hash m : length (SHA256.hash m) = 32.
Proof. done. Qed.

Lemma length_F kb salt iterations i : length (PBKDF2.F kb salt iterations i) = 32.
Proof.
  unfold PBKDF2.F.
  apply (N.iter_invariant _ _ _ (λ ut, length (snd ut) = 32)).
  - intros [u t] Ht. cbv [fst snd] in *. rewrite length_xor. exact Ht.
  - apply length_hash.
Qed.

(** The derived key has the 32 bytes asked for. *)
Lemma length_pbkdf2Sync password salt iterations :
  length (crypto.pbkdf2Sync password salt iterations 32) = 32.
Proof.
  unfold crypto.pbkdf2Sync, PBKDF2.derive.
  change (N.to_nat ((32 + 31) / 32)) with 1. change (N.to_nat 32) with 32.
  cbn [PBKDF2.T]. rewrite app_nil_r, length_take_le; [done|].
  by rewrite length_F.
Qed.

(** HMAC fills a short key up with zero bytes, so a key and the same key
    followed by a zero byte have one key block. *)
Lemma key_block_zero key :
  length key < 64 → HMAC.key_block (key ++ [Ascii.zero]) = HMAC.key_block key.
Proof.
  intros Hlen. unfold HMAC.key_block.
  destruct (Nat.ltb_spec 64 (length (key ++ [Ascii.zero])));
    [rewrite length_app in *; cbn in *; lia|].
  destruct (Nat.ltb_spec 64 (length key)); [lia|].
  rewrite length_app. cbn [length].
  rewrite <- app_assoc. f_equal.
  replace (64 - length key) with (S (64 - (length key + 1))) by lia.
  reflexivity.
Qed.

Lemma from_utf8_append s t :
  Buffer.from_utf8 (s +:+ t) = Buffer.from_utf8 s ++ Buffer.from_utf8 t.
Proof.
  unfold Buffer.from_utf8. induction s as [|c s IH]; [done|].
  change (list_ascii_of_string (String c s +:+ t))
    with (c :: list_ascii_of_string (s +:+ t)).
  by rewrite IH.
Qed.

(** PBKDF2 with HMAC derives one key from a password of fewer than 64
    bytes and from that password followed by U+0000. *)
Lemma pbkdf2Sync_NUL password salt iterations keylen :
String.length password < 64 →
crypto.pbkdf2Sync (password +:+ Js.NUL) salt iterations keylen
= crypto.pbkdf2Sync password salt iterations keylen.
Proof.
  intros Hlen. unfold crypto.pbkdf2Sync, PBKDF2.derive.
  rewrite from_utf8_append.
  change (Buffer.from_utf8 Js.NUL) with [Ascii.zero].
  rewrite key_block_zero; [done|].
  unfold Buffer.from_utf8. by rewrite length_list_ascii.
Qed.

End KeyDerivation.

(** ** Encrypting and decrypting a private key *)

Section SecretCipher.

Import crypto.

Lemma createCipheriv_ok key iv :
  length key = 32 → length iv = 16 → createCipheriv key iv = inr (mkCipheriv key iv).
Proof. unfold createCipheriv. by intros -> ->. Qed.

Lemma ciphertext_blocks cipher data :
  ∃ cs, Buffer.from_hex (cipher_update_final cipher data) = concat cs
        ∧ Forall (λ c, length c = 16) cs
        ∧ cs = AES256.cbc_encrypt (AES256.key_schedule (key cipher)) (iv cipher)
                 (AES256.blocks (AES256.pad (Buffer.from_utf8 data)))
        ∧ length (concat cs) = 16 * (length (Buffer.from_utf8 data) / 16 + 1).
Proof.
  eexists. unfold cipher_update_final. rewrite from_hex_to_hex.
  split; [done|].
  assert (Forall (λ p, length p = 16)
            (AES256.blocks (AES256.pad (Buffer.from_utf8 data)))) as Hps.
  { eapply length_chunks; [done|apply length_pad]. }
  split; [by apply length_cbc_encrypt|]. split; [done|].
  rewrite <- length_pad.
  rewrite <- (concat_chunks (length (AES256.pad (Buffer.from_utf8 data)))
                (AES256.pad (Buffer.from_utf8 data))) at 2 by done.
  fold (AES256.blocks (AES256.pad (Buffer.from_utf8 data))).
  generalize (AES256.blocks (AES256.pad (Buffer.from_utf8 data))) (iv cipher) Hps.
  intros ps. induction ps as [|p ps IH]; intros prev Hall; [done|].
  apply Forall_cons in Hall as [Hp Hall]. cbn [AES256.cbc_encrypt concat].
  rewrite !length_app, length_encrypt_block, length_xor, Hp, (IH _ Hall).
  reflexivity.
Qed.

(** The hexadecimal rendering has two code units for each byte. *)
Lemma string_length_to_hex b : Js.string_length (Buffer.to_hex b) = 2 * length b.
Proof.
  induction b as [|c b IH]; [done|].
  cbn [Buffer.to_hex Js.string_length length]. rewrite IH.
  assert (∀ d : ascii,
            (if Js.is_continuation (Buffer.hex_digit (N_of_ascii d / 16))
             then 0 else Js.code_units (Buffer.hex_digit (N_of_ascii d / 16))) = 1
            ∧ (if Js.is_continuation (Buffer.hex_digit (N_of_ascii d mod 16))
               then 0 else Js.code_units (Buffer.hex_digit (N_of_ascii d mod 16))) = 1)
    as Hd by (by intros [[] [] [] [] [] [] [] []]).
  destruct (Hd c) as [-> ->]. lia.
Qed.

Lemma even_length_ciphertext cipher data :
  Nat.odd (Js.string_length (cipher_update_final cipher data)) = false.
Proof.
  unfold cipher_update_final. rewrite string_length_to_hex.
  rewrite <- Nat.negb_even, Nat.even_mul. done.
Qed.

(** Under the key and vector it was encrypted with, the ciphertext
    decrypts to the string encrypted. *)
Lemma decipher_cipher c data :
  Buffer.is_string data = true →
  decipher_update_final c (cipher_update_final c data) = inr data.
Proof.
  intros Hs. unfold decipher_update_final. rewrite even_length_ciphertext.
  destruct (ciphertext_blocks c data) as (cs & -> & Hcs & -> & Hlen).
  rewrite Hlen.
  replace (16 * (length (Buffer.from_utf8 data) / 16 + 1) =? 0) with false
    by (symmetry; apply Nat.eqb_neq; lia).
  rewrite Nat.mul_comm, Nat.Div0.mod_mul. cbn [negb orb Nat.eqb].
  unfold AES256.blocks at 1.
  rewrite chunks_concat by (done || lia).
  rewrite cbc_decrypt_cbc_encrypt. unfold AES256.blocks.
  rewrite concat_chunks, unpad_pad by done.
  by rewrite to_utf8_from_utf8.
Qed.

(** Under any key and vector, decrypting a ciphertext that
    [cipher_update_final] produced either returns a string or throws
    the error of the padding check. *)
Lemma decipher_foreign c c' data e :
  decipher_update_final c' (cipher_update_final c data) = inl e →
  e = bad_decrypt.
Proof.
  unfold decipher_update_final. rewrite even_length_ciphertext.
  destruct (ciphertext_blocks c data) as (cs & -> & Hcs & _ & Hlen).
  rewrite Hlen.
  replace (16 * (length (Buffer.from_utf8 data) / 16 + 1) =? 0) with false
    by (symmetry; apply Nat.eqb_neq; lia).
  rewrite Nat.mul_comm, Nat.Div0.mod_mul. cbn [negb orb Nat.eqb].
  destruct (AES256.unpad _); [done|]. by intros [= <-].
Qed.

End SecretCipher.

(** From here on the key derivation and the cipher are used through the
    lemmas above only. *)
#[global] Opaque crypto.pbkdf2Sync crypto.cipher_update_final crypto.decipher_update_final.

Section WalletRoundTrip.

Variable Wallet : Type.
Variable new_Wallet : string → Js.Error + Wallet.

(** What [decryptWallet] does with a wallet that [generateEncryptedWallet]
    made, under a password [p2] that need not be the one it was made
    with. *)
Lemma decryptWallet_generated drawn p1 p2 :
  length (Draws.iv drawn) = 16 →
  ∃ encryptedWallet cipher decipher,
    EthereumWalletGenerator.generateEncryptedWallet drawn p1 = inr encryptedWallet
    ∧ cipher = crypto.mkCipheriv
                 (crypto.pbkdf2Sync p1 (EncryptedWallet.salt encryptedWallet) 100000 32)
                 (Draws.iv drawn)
    ∧ decipher = crypto.mkCipheriv
                   (crypto.pbkdf2Sync p2 (EncryptedWallet.salt encryptedWallet) 100000 32)
                   (Draws.iv drawn)
    ∧ EthereumWalletGenerator.decryptWallet Wallet new_Wallet encryptedWallet p2
      = (decrypted ← crypto.decipher_update_final decipher
                        (crypto.cipher_update_final cipher (Draws.privateKey drawn));
         new_Wallet decrypted).
Proof using Type.
  intros Hiv. eexists _, _, _.
  unfold EthereumWalletGenerator.generateEncryptedWallet,
    EthereumWalletGenerator.decryptWallet, crypto.createDecipheriv.
  rewrite createCipheriv_ok by (apply length_pbkdf2Sync || done).
  split; [reflexivity|]. cbn [EncryptedWallet.salt EncryptedWallet.iv
    EncryptedWallet.encryptedPrivateKey mbind result_bind mret result_ret].
  split; [reflexivity|]. split; [reflexivity|].
  rewrite from_hex_to_hex.
  by rewrite createCipheriv_ok by (apply length_pbkdf2Sync || done).
Qed.

End WalletRoundTrip.

(** C1: whatever key pair, salt and 16-byte initialization vector
    [generateEncryptedWallet] draws, and whatever the password, it returns
    an encrypted wallet, and [decryptWallet] of that wallet under the same
    password hands the wallet constructor exactly the private key that was
    encrypted (a private key being a string, that is well-formed UTF-8). *)
Theorem decryptWallet_generateEncryptedWallet
    (Wallet : Type) (new_Wallet : string → Js.Error + Wallet) drawn password :
  length (Draws.iv drawn) = 16 →
  Buffer.is_string (Draws.privateKey drawn) = true →
  ∃ encryptedWallet,
    EthereumWalletGenerator.generateEncryptedWallet drawn password = inr encryptedWallet
    ∧ EthereumWalletGenerator.decryptWallet Wallet new_Wallet encryptedWallet password
      = new_Wallet (Draws.privateKey drawn).
Proof.
  intros Hiv Hkey.
  destruct (decryptWallet_generated Wallet new_Wallet drawn password password Hiv)
    as (w & c & d & Hgen & -> & -> & Hdec).
  exists w. split; [exact Hgen|].
  rewrite Hdec. by rewrite decipher_cipher.
Qed.

Lemma decryptWallet_generateEncryptedWallet_witness :
  ∃ encryptedWallet,
    EthereumWalletGenerator.generateEncryptedWallet sample_draws "MySecurePassword123!"
    = inr encryptedWallet
    ∧ EthereumWalletGenerator.decryptWallet string inr encryptedWallet "MySecurePassword123!"
      = inr "0x4c0883a69102937d6231471b5dbb6204fe5129617082792ae468d01a3f362318".
Proof.
  exact (decryptWallet_generateEncryptedWallet string inr sample_draws
           "MySecurePassword123!" eq_refl eq_refl).
Defined.

(** C9 (the code diverges): a password [p1] of fewer than 64 bytes
    followed by the character U+0000 is another password, and for every
    wallet that [generateEncryptedWallet] made under [p1], [decryptWallet]
    under that other password does not fail: it hands the wallet
    constructor the private key that was encrypted, as it does under [p1]
    itself (HMAC pads a short key with zero bytes, so PBKDF2 derives one
    key from both).  And when [decryptWallet] does fail under a password
    [p2], the error is the cipher's own for a padding that is not valid,
    or the one the wallet constructor threw for what was decrypted: there
    is no error of its own for a wrong password. *)
Theorem decryptWallet_accepts_password_followed_by_NUL
    (Wallet : Type) (new_Wallet : string → Js.Error + Wallet) drawn p1 :
  length (Draws.iv drawn) = 16 →
  Buffer.is_string (Draws.privateKey drawn) = true →
String.length p1 < 64 →
p1 +:+ Js.NUL ≠ p1
∧ ∃ encryptedWallet,
    EthereumWalletGenerator.generateEncryptedWallet drawn p1 = inr encryptedWallet
    ∧ EthereumWalletGenerator.decryptWallet Wallet new_Wallet encryptedWallet
        (p1 +:+ Js.NUL)
      = new_Wallet (Draws.privateKey drawn)
    ∧ EthereumWalletGenerator.decryptWallet Wallet new_Wallet encryptedWallet p1
      = new_Wallet (Draws.privateKey drawn)
    ∧ ∀ p2 e,
        EthereumWalletGenerator.decryptWallet Wallet new_Wallet encryptedWallet p2
        = inl e →
        e = Js.mkError "error:1C800064:Provider routines::bad decrypt"
        ∨ ∃ decrypted, new_Wallet decrypted = inl e.
Proof.
  intros Hiv Hkey Hlen. split.
  { clear. induction p1 as [|b p1 IH]; [discriminate|].
    intros Heq. apply IH. by injection Heq. }
  destruct (decryptWallet_generated Wallet new_Wallet drawn p1 p1 Hiv)
    as (w & c & d & Hgen & -> & -> & Hdec).
  exists w. split; [exact Hgen|]. split_and!.
  - destruct (decryptWallet_generated Wallet new_Wallet drawn p1 (p1 +:+ Js.NUL) Hiv)
      as (w' & c' & d' & Hgen' & -> & -> & Hdec').
    rewrite Hgen in Hgen'. injection Hgen' as <-.
    rewrite Hdec', pbkdf2Sync_NUL by done. by rewrite decipher_cipher.
  - rewrite Hdec. by rewrite decipher_cipher.
  - intros p2 e.
    destruct (decryptWallet_generated Wallet new_Wallet drawn p1 p2 Hiv)
      as (w' & c' & d' & Hgen' & -> & -> & Hdec').
    rewrite Hgen in Hgen'. injection Hgen' as <-. rewrite Hdec'. clear Hdec Hdec'.
    destruct (crypto.decipher_update_final _ _) as [e'|decrypted] eqn:Hd.
    + intros [= <-]. left. exact (decipher_foreign _ _ _ _ Hd).
    + intros He. right. by exists decrypted.
Qed.

Lemma decryptWallet_accepts_password_followed_by_NUL_witness :
  "MySecurePassword123!" +:+ Js.NUL ≠ "MySecurePassword123!"
  ∧ ∃ encryptedWallet,
      EthereumWalletGenerator.generateEncryptedWallet sample_draws "MySecurePassword123!"
      = inr encryptedWallet
      ∧ EthereumWalletGenerator.decryptWallet string inr encryptedWallet
          ("MySecurePassword123!" +:+ Js.NUL)
        = inr "0x4c0883a69102937d6231471b5dbb6204fe5129617082792ae468d01a3f362318".
Proof.
  assert (String.length "MySecurePassword123!" < 64) as Hlen by (cbn; lia).
  destruct (decryptWallet_accepts_password_followed_by_NUL string inr sample_draws
              "MySecurePassword123!" eq_refl eq_refl Hlen)
    as (Hne & w & Hgen & Hdec & _).
  split; [exact Hne|]. exists w. split; [exact Hgen|exact Hdec].
Defined.

(** * Further properties of the code *)

(** ** The in-memory store: connection, wallets *)

Section MockStore.

Import MockDatabase.

Lemma ensureConnected_off {A} (k : unit → Eff t A) db :
  connected db = false → (ensureConnected ≫= k) db = (inl notConnected, db).
Proof. intros Hc. unfold ensureConnected. eff_unfold. by rewrite Hc. Qed.

Lemma run_getWalletsByUser db userId :
  connected db = true →
  getWalletsByUser userId db
  = (inr (filter (λ w, WalletRecord.userId w = userId) (wallets db)), db).
Proof.
  intros Hc. unfold getWalletsByUser. unfold mbind at 1, eff_bind.
  by rewrite run_ensureConnected.
Qed.

Lemma run_getTransactionsByUser db userId :
  connected db = true →
  getTransactionsByUser userId db
  = (inr (filter (λ tx, TransactionRecord.walletId tx
                        ∈ WalletRecord.id
                            <$> filter (λ w, WalletRecord.userId w = userId) (wallets db))
                 (transactions db)), db).
Proof.
  intros Hc. unfold getTransactionsByUser. unfold mbind at 1, eff_bind.
  by rewrite run_ensureConnected.
Qed.

Lemma run_updateWallet db now walletId data :
  connected db = true →
  updateWallet now walletId data db =
  match list_find (λ w, WalletRecord.id w = walletId) (wallets db) with
  | None => (inr false, db)
  | Some (index, old) =>
      (inr true,
       set_wallets (<[index := PartialWallet.spread old data now]> (wallets db)) db)
  end.
Proof.
  intros Hc. unfold updateWallet. unfold mbind at 1, eff_bind.
  rewrite run_ensureConnected by done.
  eff_unfold. by destruct (list_find _ _) as [[??]|].
Qed.

(** Writing at the index [findIndex] returned is a [map] over the
    elements of that key, while keys are distinct. *)
Lemma insert_find_key {A} (key : A → Z) (f : A → A) i (l : list A) k old :
  NoDup (key <$> l) →
  list_find (λ x, key x = i) l = Some (k, old) →
  <[k := f old]> l = (λ x, if decide (key x = i) then f x else x) <$> l.
Proof.
  revert k. induction l as [|x l IH]; intros k Hnd Hfind; [done|].
  cbn in Hnd. apply NoDup_cons in Hnd as [Hnotin Hnd].
  cbn in Hfind. case_decide as Hi.
  - injection Hfind as <- <-. cbn. rewrite decide_True by done. f_equal.
    symmetry. apply (fmap_unless (λ x', key x' = i)).
    apply Forall_forall. intros x' Hin Heq. apply Hnotin.
    rewrite Hi, <- Heq. by apply list_elem_of_fmap_2.
  - destruct (list_find _ l) as [[k' old']|] eqn:Hl; [|done].
    cbn in Hfind. injection Hfind as <- <-. cbn.
    rewrite decide_False by done. f_equal. by apply IH.
Qed.

Lemma find_key_None {A} (key : A → Z) i (l : list A) :
  i ∉ key <$> l → list_find (λ x, key x = i) l = None.
Proof.
  intros Hn. apply list_find_None, Forall_forall. intros x Hx Heq.
  apply Hn. rewrite <- Heq. by apply list_elem_of_fmap_2.
Qed.

Lemma find_key_Some {A} (key : A → Z) (l : list A) x :
  NoDup (key <$> l) → x ∈ l →
  ∃ k, list_find (λ y, key y = key x) l = Some (k, x).
Proof.
  intros Hnd Hin.
  destruct (list_find_elem_of (λ y, key y = key x) l x Hin eq_refl) as [[k y] Hfind].
  exists k. rewrite Hfind. do 2 f_equal.
  apply list_find_Some in Hfind as (Hk & Hy & _).
  apply list_elem_of_lookup in Hin as [j Hj].
  assert (k = j) as ->; [|congruence].
  eapply NoDup_lookup; [exact Hnd|..]; rewrite list_lookup_fmap.
  - by rewrite Hk; cbn; rewrite Hy.
  - by rewrite Hj.
Qed.

Lemma filter_length_all {A} (P : A → Prop) `{!∀ x, Decision (P x)} (l : list A) :
  (length (filter P l) =? length l)%nat = bool_decide (Forall P l).
Proof.
  induction l as [|x l IH]; [done|].
  destruct (decide (P x)) as [Hx|Hx].
  - rewrite filter_cons_True by done. cbn [length Nat.eqb]. rewrite IH.
    apply bool_decide_ext. split; [by constructor|by inversion 1].
  - rewrite filter_cons_False by done.
    rewrite (bool_decide_eq_false_2 (Forall P (x :: l))) by (by inversion 1).
    apply Nat.eqb_neq. pose proof (length_filter P l). cbn. lia.
Qed.

Lemma wallets_well_formed_new : wallets_well_formed MockDatabase.new.
Proof. split; constructor. Qed.

End MockStore.

(** X1: while the in-memory store is not connected (a new store, or one
    that [disconnect] was called on), every operation of the interface
    throws the error of [ensureConnected], and none of them changes the
    store. *)
Theorem mock_operations_need_connection db :
  MockDatabase.connected db = false →
  (∀ now userId walletData,
     MockDatabase.createWallet now userId walletData db = (inl notConnected, db))
  ∧ (∀ toLowerCase userId address,
       MockDatabase.getWallet toLowerCase userId address db = (inl notConnected, db))
  ∧ (∀ walletId, MockDatabase.getWalletById walletId db = (inl notConnected, db))
  ∧ (∀ userId, MockDatabase.getWalletsByUser userId db = (inl notConnected, db))
  ∧ (∀ userId chainId,
       MockDatabase.getWalletsByChainId userId chainId db = (inl notConnected, db))
  ∧ (∀ now walletId data,
       MockDatabase.updateWallet now walletId data db = (inl notConnected, db))
  ∧ (∀ walletId, MockDatabase.deleteWallet walletId db = (inl notConnected, db))
  ∧ (∀ now transactionData,
       MockDatabase.recordTransaction now transactionData db = (inl notConnected, db))
  ∧ (∀ walletId, MockDatabase.getTransactionsByWallet walletId db = (inl notConnected, db))
  ∧ (∀ userId, MockDatabase.getTransactionsByUser userId db = (inl notConnected, db))
  ∧ (∀ toLowerCase hash,
       MockDatabase.getTransactionsByHash toLowerCase hash db = (inl notConnected, db))
  ∧ (∀ id data, MockDatabase.updateTransaction id data db = (inl notConnected, db))
  ∧ ∀ db0, MockDatabase.connected (snd (MockDatabase.disconnect db0)) = false.
Proof.
  intros Hc. split_and!; intros; try by apply ensureConnected_off.
  done.
Qed.

Lemma mock_operations_need_connection_witness :
  MockDatabase.getWalletsByUser "alice" MockDatabase.new = (inl notConnected, MockDatabase.new)
  ∧ MockDatabase.deleteWallet 1 (snd (MockDatabase.disconnect store_with_wallet))
    = (inl notConnected, snd (MockDatabase.disconnect store_with_wallet)).
Proof.
  split.
  - apply (mock_operations_need_connection MockDatabase.new eq_refl).
  - apply (mock_operations_need_connection
             (snd (MockDatabase.disconnect store_with_wallet)) eq_refl).
Defined.

(** X2: on a connected store whose wallet ids are distinct and below the
    counter, [createWallet] returns a record that carries the counter as
    its id, an id no stored wallet has; afterwards the invariant still
    holds, [getWalletById] of that id returns exactly the record created,
    every other id is looked up as before, and [getWalletsByUser] of the
    owner returns the owner's earlier wallets followed by the new one. *)
Theorem createWallet_then_lookup now userId walletData db :
  MockDatabase.connected db = true →
  wallets_well_formed db →
  ∃ w db',
    MockDatabase.createWallet now userId walletData db = (inr w, db')
    ∧ WalletRecord.id w = MockDatabase.walletIdCounter db
    ∧ WalletRecord.userId w = userId
    ∧ WalletRecord.address w = CreateWalletData.address walletData
    ∧ Forall (λ w', WalletRecord.id w' ≠ WalletRecord.id w) (MockDatabase.wallets db)
    ∧ MockDatabase.connected db' = true
    ∧ wallets_well_formed db'
    ∧ MockDatabase.getWalletById (WalletRecord.id w) db' = (inr (Some w), db')
    ∧ (∀ i, i ≠ WalletRecord.id w →
            fst (MockDatabase.getWalletById i db') = fst (MockDatabase.getWalletById i db))
    ∧ MockDatabase.getWalletsByUser userId db'
      = (inr (filter (λ w', WalletRecord.userId w' = userId) (MockDatabase.wallets db)
              ++ [w]), db').
Proof.
  intros Hc [Hnd Hlt]. rewrite run_createWallet by done. cbv zeta.
  set (w := WalletRecord.mk _ _ _ _ _ _ _ _ _ _ _).
  eexists w, _. split; [done|].
  assert (Forall (λ w', WalletRecord.id w' ≠ WalletRecord.id w) (MockDatabase.wallets db))
    as Hfresh.
  { eapply Forall_impl; [exact Hlt|]. cbn. intros; lia. }
  split_and!; try done.
  - split; cbn.
    + rewrite fmap_app. apply NoDup_app. split_and!; [done| |apply NoDup_singleton].
      intros i (w' & -> & Hin)%list_elem_of_fmap Hi. cbn in Hi.
      apply list_elem_of_singleton in Hi.
      by apply (proj1 (Forall_forall _ _) Hfresh w' Hin).
    + apply Forall_app. split.
      * eapply Forall_impl; [exact Hlt|]. cbn. intros; lia.
      * apply Forall_singleton. cbn. lia.
  - rewrite run_getWalletById by done. cbn [MockDatabase.wallets]. do 2 f_equal.
    unfold MockDatabase.find. rewrite list_find_app_r.
    + cbn. by rewrite decide_True.
    + by apply list_find_None.
  - intros i Hi. rewrite !run_getWalletById by done. cbn [fst MockDatabase.wallets].
    f_equal. unfold MockDatabase.find.
    destruct (list_find _ (MockDatabase.wallets db)) as [[k w']|] eqn:Hfind.
    + by erewrite list_find_app_l.
    + rewrite list_find_app_r by done. cbn. by rewrite decide_False.
  - rewrite run_getWalletsByUser by done. cbn [MockDatabase.wallets].
    rewrite filter_app, filter_cons_True by done. done.
Qed.

Lemma createWallet_then_lookup_witness :
  ∃ w db',
    MockDatabase.createWallet 5 "alice"
      (CreateWalletData.mk WalletType.tron "TRjE1H8dxypKM1NZRdysbs9wo7huR4bdNz"
         "c0ffee" "00" "11" None None) store_with_wallet = (inr w, db')
    ∧ WalletRecord.id w = 2%Z
    ∧ MockDatabase.getWalletById 2 db' = (inr (Some w), db').
Proof.
  destruct (createWallet_then_lookup 5 "alice"
              (CreateWalletData.mk WalletType.tron "TRjE1H8dxypKM1NZRdysbs9wo7huR4bdNz"
                 "c0ffee" "00" "11" None None) store_with_wallet eq_refl)
    as (w & db' & Hrun & Hid & _ & _ & _ & _ & _ & Hget & _).
  { split; [apply NoDup_singleton|apply Forall_singleton; reflexivity]. }
  exists w, db'. split; [exact Hrun|]. split; [exact Hid|].
  rewrite <- Hid at 1. exact Hget.
Defined.

(** ** The in-memory store: deleting and updating *)

Lemma find_cons_other {A} (P : A → Prop) `{!∀ x, Decision (P x)} x (l : list A) :
  ¬ P x → MockDatabase.find P (x :: l) = MockDatabase.find P l.
Proof.
  intros Hx. unfold MockDatabase.find. cbn [list_find]. rewrite decide_False by done.
  by destruct (list_find P l) as [[??]|].
Qed.

Lemma find_cons_here {A} (P : A → Prop) `{!∀ x, Decision (P x)} x (l : list A) :
  P x → MockDatabase.find P (x :: l) = Some x.
Proof. intros Hx. unfold MockDatabase.find. cbn [list_find]. by rewrite decide_True. Qed.

(** [find] skips what [filter] removed when the two tests exclude each
    other. *)
Lemma find_filter_other (ws : list WalletRecord.t) i walletId :
  i ≠ walletId →
  MockDatabase.find (λ w, WalletRecord.id w = i)
    (filter (λ w, WalletRecord.id w ≠ walletId) ws)
  = MockDatabase.find (λ w, WalletRecord.id w = i) ws.
Proof.
  intros Hi. induction ws as [|w ws IH]; [done|].
  destruct (decide (WalletRecord.id w = walletId)) as [Hw|Hw].
  - rewrite filter_cons_False by (intros Hn; by apply Hn).
    rewrite find_cons_other by congruence. exact IH.
  - rewrite filter_cons_True by done.
    destruct (decide (WalletRecord.id w = i)) as [Hwi|Hwi].
    + by rewrite !find_cons_here.
    + by rewrite !find_cons_other.
Qed.

(** X3: on a connected store [deleteWallet] answers whether a wallet of
    that id was stored; afterwards no lookup finds the id, every other id
    is looked up as before, and the transactions and both counters are
    untouched.  While ids are below the counter, the record a later
    [createWallet] makes has an id that no wallet of the store had before
    the deletion: ids are not handed out again. *)
Theorem deleteWallet_removes_wallet walletId db :
  MockDatabase.connected db = true →
  ∃ db',
    MockDatabase.deleteWallet walletId db
    = (inr (bool_decide (walletId ∈ WalletRecord.id <$> MockDatabase.wallets db)), db')
    ∧ MockDatabase.wallets db'
      = filter (λ w, WalletRecord.id w ≠ walletId) (MockDatabase.wallets db)
    ∧ MockDatabase.transactions db' = MockDatabase.transactions db
    ∧ MockDatabase.walletIdCounter db' = MockDatabase.walletIdCounter db
    ∧ MockDatabase.transactionIdCounter db' = MockDatabase.transactionIdCounter db
    ∧ MockDatabase.getWalletById walletId db' = (inr None, db')
    ∧ (∀ i, i ≠ walletId →
            fst (MockDatabase.getWalletById i db') = fst (MockDatabase.getWalletById i db))
    ∧ (wallets_well_formed db →
       wallets_well_formed db'
       ∧ ∀ now userId walletData w db'',
           MockDatabase.createWallet now userId walletData db' = (inr w, db'') →
           WalletRecord.id w ∉ WalletRecord.id <$> MockDatabase.wallets db).
Proof.
  intros Hc. rewrite run_deleteWallet by done. eexists. split.
  { f_equal. f_equal. rewrite filter_length_all.
    destruct (decide (walletId ∈ WalletRecord.id <$> MockDatabase.wallets db)) as [Hin|Hin].
    - rewrite (bool_decide_eq_true_2 _ Hin), bool_decide_eq_false_2; [done|].
      intros Hall. apply list_elem_of_fmap in Hin as (w & -> & Hw).
      by apply (proj1 (Forall_forall _ _) Hall w Hw).
    - rewrite (bool_decide_eq_false_2 _ Hin), bool_decide_eq_true_2; [done|].
      apply Forall_forall. intros w Hw Heq. apply Hin. rewrite <- Heq.
      by apply list_elem_of_fmap_2. }
  split_and!; try done.
  - rewrite run_getWalletById by done. cbn [MockDatabase.wallets MockDatabase.set_wallets].
    do 2 f_equal. apply find_None, Forall_forall.
    intros w Hw%list_elem_of_filter. tauto.
  - intros i Hi. rewrite !run_getWalletById by done.
    cbn [fst MockDatabase.wallets MockDatabase.set_wallets]. f_equal.
    by apply find_filter_other.
  - intros [Hnd Hlt]. split.
    + split; cbn.
      * eapply sublist_NoDup; [exact Hnd|]. apply fmap_sublist, sublist_filter.
      * apply Forall_forall. intros w [_ Hw]%list_elem_of_filter.
        exact (proj1 (Forall_forall _ _) Hlt w Hw).
    + intros now userId walletData w db''. rewrite run_createWallet by done.
      cbv zeta. intros [= <- _]. cbn.
      intros (w' & Hid & Hin)%list_elem_of_fmap.
      pose proof (proj1 (Forall_forall _ _) Hlt w' Hin) as Hlt'. cbn in Hlt'. lia.
Qed.

Lemma deleteWallet_removes_wallet_witness :
  ∃ db',
    MockDatabase.deleteWallet 1 store_with_wallet = (inr true, db')
    ∧ MockDatabase.getWalletById 1 db' = (inr None, db').
Proof.
  destruct (deleteWallet_removes_wallet 1 store_with_wallet eq_refl)
    as (db' & Hrun & _ & _ & _ & _ & Hget & _).
  exists db'. split; [exact Hrun|exact Hget].
Defined.

(** X4: after [deleteWallet] of a wallet, [getTransactionsByUser] no
    longer returns the transactions recorded for that wallet id (it
    returns what it returned before, without them), while
    [getTransactionsByWallet] of the id still returns them all: the
    records are kept but have no owner. *)
Theorem deleteWallet_hides_transactions_from_owner walletId userId db :
  MockDatabase.connected db = true →
  ∃ deleted db' before,
    MockDatabase.deleteWallet walletId db = (inr deleted, db')
    ∧ MockDatabase.getTransactionsByUser userId db = (inr before, db)
    ∧ MockDatabase.getTransactionsByUser userId db'
      = (inr (filter (λ tx, TransactionRecord.walletId tx ≠ walletId) before), db')
    ∧ MockDatabase.getTransactionsByWallet walletId db'
      = (inr (filter (λ tx, TransactionRecord.walletId tx = walletId)
                     (MockDatabase.transactions db)), db').
Proof.
  intros Hc. rewrite run_deleteWallet by done.
  rewrite (run_getTransactionsByUser db) by done.
  eexists _, _, _. split; [reflexivity|]. split; [reflexivity|].
  split; [|by rewrite run_getTransactionsByWallet].
  rewrite run_getTransactionsByUser by done.
  cbn [MockDatabase.wallets MockDatabase.transactions MockDatabase.set_wallets].
  refine (f_equal (λ l, (inr l, _)) _).
  etrans; [|symmetry; apply list_filter_filter]. apply list_filter_iff.
  intros tx. split.
  - intros (w & Hid & Hw)%list_elem_of_fmap.
    apply list_elem_of_filter in Hw as [Hu Hw].
    apply list_elem_of_filter in Hw as [Hne Hw].
    split; [congruence|]. apply list_elem_of_fmap. exists w.
    split; [done|]. by apply list_elem_of_filter.
  - intros [Hne (w & Hid & Hw)%list_elem_of_fmap].
    apply list_elem_of_filter in Hw as [Hu Hw].
    apply list_elem_of_fmap. exists w. split; [done|].
    apply list_elem_of_filter. split; [done|].
    apply list_elem_of_filter. split; [congruence|done].
Qed.

Lemma deleteWallet_hides_transactions_from_owner_witness :
  fst ((tx ← one_wallet_one_transaction;
        MockDatabase.deleteWallet (TransactionRecord.walletId tx);;
        MockDatabase.getTransactionsByUser "alice") MockDatabase.new) = inr []
  ∧ ∃ deleted db' before,
      MockDatabase.deleteWallet 1 (snd (one_wallet_one_transaction MockDatabase.new))
      = (inr deleted, db')
      ∧ MockDatabase.getTransactionsByUser "alice"
          (snd (one_wallet_one_transaction MockDatabase.new))
        = (inr before, snd (one_wallet_one_transaction MockDatabase.new))
      ∧ MockDatabase.getTransactionsByUser "alice" db'
        = (inr (filter (λ tx, TransactionRecord.walletId tx ≠ 1%Z) before), db').
Proof.
  split; [reflexivity|].
  destruct (deleteWallet_hides_transactions_from_owner 1 "alice"
              (snd (one_wallet_one_transaction MockDatabase.new)) eq_refl)
    as (deleted & db' & before & H1 & H2 & H3 & _).
  by exists deleted, db', before.
Defined.

(** X5: [updateWallet] on a connected store with distinct wallet ids.
    For an id the store does not hold it answers [false] and changes
    nothing.  For a stored wallet it answers [true]; a lookup of the id
    then returns the old record overlaid with the fields of the update,
    whose [updatedAt] is the time of the call even when the update names
    another; every other wallet, the transactions and the counters are as
    before. *)
Theorem updateWallet_overlays_one_wallet now walletId data db :
  MockDatabase.connected db = true →
  NoDup (WalletRecord.id <$> MockDatabase.wallets db) →
  PartialWallet.id data = None →
  (walletId ∉ WalletRecord.id <$> MockDatabase.wallets db →
   MockDatabase.updateWallet now walletId data db = (inr false, db))
  ∧ (∀ old,
       old ∈ MockDatabase.wallets db → WalletRecord.id old = walletId →
       ∃ db',
         MockDatabase.updateWallet now walletId data db = (inr true, db')
         ∧ MockDatabase.getWalletById walletId db'
           = (inr (Some (PartialWallet.spread old data now)), db')
         ∧ WalletRecord.updatedAt (PartialWallet.spread old data now) = now
         ∧ MockDatabase.wallets db'
           = (λ w, if decide (WalletRecord.id w = walletId)
                   then PartialWallet.spread w data now else w) <$> MockDatabase.wallets db
         ∧ (∀ w, w ∈ MockDatabase.wallets db → WalletRecord.id w ≠ walletId →
                 w ∈ MockDatabase.wallets db')
         ∧ MockDatabase.transactions db' = MockDatabase.transactions db
         ∧ MockDatabase.walletIdCounter db' = MockDatabase.walletIdCounter db).
Proof.
  intros Hc Hnd Hid. split.
  { intros Hn. rewrite run_updateWallet by done. by rewrite find_key_None. }
  intros old Hin <-. rewrite run_updateWallet by done.
  destruct (find_key_Some WalletRecord.id _ old Hnd Hin) as [k Hfind].
  rewrite Hfind. eexists. split; [done|].
  cbn [MockDatabase.wallets MockDatabase.set_wallets MockDatabase.transactions
       MockDatabase.walletIdCounter].
  rewrite (insert_find_key WalletRecord.id (λ w, PartialWallet.spread w data now)
             _ _ _ _ Hnd Hfind).
  split_and!; try done.
  - rewrite run_getWalletById by done. cbn [MockDatabase.wallets]. do 2 f_equal.
    unfold MockDatabase.find.
    apply list_find_Some in Hfind as (Hk & _ & Hbefore).
    set (ws' := _ <$> MockDatabase.wallets db).
    change (MockDatabase.wallets (MockDatabase.set_wallets ws' db)) with ws'.
    assert (list_find (λ w, WalletRecord.id w = WalletRecord.id old) ws'
            = Some (k, PartialWallet.spread old data now)) as ->; [|done].
    apply list_find_Some. unfold ws'. split_and!.
    + rewrite list_lookup_fmap, Hk. cbn. by rewrite decide_True.
    + cbn. by rewrite Hid.
    + intros j y Hj Hlt. rewrite list_lookup_fmap in Hj.
      destruct (MockDatabase.wallets db !! j) as [w|] eqn:Hw; [|done].
      cbn in Hj. injection Hj as <-. pose proof (Hbefore j w Hw Hlt) as Hne.
      by rewrite decide_False.
  - intros w Hw Hne. apply list_elem_of_fmap. exists w.
    by rewrite decide_False.
Qed.

Lemma updateWallet_overlays_one_wallet_witness :
  ∃ db',
    MockDatabase.updateWallet 9 1
      (PartialWallet.mk None None None None None None None None (Some (Some 137%Z))
         None (Some 3%Z)) store_with_wallet = (inr true, db')
    ∧ MockDatabase.getWalletById 1 db'
      = (inr (Some (WalletRecord.mk 1 "alice" WalletType.ethereum
                      "0x52908400098527886E0F7030069857D2E4169EE7" "c0ffee" "00" "11"
                      None (Some 137%Z) 0 9)), db').
Proof.
  destruct (proj2 (updateWallet_overlays_one_wallet 9 1
                     (PartialWallet.mk None None None None None None None None
                        (Some (Some 137%Z)) None (Some 3%Z))
                     store_with_wallet eq_refl (NoDup_singleton _) eq_refl)
              stored_wallet (list_elem_of_here _ _) eq_refl)
    as (db' & Hrun & Hget & _).
  exists db'. split; [exact Hrun|exact Hget].
Defined.

(** ** The in-memory store: transactions *)

(** [updateTransaction] as a [map] over the stored records. *)
Lemma run_updateTransaction_map id data db :
  MockDatabase.connected db = true →
  NoDup (TransactionRecord.id <$> MockDatabase.transactions db) →
  MockDatabase.updateTransaction id data db
  = if decide (id ∈ TransactionRecord.id <$> MockDatabase.transactions db)
    then (inr true,
          MockDatabase.set_transactions
            ((λ tx, if decide (TransactionRecord.id tx = id)
                    then PartialTransaction.spread tx data else tx)
               <$> MockDatabase.transactions db) db)
    else (inr false, db).
Proof.
  intros Hc Hnd. rewrite run_updateTransaction by done.
  case_decide as Hin.
  - apply list_elem_of_fmap in Hin as (tx & -> & Hin).
    destruct (find_key_Some TransactionRecord.id _ tx Hnd Hin) as [k Hfind].
    rewrite Hfind.
    by rewrite (insert_find_key TransactionRecord.id
                  (λ tx, PartialTransaction.spread tx data) _ _ _ _ Hnd Hfind).
  - by rewrite find_key_None.
Qed.

(** [{ ...old, ...data }], field by field. *)
Lemma spread_fields old data :
  PartialTransaction.spread old data
  = TransactionRecord.mk
      (default (TransactionRecord.id old) (PartialTransaction.id data))
      (default (TransactionRecord.walletId old) (PartialTransaction.walletId data))
      (default (TransactionRecord.transactionType old)
               (PartialTransaction.transactionType data))
      (default (TransactionRecord.fromAddress old) (PartialTransaction.fromAddress data))
      (default (TransactionRecord.toAddress old) (PartialTransaction.toAddress data))
      (default (TransactionRecord.amount old) (PartialTransaction.amount data))
      (default (TransactionRecord.currency old) (PartialTransaction.currency data))
      (default (TransactionRecord.fee old) (PartialTransaction.fee data))
      (default (TransactionRecord.status old) (PartialTransaction.status data))
      (default (TransactionRecord.hash old) (PartialTransaction.hash data))
      (default (TransactionRecord.chainId old) (PartialTransaction.chainId data))
      (default (TransactionRecord.fromChainId old) (PartialTransaction.fromChainId data))
      (default (TransactionRecord.toChainId old) (PartialTransaction.toChainId data))
      (default (TransactionRecord.timestamp old) (PartialTransaction.timestamp data)).
Proof. reflexivity. Qed.

(** X6: [updateTransaction] on a connected store with distinct
    transaction ids.  For an id the store does not hold it answers
    [false] and changes nothing.  Otherwise it answers [true] and the
    stored transactions are the old ones, in their order, except that in
    the one record of that id every field the update names has the
    update's value, every field it does not name keeping its old value;
    wallets and counters are as before.  In particular an update that
    names a status, a hash or a fee stores exactly that. *)
Theorem updateTransaction_overlays_one_record id data db :
  MockDatabase.connected db = true →
  NoDup (TransactionRecord.id <$> MockDatabase.transactions db) →
  MockDatabase.updateTransaction id data db
  = (if decide (id ∈ TransactionRecord.id <$> MockDatabase.transactions db)
     then (inr true,
           MockDatabase.mk (MockDatabase.wallets db)
             ((λ old,
                 if decide (TransactionRecord.id old = id)
                 then TransactionRecord.mk
                        (default (TransactionRecord.id old) (PartialTransaction.id data))
                        (default (TransactionRecord.walletId old)
                                 (PartialTransaction.walletId data))
                        (default (TransactionRecord.transactionType old)
                                 (PartialTransaction.transactionType data))
                        (default (TransactionRecord.fromAddress old)
                                 (PartialTransaction.fromAddress data))
                        (default (TransactionRecord.toAddress old)
                                 (PartialTransaction.toAddress data))
                        (default (TransactionRecord.amount old)
                                 (PartialTransaction.amount data))
                        (default (TransactionRecord.currency old)
                                 (PartialTransaction.currency data))
                        (default (TransactionRecord.fee old) (PartialTransaction.fee data))
                        (default (TransactionRecord.status old)
                                 (PartialTransaction.status data))
                        (default (TransactionRecord.hash old) (PartialTransaction.hash data))
                        (default (TransactionRecord.chainId old)
                                 (PartialTransaction.chainId data))
                        (default (TransactionRecord.fromChainId old)
                                 (PartialTransaction.fromChainId data))
                        (default (TransactionRecord.toChainId old)
                                 (PartialTransaction.toChainId data))
                        (default (TransactionRecord.timestamp old)
                                 (PartialTransaction.timestamp data))
                 else old) <$> MockDatabase.transactions db)
             (MockDatabase.walletIdCounter db) (MockDatabase.transactionIdCounter db)
             (MockDatabase.connected db))
     else (inr false, db))
  ∧ (∀ updated db' new,
       MockDatabase.updateTransaction id data db = (inr updated, db') →
       new ∈ MockDatabase.transactions db' →
       new ∈ MockDatabase.transactions db
       ∨ (updated = true
          ∧ (∀ status, PartialTransaction.status data = Some status →
                       TransactionRecord.status new = status)
          ∧ (∀ hash, PartialTransaction.hash data = Some hash →
                     TransactionRecord.hash new = hash)
          ∧ (∀ fee, PartialTransaction.fee data = Some fee →
                    TransactionRecord.fee new = fee))).
Proof.
  intros Hc Hnd. rewrite run_updateTransaction_map by done. split.
  - case_decide; [|done]. unfold MockDatabase.set_transactions. do 3 f_equal.
  - intros updated db' new. case_decide as Hin; intros [= <- <-]; [|by left].
    cbn [MockDatabase.transactions MockDatabase.set_transactions].
    intros (old & -> & Hold)%list_elem_of_fmap.
    case_decide as Hid; [|by left]. right. rewrite spread_fields.
    split; [done|]. split_and!; intros v Hv; cbn; by rewrite Hv.
Qed.

Lemma updateTransaction_overlays_one_record_witness :
  let first := TransactionRecord.mk 1 1 TransactionType.swap
                 "0x52908400098527886E0F7030069857D2E4169EE7" "bc1q" "1.0" "ETH" "0.01"
                 TransactionStatus.pending "order-1" (Some 1%Z) (Some 1%Z) None 1 in
  let second := TransactionRecord.mk 2 1 TransactionType.swap
                  "0x52908400098527886E0F7030069857D2E4169EE7" "0xDeF" "2.0" "ETH" "0.01"
                  TransactionStatus.pending "order-2" (Some 1%Z) (Some 1%Z) (Some 137%Z) 2 in
  let updated := TransactionRecord.mk 2 1 TransactionType.swap
                   "0x52908400098527886E0F7030069857D2E4169EE7" "0xDeF" "2.0" "ETH" "0.02"
                   TransactionStatus.pending "order-2" (Some 1%Z) (Some 1%Z)
                   (Some 137%Z) 2 in
  MockDatabase.transactions store_with_two_swaps = [first; second]
  ∧ MockDatabase.updateTransaction 2 (PartialTransaction.of_fee "0.02") store_with_two_swaps
    = (inr true, MockDatabase.set_transactions [first; updated] store_with_two_swaps).
Proof.
  cbv zeta. split; [reflexivity|].
  rewrite (proj1 (updateTransaction_overlays_one_record 2 (PartialTransaction.of_fee "0.02")
                    store_with_two_swaps eq_refl
                    (proj1 well_formed_store_with_two_swaps))).
  reflexivity.
Defined.

(** X7: on a connected store [recordTransaction] gives the new record the
    counter as its id and appends it; [getTransactionsByHash] of its hash
    then finds a record (the first stored one whose hash is that hash up
    to [toLowerCase]), which is the new record when no earlier hash
    matches, and every hash with the same lower-case form, so every
    spelling that differs in ASCII letter case only, finds the same
    record.  [toLowerCase] is the runtime's; of it only the last
    consequence uses anything, namely that it gives two strings that
    differ only in ASCII letter case one lower-case form. *)
Theorem recordTransaction_then_getTransactionsByHash (toLowerCase : string → string)
    now d db :
  MockDatabase.connected db = true →
  ∃ tx db' found,
    MockDatabase.recordTransaction now d db = (inr tx, db')
    ∧ TransactionRecord.id tx = MockDatabase.transactionIdCounter db
    ∧ TransactionRecord.hash tx = TransactionData.hash d
    ∧ TransactionRecord.timestamp tx = now
    ∧ MockDatabase.transactions db' = (MockDatabase.transactions db ++ [tx])%list
    ∧ MockDatabase.getTransactionsByHash toLowerCase (TransactionData.hash d) db'
      = (inr (Some found), db')
    ∧ found ∈ MockDatabase.transactions db'
    ∧ toLowerCase (TransactionRecord.hash found) = toLowerCase (TransactionData.hash d)
    ∧ (Forall (λ t, toLowerCase (TransactionRecord.hash t)
                    ≠ toLowerCase (TransactionData.hash d))
              (MockDatabase.transactions db) → found = tx)
    ∧ (∀ h, toLowerCase h = toLowerCase (TransactionData.hash d) →
            MockDatabase.getTransactionsByHash toLowerCase h db' = (inr (Some found), db'))
    ∧ (folds_letter_case toLowerCase →
       ∀ h, differs_only_in_case (TransactionData.hash d) h →
            MockDatabase.getTransactionsByHash toLowerCase h db' = (inr (Some found), db')).
Proof.
  intros Hc. rewrite run_recordTransaction by done. cbv zeta.
  set (tx := TransactionRecord.mk _ _ _ _ _ _ _ _ _ _ _ _ _ _).
  set (db' := MockDatabase.mk _ _ _ _ _).
  assert (tx ∈ MockDatabase.transactions db') as Hin.
  { cbn. apply elem_of_app. right. apply list_elem_of_here. }
  destruct (list_find_elem_of
              (λ t, toLowerCase (TransactionRecord.hash t)
                    = toLowerCase (TransactionData.hash d))
              (MockDatabase.transactions db') tx Hin eq_refl) as [[k found] Hfind].
  assert (∀ h, toLowerCase h = toLowerCase (TransactionData.hash d) →
               MockDatabase.getTransactionsByHash toLowerCase h db'
               = (inr (Some found), db')) as Hsame.
  { intros h Hh. rewrite run_getTransactionsByHash by done. unfold MockDatabase.find.
    rewrite Hh. by rewrite Hfind. }
  exists tx, db', found. split; [done|]. split_and!; try done.
  - by apply Hsame.
  - apply list_find_Some in Hfind as (Hk & _ & _). by eapply list_elem_of_lookup_2.
  - by apply list_find_Some in Hfind as (_ & Hh & _).
  - intros Hall. cbn in Hfind. rewrite list_find_app_r in Hfind.
    + cbn in Hfind. rewrite decide_True in Hfind by done. cbn in Hfind. congruence.
    + by apply list_find_None.
  - intros Hfold h Hh. apply Hsame. symmetry. by apply Hfold.
Qed.

Lemma recordTransaction_then_getTransactionsByHash_witness :
  ∃ tx db' found,
    MockDatabase.recordTransaction 3
      (TransactionData.mk 1 TransactionType.receive "0xDeF" "0xAbC" "2" "ETH" "0.001"
         TransactionStatus.completed "0xFEED" (Some 1%Z) None None)
      store_with_wallet = (inr tx, db')
    ∧ MockDatabase.getTransactionsByHash Js.toLowerCase_ascii "0xfeed" db'
      = (inr (Some found), db')
    ∧ found = tx.
Proof.
  destruct (recordTransaction_then_getTransactionsByHash Js.toLowerCase_ascii 3
              (TransactionData.mk 1 TransactionType.receive "0xDeF" "0xAbC" "2" "ETH" "0.001"
                 TransactionStatus.completed "0xFEED" (Some 1%Z) None None)
              store_with_wallet eq_refl)
    as (tx & db' & found & Hrun & _ & _ & _ & _ & _ & _ & _ & Hnew & Hcase & _).
  exists tx, db', found. split; [exact Hrun|]. split.
  - by apply Hcase.
  - apply Hnew. constructor.
Defined.

(** X8: through [TransactionService], on a connected store with distinct
    transaction ids and no stored hash equal to the new one up to
    [toLowerCase] (the runtime's, whatever it folds): a transaction
    recorded, then given another status by [updateTransactionStatus], is
    then found by [getTransactionByHash] with that status and every other
    field as recorded. *)
Theorem updateTransactionStatus_changes_the_status_only (toLowerCase : string → string)
    now walletId transactionType
    fromAddress toAddress amount currency fee status hash chainId fromChainId toChainId
    status' db :
  MockDatabase.connected db = true →
  well_formed db →
  Forall (λ t, toLowerCase (TransactionRecord.hash t) ≠ toLowerCase hash)
         (MockDatabase.transactions db) →
  ∃ db',
    (tx ← TransactionService.recordTransaction now walletId transactionType fromAddress
            toAddress amount currency fee status hash chainId fromChainId toChainId;
     updated ← TransactionService.updateTransactionStatus (TransactionRecord.id tx) status';
     found ← TransactionService.getTransactionByHash toLowerCase hash;
     mret (tx, updated, found)) db
    = (inr (TransactionRecord.mk (MockDatabase.transactionIdCounter db) walletId
              transactionType fromAddress toAddress amount currency fee status hash
              chainId fromChainId toChainId now,
            true,
            Some (TransactionRecord.mk (MockDatabase.transactionIdCounter db) walletId
                    transactionType fromAddress toAddress amount currency fee status' hash
                    chainId fromChainId toChainId now)), db')
    ∧ MockDatabase.transactions db'
      = (MockDatabase.transactions db
         ++ [TransactionRecord.mk (MockDatabase.transactionIdCounter db) walletId
               transactionType fromAddress toAddress amount currency fee status' hash
               chainId fromChainId toChainId now])%list
    ∧ well_formed db'.
Proof.
  intros Hc Hwf Hfresh.
  unfold TransactionService.recordTransaction, TransactionService.updateTransactionStatus,
    TransactionService.getTransactionByHash.
  destruct (well_formed_recordTransaction now
              (TransactionData.mk walletId transactionType fromAddress toAddress amount
                 currency fee status hash chainId fromChainId toChainId) db Hc Hwf)
    as (tx & db1 & Hrun & Hc1 & Hwf1 & _ & Htxs & _).
  pose proof Hrun as Hrun'. rewrite run_recordTransaction in Hrun' by done.
  cbv zeta in Hrun'. cbn [TransactionData.walletId TransactionData.transactionType
    TransactionData.fromAddress TransactionData.toAddress TransactionData.amount
    TransactionData.currency TransactionData.fee TransactionData.status
    TransactionData.hash TransactionData.chainId TransactionData.fromChainId
    TransactionData.toChainId] in Hrun'.
  injection Hrun' as Htx Hdb1.
  unfold mbind at 1, eff_bind. rewrite Hrun.
  unfold mbind at 1, eff_bind.
  rewrite (run_updateTransaction_map _ _ db1 Hc1 (proj1 Hwf1)).
  rewrite decide_True
    by (rewrite Htxs, fmap_app; apply elem_of_app; right; apply list_elem_of_here).
  set (db2 := MockDatabase.set_transactions _ db1).
  assert (MockDatabase.transactions db2
          = MockDatabase.transactions db
            ++ [PartialTransaction.spread tx (PartialTransaction.of_status status')])
    as Htxs2.
  { unfold db2. cbn [MockDatabase.transactions MockDatabase.set_transactions].
    rewrite Htxs, fmap_app. cbn. rewrite decide_True by done. f_equal.
    apply (fmap_unless (λ t, TransactionRecord.id t = TransactionRecord.id tx)).
    destruct Hwf as [_ Hlt]. eapply Forall_impl; [exact Hlt|].
    cbn. intros t Ht. rewrite <- Htx. cbn. lia. }
  exists db2. unfold mbind, eff_bind.
  rewrite run_getTransactionsByHash by done.
  unfold MockDatabase.find. rewrite Htxs2, list_find_app_r by (by apply list_find_None).
  cbn [list_find]. rewrite <- Htx. cbn [PartialTransaction.spread TransactionRecord.hash
    PartialTransaction.of_status PartialTransaction.hash default].
  rewrite decide_True by done. cbn.
  split; [done|]. split; [done|].
  destruct Hwf1 as [Hnd1 Hlt1]. split.
  - unfold db2. cbn. rewrite <- list_fmap_compose.
    erewrite list_fmap_ext; [exact Hnd1|]. intros i t _. cbn. by case_decide.
  - unfold db2. cbn. apply Forall_fmap. eapply Forall_impl; [exact Hlt1|].
    cbn. intros t Ht. by case_decide.
Qed.

Lemma updateTransactionStatus_changes_the_status_only_witness :
  ∃ db',
    (tx ← TransactionService.recordTransaction 3 1 TransactionType.send "0xAbC" "0xDeF"
            "1.5" "ETH" "0.002" TransactionStatus.pending "0xBEEF" (Some 1%Z) None None;
     updated ← TransactionService.updateTransactionStatus (TransactionRecord.id tx)
                 TransactionStatus.completed;
     found ← TransactionService.getTransactionByHash Js.toLowerCase_ascii "0xBEEF";
     mret (tx, updated, found)) store_with_wallet
    = (inr (TransactionRecord.mk 1 1 TransactionType.send "0xAbC" "0xDeF" "1.5" "ETH"
              "0.002" TransactionStatus.pending "0xBEEF" (Some 1%Z) None None 3,
            true,
            Some (TransactionRecord.mk 1 1 TransactionType.send "0xAbC" "0xDeF" "1.5" "ETH"
                    "0.002" TransactionStatus.completed "0xBEEF" (Some 1%Z) None None 3)),
       db').
Proof.
  destruct (updateTransactionStatus_changes_the_status_only Js.toLowerCase_ascii
              3 1 TransactionType.send
              "0xAbC" "0xDeF" "1.5" "ETH" "0.002" TransactionStatus.pending "0xBEEF"
              (Some 1%Z) None None TransactionStatus.completed store_with_wallet eq_refl)
    as (db' & Hrun & _).
  - split; constructor.
  - constructor.
  - by exists db'.
Defined.

(** X29: the life of an in-memory store.  [connect] and [disconnect]
    change nothing but the connection, so a store that is disconnected
    and connected again holds what it held, and connecting twice is
    connecting once.  [clearAll] empties the wallets and the transactions
    and sets both counters back to 1 without touching the connection: on
    a connected store the next wallet and the next transaction get the id
    1 again, whatever ids were handed out before, and they are then all
    the store holds. *)
Theorem mock_store_lifecycle db :
  snd ((MockDatabase.disconnect;; MockDatabase.connect) db)
  = MockDatabase.set_connected true db
  ∧ snd ((MockDatabase.connect;; MockDatabase.connect) db) = snd (MockDatabase.connect db)
  ∧ (∀ userId,
       fst ((MockDatabase.disconnect;; MockDatabase.connect;;
             MockDatabase.getWalletsByUser userId) db)
       = inr (filter (λ w, WalletRecord.userId w = userId) (MockDatabase.wallets db)))
  ∧ (MockDatabase.connected db = true →
     ∀ now userId walletData now' transactionData,
       (MockDatabase.clearAll;;
        w ← MockDatabase.createWallet now userId walletData;
        tx ← MockDatabase.recordTransaction now' transactionData;
        ws ← MockDatabase.getAllWallets;
        txs ← MockDatabase.getAllTransactions;
        mret (WalletRecord.id w, TransactionRecord.id tx, ws, txs)) db
       = (inr (1%Z, 1%Z, [wallet_record 1 now userId walletData],
               [TransactionRecord.mk 1
                  (TransactionData.walletId transactionData)
                  (TransactionData.transactionType transactionData)
                  (TransactionData.fromAddress transactionData)
                  (TransactionData.toAddress transactionData)
                  (TransactionData.amount transactionData)
                  (TransactionData.currency transactionData)
                  (TransactionData.fee transactionData)
                  (TransactionData.status transactionData)
                  (TransactionData.hash transactionData)
                  (TransactionData.chainId transactionData)
                  (TransactionData.fromChainId transactionData)
                  (TransactionData.toChainId transactionData) now']),
          MockDatabase.mk
            [wallet_record 1 now userId walletData]
            [TransactionRecord.mk 1
               (TransactionData.walletId transactionData)
               (TransactionData.transactionType transactionData)
               (TransactionData.fromAddress transactionData)
               (TransactionData.toAddress transactionData)
               (TransactionData.amount transactionData)
               (TransactionData.currency transactionData)
               (TransactionData.fee transactionData)
               (TransactionData.status transactionData)
               (TransactionData.hash transactionData)
               (TransactionData.chainId transactionData)
               (TransactionData.fromChainId transactionData)
               (TransactionData.toChainId transactionData) now']
            2 2 true)).
Proof.
  split_and!; try done.
  intros Hc now userId walletData now' transactionData.
  assert (MockDatabase.clearAll db = (inr tt, MockDatabase.mk [] [] 1 1 true)) as Hclear.
  { unfold MockDatabase.clearAll. eff_unfold. by rewrite Hc. }
  unfold mbind at 1, eff_bind. rewrite Hclear.
  unfold mbind at 1, eff_bind.
  rewrite run_createWallet by done. cbv zeta.
  unfold mbind at 1, eff_bind.
  rewrite run_recordTransaction by done. reflexivity.
Qed.

(** ** [SwapService] beyond the claims *)

Section SwapServiceMore.

Import MockDatabase SwapService.

Variable api : ChangeNow.API.

(** [createSwap] for a stored wallet, run to its end. *)
Lemma createSwap_run now walletId wallet fromCurrency toCurrency fromAmount toAddress
    refundAddress fromChainId toChainId order rate db :
  connected db = true →
  NoDup (WalletRecord.id <$> wallets db) →
  wallet ∈ wallets db →
  WalletRecord.id wallet = walletId →
  ChangeNow.createTransaction api fromCurrency toCurrency fromAmount toAddress
    refundAddress fromChainId toChainId = inr order →
  ChangeNow.getExchangeRate api fromCurrency toCurrency fromAmount fromChainId toChainId
    = inr rate →
  createSwap api now walletId fromCurrency toCurrency fromAmount toAddress
    refundAddress fromChainId toChainId db
  = (let tx :=
       TransactionRecord.mk (transactionIdCounter db) walletId
         TransactionType.swap (WalletRecord.address wallet) toAddress fromAmount
         fromCurrency (ChangeNow.SwapRate.fee rate) TransactionStatus.pending
         (ChangeNow.SwapTransaction.id order) fromChainId fromChainId toChainId now in
     (inr tx,
      mk (wallets db) (transactions db ++ [tx]) (walletIdCounter db)
        (transactionIdCounter db + 1) true)).
Proof using Type.
  intros Hc Hnd Hin <- Horder Hrate.
  unfold createSwap, try_catch. unfold mbind at 1, eff_bind.
  rewrite run_getWalletById by done.
  destruct (find_key_Some WalletRecord.id _ wallet Hnd Hin) as [k Hfind].
  unfold find. rewrite Hfind. cbn [fmap option_fmap option_map snd].
  unfold mbind at 1, eff_bind, await at 1. rewrite Horder.
  unfold mbind at 1, eff_bind, await at 1. rewrite Hrate.
  unfold mbind at 1, eff_bind. rewrite run_recordTransaction by done.
  cbv zeta. unfold mret, eff_ret. cbn. by rewrite Hc.
Qed.

End SwapServiceMore.

(** X9: on a connected store with distinct wallet ids, [createSwap] for a
    stored wallet, when the gateway accepts the order and quotes a rate,
    returns and appends exactly one record: a pending swap of that wallet
    whose id is the counter, whose sender is the wallet's address, whose
    fee is the quoted fee, whose hash is the order id of the gateway, and
    whose [chainId] and [fromChainId] are both the source chain id given,
    with [toChainId] the target one.  Nothing else of the store changes. *)
Theorem createSwap_stores_pending_swap api now walletId wallet
    fromCurrency toCurrency fromAmount toAddress refundAddress fromChainId toChainId
    order rate db :
  MockDatabase.connected db = true →
  NoDup (WalletRecord.id <$> MockDatabase.wallets db) →
  wallet ∈ MockDatabase.wallets db →
  WalletRecord.id wallet = walletId →
  ChangeNow.createTransaction api fromCurrency toCurrency fromAmount toAddress
    refundAddress fromChainId toChainId = inr order →
  ChangeNow.getExchangeRate api fromCurrency toCurrency fromAmount fromChainId toChainId
    = inr rate →
  let tx :=
    TransactionRecord.mk (MockDatabase.transactionIdCounter db) walletId
      TransactionType.swap (WalletRecord.address wallet) toAddress fromAmount fromCurrency
      (ChangeNow.SwapRate.fee rate) TransactionStatus.pending
      (ChangeNow.SwapTransaction.id order) fromChainId fromChainId toChainId now in
  SwapService.createSwap api now walletId fromCurrency toCurrency fromAmount toAddress
    refundAddress fromChainId toChainId db
  = (inr tx,
     MockDatabase.mk (MockDatabase.wallets db) (MockDatabase.transactions db ++ [tx])
       (MockDatabase.walletIdCounter db) (MockDatabase.transactionIdCounter db + 1) true).
Proof.
  intros Hc Hnd Hin Hid Horder Hrate tx.
  by rewrite (createSwap_run api now walletId wallet) with (order := order) (rate := rate).
Qed.

Lemma createSwap_stores_pending_swap_witness :
  SwapService.createSwap (ChangeNow.scripted "order-9" ChangeNow.waiting) 7 1
    "ETH" "MATIC" "2.0" "0xDeF" "0xAbC" (Some 1%Z) (Some 137%Z) store_with_wallet
  = (inr (TransactionRecord.mk 1 1 TransactionType.swap
            "0x52908400098527886E0F7030069857D2E4169EE7" "0xDeF" "2.0" "ETH" "0.01"
            TransactionStatus.pending "order-9" (Some 1%Z) (Some 1%Z) (Some 137%Z) 7),
     MockDatabase.mk (MockDatabase.wallets store_with_wallet)
       [TransactionRecord.mk 1 1 TransactionType.swap
          "0x52908400098527886E0F7030069857D2E4169EE7" "0xDeF" "2.0" "ETH" "0.01"
          TransactionStatus.pending "order-9" (Some 1%Z) (Some 1%Z) (Some 137%Z) 7]
       2 2 true).
Proof.
  apply (createSwap_stores_pending_swap (ChangeNow.scripted "order-9" ChangeNow.waiting)
           7 1 stored_wallet "ETH" "MATIC" "2.0" "0xDeF" "0xAbC" (Some 1%Z) (Some 137%Z)
           _ _ store_with_wallet eq_refl (NoDup_singleton _) (list_elem_of_here _ _)
           eq_refl eq_refl eq_refl).
Defined.

(** X10: when the gateway throws, [createSwap] for a stored wallet throws
    an [Error] whose message is the gateway's behind the prefix
    ["Failed to create swap: "], and the store is as it was.  This is so
    when the order itself is refused, and also when the order was placed
    and only the rate request that follows it fails: the order then exists
    at the gateway with no record of it in the store. *)
Theorem createSwap_gateway_failure api now walletId wallet
    fromCurrency toCurrency fromAmount toAddress refundAddress fromChainId toChainId e db :
  MockDatabase.connected db = true →
  wallet ∈ MockDatabase.wallets db →
  WalletRecord.id wallet = walletId →
  ChangeNow.createTransaction api fromCurrency toCurrency fromAmount toAddress
    refundAddress fromChainId toChainId = inl e
  ∨ (∃ order,
       ChangeNow.createTransaction api fromCurrency toCurrency fromAmount toAddress
         refundAddress fromChainId toChainId = inr order
       ∧ ChangeNow.getExchangeRate api fromCurrency toCurrency fromAmount
           fromChainId toChainId = inl e) →
  SwapService.createSwap api now walletId fromCurrency toCurrency fromAmount toAddress
    refundAddress fromChainId toChainId db
  = (inl (Js.mkError ("Failed to create swap: " +:+ Js.message_or e "Unknown error")), db).
Proof.
  intros Hc Hin Hid Hfail.
  unfold SwapService.createSwap, try_catch. unfold mbind at 1, eff_bind.
  rewrite run_getWalletById by done.
  destruct (list_find_elem_of (λ w, WalletRecord.id w = walletId) _ wallet Hin Hid)
    as [[k w] Hfind].
  unfold MockDatabase.find. rewrite Hfind. cbn [fmap option_fmap option_map snd].
  unfold mbind at 1, eff_bind, await at 1.
  destruct Hfail as [Horder|(order & Horder & Hrate)]; rewrite Horder; [done|].
  unfold mbind at 1, eff_bind, await at 1. by rewrite Hrate.
Qed.

Lemma createSwap_gateway_failure_witness :
  SwapService.createSwap ChangeNow.unreachable 7 1
    "ETH" "BTC" "1.0" "bc1q" "0xAbC" (Some 1%Z) None store_with_wallet
  = (inl (Js.mkError
            "Failed to create swap: Failed to create transaction: Network Error"),
     store_with_wallet).
Proof.
  apply (createSwap_gateway_failure ChangeNow.unreachable 7 1 stored_wallet
           "ETH" "BTC" "1.0" "bc1q" "0xAbC" (Some 1%Z) None _ store_with_wallet
           eq_refl (list_elem_of_here _ _) eq_refl (or_introl eq_refl)).
Defined.

(** X11: on a store that is not connected [createSwap] throws the
    store's error behind its own prefix, whatever the gateway would
    answer, and the methods that only forward to the store throw its
    error as it is; the store is as it was.  [updatePendingSwaps] does
    not get as far as the connection check: it throws, as on a connected
    store, the error of the call of the method the store lacks, behind
    its own prefix. *)
Theorem swap_service_without_connection api db :
  MockDatabase.connected db = false →
  (∀ now walletId fromCurrency toCurrency fromAmount toAddress refundAddress
      fromChainId toChainId,
     SwapService.createSwap api now walletId fromCurrency toCurrency fromAmount
       toAddress refundAddress fromChainId toChainId db
     = (inl (Js.mkError
               "Failed to create swap: Database not connected. Call connect() first."),
        db))
  ∧ SwapService.updatePendingSwaps api db
    = (inl (Js.mkError
              "Failed to update pending swaps: this.db.getTransactionsByStatus is not a function"),
       db)
  ∧ (∀ transactionId status,
       SwapService.updateSwapStatus transactionId status db = (inl notConnected, db))
  ∧ (∀ walletId, SwapService.getSwapsByWallet walletId db = (inl notConnected, db))
  ∧ (∀ userId, SwapService.getSwapsByUser userId db = (inl notConnected, db)).
Proof.
  intros Hc. split_and!; intros.
  - unfold SwapService.createSwap, try_catch. unfold mbind at 1, eff_bind.
    unfold MockDatabase.getWalletById. by rewrite ensureConnected_off.
  - apply run_updatePendingSwaps.
  - by apply ensureConnected_off.
  - unfold SwapService.getSwapsByWallet. unfold mbind at 1, eff_bind.
    unfold MockDatabase.getTransactionsByWallet. by rewrite ensureConnected_off.
  - unfold SwapService.getSwapsByUser. unfold mbind at 1, eff_bind.
    unfold MockDatabase.getTransactionsByUser. by rewrite ensureConnected_off.
Qed.

Lemma swap_service_without_connection_witness :
  SwapService.createSwap (ChangeNow.scripted "order-3" ChangeNow.finished) 7 1
    "ETH" "BTC" "1.0" "bc1q" "0xAbC" (Some 1%Z) None
    (snd (SwapService.cleanup store_with_two_swaps))
  = (inl (Js.mkError
            "Failed to create swap: Database not connected. Call connect() first."),
     snd (SwapService.cleanup store_with_two_swaps))
  ∧ SwapService.updatePendingSwaps (ChangeNow.scripted "order-1" ChangeNow.finished)
      (snd (SwapService.cleanup store_with_two_swaps))
    = (inl (Js.mkError
              "Failed to update pending swaps: this.db.getTransactionsByStatus is not a function"),
       snd (SwapService.cleanup store_with_two_swaps)).
Proof.
  split.
  - apply (swap_service_without_connection
             (ChangeNow.scripted "order-3" ChangeNow.finished)
             (snd (SwapService.cleanup store_with_two_swaps)) eq_refl).
  - apply (swap_service_without_connection
             (ChangeNow.scripted "order-1" ChangeNow.finished)
             (snd (SwapService.cleanup store_with_two_swaps)) eq_refl).
Defined.

(** X13: the loop of [updatePendingSwaps] on its own, over records that
    are pending swaps of a connected store with distinct transaction ids
    (what the scan would be handed).  It does not throw.  A record whose
    status lookup throws, or answers a status that projects to
    [pending], is left as it was; a record whose lookup answers a status
    that projects to [completed] or [failed] is stored with that status
    and every other field as it was; the count rises by the number of
    the latter.  Records not handed to the loop, the wallets, both
    counters and the connection are as before. *)
Theorem updatePendingSwaps_loop_settles_each_record api updatedCount swaps db :
  MockDatabase.connected db = true →
  well_formed db →
  NoDup (TransactionRecord.id <$> swaps) →
  Forall (λ tx, tx ∈ MockDatabase.transactions db ∧ is_pending_swap tx) swaps →
  ∃ db',
    SwapService.updatePendingSwaps_loop api updatedCount swaps db
    = (inr (updatedCount
            + Z.of_nat (length (filter (λ tx, is_Some (settlement api tx)) swaps)))%Z, db')
    ∧ MockDatabase.wallets db' = MockDatabase.wallets db
    ∧ MockDatabase.walletIdCounter db' = MockDatabase.walletIdCounter db
    ∧ MockDatabase.transactionIdCounter db' = MockDatabase.transactionIdCounter db
    ∧ MockDatabase.connected db' = true
    ∧ MockDatabase.transactions db'
      = (λ tx, if decide (tx ∈ swaps) then reconciled api tx else tx)
          <$> MockDatabase.transactions db
    ∧ (∀ tx e,
         is_pending_swap tx →
         ChangeNow.getTransactionStatus api (TransactionRecord.hash tx) = inl e →
         settlement api tx = None ∧ reconciled api tx = tx)
    ∧ (∀ tx st,
         is_pending_swap tx →
         ChangeNow.getTransactionStatus api (TransactionRecord.hash tx) = inr st →
         settlement api tx
         = (if decide (coarse_status (ChangeNow.SwapStatus.status st)
                       = TransactionStatus.pending)
            then None else Some (coarse_status (ChangeNow.SwapStatus.status st)))
         ∧ reconciled api tx
           = TransactionRecord.mk
               (TransactionRecord.id tx) (TransactionRecord.walletId tx)
               (TransactionRecord.transactionType tx) (TransactionRecord.fromAddress tx)
               (TransactionRecord.toAddress tx) (TransactionRecord.amount tx)
               (TransactionRecord.currency tx) (TransactionRecord.fee tx)
               (coarse_status (ChangeNow.SwapStatus.status st))
               (TransactionRecord.hash tx) (TransactionRecord.chainId tx)
               (TransactionRecord.fromChainId tx) (TransactionRecord.toChainId tx)
               (TransactionRecord.timestamp tx)).
Proof.
  intros Hc [Hnd _] Hnds Hall.
  rewrite (run_loop api swaps updatedCount db Hc Hnd Hnds Hall).
  eexists. split; [reflexivity|].
  cbn [MockDatabase.transactions MockDatabase.set_transactions MockDatabase.wallets
       MockDatabase.walletIdCounter MockDatabase.transactionIdCounter
       MockDatabase.connected].
  split_and!; try done.
  - intros tx e Hps He. unfold reconciled, settlement.
    by rewrite decide_True, He by done.
  - intros tx st Hps Hst. unfold reconciled, settlement.
    rewrite decide_True, Hst by done. cbv zeta. split; [done|].
    case_decide as Hp; [|done].
    rewrite Hp. destruct Hps as [<- _]. by destruct tx.
Qed.

Lemma updatePendingSwaps_loop_settles_each_record_witness :
  let api := ChangeNow.scripted "order-2" ChangeNow.finished in
  let first := TransactionRecord.mk 1 1 TransactionType.swap
                 "0x52908400098527886E0F7030069857D2E4169EE7" "bc1q" "1.0" "ETH" "0.01"
                 TransactionStatus.pending "order-1" (Some 1%Z) (Some 1%Z) None 1 in
  let second := TransactionRecord.mk 2 1 TransactionType.swap
                  "0x52908400098527886E0F7030069857D2E4169EE7" "0xDeF" "2.0" "ETH" "0.01"
                  TransactionStatus.pending "order-2" (Some 1%Z) (Some 1%Z) (Some 137%Z) 2 in
  let settled := TransactionRecord.mk 2 1 TransactionType.swap
                   "0x52908400098527886E0F7030069857D2E4169EE7" "0xDeF" "2.0" "ETH" "0.01"
                   TransactionStatus.completed "order-2" (Some 1%Z) (Some 1%Z)
                   (Some 137%Z) 2 in
  MockDatabase.transactions store_with_two_swaps = [first; second]
  ∧ ChangeNow.getTransactionStatus api "order-1"
    = inl (Js.mkError "Failed to get transaction status: not found")
  ∧ ∃ db',
      SwapService.updatePendingSwaps_loop api 0 [first; second] store_with_two_swaps
      = (inr 1%Z, db')
      ∧ MockDatabase.transactions db' = [first; settled].
Proof.
  cbv zeta. split; [reflexivity|]. split; [reflexivity|].
  destruct (updatePendingSwaps_loop_settles_each_record
              (ChangeNow.scripted "order-2" ChangeNow.finished) 0
              (MockDatabase.transactions store_with_two_swaps) store_with_two_swaps
              eq_refl well_formed_store_with_two_swaps
              (proj1 well_formed_store_with_two_swaps))
    as (db' & Hrun & _ & _ & _ & _ & Htxs & _).
  - repeat constructor.
  - exists db'. split; [exact Hrun|]. rewrite Htxs. reflexivity.
Defined.

(** X14: after [createSwap] has succeeded for a stored wallet,
    [getSwapsByWallet] of the wallet returns the swaps it returned before
    followed by the new record, [getSwapsByUser] of the wallet's owner
    does the same for the owner's swaps, and both lists hold swaps only. *)
Theorem createSwap_then_getSwaps api now walletId wallet
    fromCurrency toCurrency fromAmount toAddress refundAddress fromChainId toChainId
    order rate db :
  MockDatabase.connected db = true →
  NoDup (WalletRecord.id <$> MockDatabase.wallets db) →
  wallet ∈ MockDatabase.wallets db →
  WalletRecord.id wallet = walletId →
  ChangeNow.createTransaction api fromCurrency toCurrency fromAmount toAddress
    refundAddress fromChainId toChainId = inr order →
  ChangeNow.getExchangeRate api fromCurrency toCurrency fromAmount fromChainId toChainId
    = inr rate →
  ∃ tx db' ofWallet ofUser,
    SwapService.createSwap api now walletId fromCurrency toCurrency fromAmount toAddress
      refundAddress fromChainId toChainId db = (inr tx, db')
    ∧ SwapService.getSwapsByWallet walletId db = (inr ofWallet, db)
    ∧ SwapService.getSwapsByWallet walletId db' = (inr (ofWallet ++ [tx]), db')
    ∧ SwapService.getSwapsByUser (WalletRecord.userId wallet) db = (inr ofUser, db)
    ∧ SwapService.getSwapsByUser (WalletRecord.userId wallet) db'
      = (inr (ofUser ++ [tx]), db')
    ∧ Forall (λ t, TransactionRecord.transactionType t = TransactionType.swap)
             (ofWallet ++ ofUser ++ [tx]).
Proof.
  intros Hc Hnd Hin Hid Horder Hrate.
  rewrite (createSwap_run api now walletId wallet) with (order := order) (rate := rate)
    by done.
  cbv zeta. set (tx := TransactionRecord.mk _ _ _ _ _ _ _ _ _ _ _ _ _ _).
  unfold SwapService.getSwapsByWallet, SwapService.getSwapsByUser.
  unfold mbind, eff_bind.
  rewrite !run_getTransactionsByWallet, !run_getTransactionsByUser by done.
  cbn [MockDatabase.wallets MockDatabase.transactions].
  eexists _, _, _, _. split; [reflexivity|]. split; [reflexivity|].
  split.
  { unfold mret, eff_ret. refine (f_equal (λ l, (inr l, _)) _).
    cbn [MockDatabase.wallets MockDatabase.transactions].
    rewrite !filter_app, !filter_cons_True, !filter_nil by done. done. }
  split; [reflexivity|]. split.
  { unfold mret, eff_ret. refine (f_equal (λ l, (inr l, _)) _).
    cbn [MockDatabase.wallets MockDatabase.transactions].
    rewrite filter_app, (filter_cons_True _ tx).
    - by rewrite !filter_app, !filter_cons_True, !filter_nil by done.
    - cbn. apply list_elem_of_fmap. exists wallet. split; [done|].
      by apply list_elem_of_filter. }
  rewrite !Forall_app. split_and!.
  - apply Forall_forall. by intros t [? _]%list_elem_of_filter.
  - apply Forall_forall. by intros t [? _]%list_elem_of_filter.
  - by apply Forall_singleton.
Qed.

Lemma createSwap_then_getSwaps_witness :
  ∃ tx db' ofWallet ofUser,
    SwapService.createSwap (ChangeNow.scripted "order-3" ChangeNow.waiting) 7 1
      "ETH" "BTC" "1.0" "bc1q" "0xAbC" (Some 1%Z) None store_with_two_swaps
    = (inr tx, db')
    ∧ SwapService.getSwapsByWallet 1 store_with_two_swaps
      = (inr ofWallet, store_with_two_swaps)
    ∧ SwapService.getSwapsByWallet 1 db' = (inr (ofWallet ++ [tx]), db')
    ∧ SwapService.getSwapsByUser "alice" store_with_two_swaps
      = (inr ofUser, store_with_two_swaps)
    ∧ SwapService.getSwapsByUser "alice" db' = (inr (ofUser ++ [tx]), db').
Proof.
  destruct (createSwap_then_getSwaps (ChangeNow.scripted "order-3" ChangeNow.waiting)
              7 1 stored_wallet "ETH" "BTC" "1.0" "bc1q" "0xAbC" (Some 1%Z) None
              _ _ store_with_two_swaps eq_refl (NoDup_singleton _)
              (list_elem_of_here _ _) eq_refl eq_refl eq_refl)
    as (tx & db' & ofWallet & ofUser & H1 & H2 & H3 & H4 & H5 & _).
  by exists tx, db', ofWallet, ofUser.
Defined.

(** ** The gateway's private methods *)

Section Gateway.

Import ChangeNowAPI.

Lemma getNetworkName_Some currency n name :
  getNetworkName currency (Some n) = Some name →
  (n = 1%Z ∧ name = "eth") ∨ (n = 56%Z ∧ name = "bsc") ∨ (n = 137%Z ∧ name = "polygon")
  ∨ (n = 43114%Z ∧ name = "avalanche") ∨ (n = 10%Z ∧ name = "optimism")
  ∨ (n = 42161%Z ∧ name = "arbitrum").
Proof.
  unfold getNetworkName. destruct (n =? 0)%Z; [done|]. intros H.
  repeat match type of H with
         | context [match ?p with _ => _ end] => destruct p; try discriminate H
         end;
    injection H as <-; auto 10.
Qed.

(** A text that holds a byte which continues nothing ends in the
    character its last part ends in. *)
Lemma last_char_app l1 l2 :
  existsb (λ b, negb (Js.is_continuation b)) l2 = true →
  Js.last_char (l1 ++ l2) = Js.last_char l2.
Proof.
  intros Hl2. induction l1 as [|b l1 IH]; [done|].
  cbn [app Js.last_char]. rewrite IH.
  destruct (forallb Js.is_continuation (l1 ++ l2)) eqn:Hall; [|done].
  rewrite forallb_app in Hall. apply andb_true_iff in Hall as [_ Hall].
  apply existsb_exists in Hl2 as (c & Hc & Hneg).
  rewrite forallb_forall in Hall. rewrite (Hall c Hc) in Hneg. done.
Qed.

Lemma list_ascii_of_string_app s t :
  list_ascii_of_string (s +:+ t) = list_ascii_of_string s ++ list_ascii_of_string t.
Proof.
  induction s as [|c s IH]; [done|].
  change (list_ascii_of_string (String c s +:+ t))
    with (c :: list_ascii_of_string (s +:+ t)).
  by rewrite IH.
Qed.

Lemma append_assoc (s t u : string) : (s +:+ t) +:+ u = s +:+ (t +:+ u).
Proof.
  induction s as [|c s IH]; [done|].
  change (String c ((s +:+ t) +:+ u) = String c (s +:+ (t +:+ u))). by rewrite IH.
Qed.

Lemma slice_last_app s t :
  existsb (λ b, negb (Js.is_continuation b)) (list_ascii_of_string t) = true →
  Js.slice_last (s +:+ t) = Js.slice_last t.
Proof.
  intros Ht. unfold Js.slice_last. by rewrite list_ascii_of_string_app, last_char_app.
Qed.

Lemma ends_in_last_digit_below_1000 :
  forallb ends_in_last_digit (Z.of_nat <$> seq 0 1000) = true.
Proof. vm_compute. reflexivity. Qed.

Lemma ends_in_last_digit_ok r : (0 ≤ r < 1000)%Z → ends_in_last_digit r = true.
Proof.
  intros Hr. pose proof ends_in_last_digit_below_1000 as Hall.
  rewrite forallb_forall in Hall. apply Hall.
  apply list_elem_of_In, list_elem_of_fmap. exists (Z.to_nat r).
  split; [lia|]. apply list_elem_of_In, in_seq. lia.
Qed.

Lemma digit36_digit_char d :
  (0 ≤ d < 10)%Z → Js.digit36 (digit_char d) = Some d.
Proof.
  intros Hd. assert (d ∈ Z.of_nat <$> seq 0 10) as Hin.
  { apply list_elem_of_fmap. exists (Z.to_nat d). split; [lia|].
    apply list_elem_of_In, in_seq. lia. }
  cbn in Hin. repeat (apply elem_of_cons in Hin as [->|Hin]; [reflexivity|]).
  by apply elem_of_nil in Hin.
Qed.

(** The status the mock reports for an id that ends in the rendering
    of [random]. *)
Lemma mock_status_of_id s random :
  (0 ≤ random < 1000)%Z →
  MockStatus.status (getMockTransactionStatus (s +:+ Js.string_of_number random))
  = statusOptions !! Z.to_nat ((random mod 10) mod 7).
Proof.
  intros Hr. pose proof (ends_in_last_digit_ok random Hr) as Hok.
  unfold ends_in_last_digit in Hok. apply andb_true_iff in Hok as [Hlast Hne].
  apply String.eqb_eq in Hlast.
  unfold getMockTransactionStatus. cbn [MockStatus.status].
  rewrite slice_last_app, Hlast by done.
  cbn [Js.parseInt36]. rewrite digit36_digit_char by (apply Z.mod_pos_bound; lia).
  reflexivity.
Qed.

End Gateway.

(** X15: the network a request names depends on the chain id alone, not
    on the currency.  A name is given exactly for the six chain ids 1, 56,
    137, 43114, 10 and 42161, different ids get different names, and for
    no id, for [0], and for the six other ids of [CHAIN_IDS] (the test
    networks, Arbitrum Nova and Fantom) the request goes out without a
    network. *)
Theorem getNetworkName_by_chain_id :
  (∀ currency currency' chainId,
     ChangeNowAPI.getNetworkName currency chainId
     = ChangeNowAPI.getNetworkName currency' chainId)
  ∧ (∀ currency n,
       is_Some (ChangeNowAPI.getNetworkName currency (Some n)) ↔ n ∈ named_chain_ids)
  ∧ (∀ currency currency' n n' name,
       ChangeNowAPI.getNetworkName currency (Some n) = Some name →
       ChangeNowAPI.getNetworkName currency' (Some n') = Some name → n = n')
  ∧ (∀ currency, ChangeNowAPI.getNetworkName currency None = None)
  ∧ (∀ currency, ChangeNowAPI.getNetworkName currency (Some 0%Z) = None)
  ∧ (∀ currency,
       Forall (λ n, ChangeNowAPI.getNetworkName currency (Some n) = None)
         [CHAIN_IDS.ETHEREUM_GOERLI; CHAIN_IDS.ETHEREUM_SEPOLIA; CHAIN_IDS.BSC_TESTNET;
          CHAIN_IDS.POLYGON_MUMBAI; CHAIN_IDS.ARBITRUM_NOVA; CHAIN_IDS.FANTOM]).
Proof.
  split_and!; try done.
  - intros currency n. split.
    + intros [name Hname]. apply getNetworkName_Some in Hname.
      unfold named_chain_ids.
      destruct Hname as [[-> _]|[[-> _]|[[-> _]|[[-> _]|[[-> _]|[-> _]]]]]];
        repeat constructor.
    + unfold named_chain_ids. intros Hin.
      repeat (apply elem_of_cons in Hin as [->|Hin]; [by eexists|]).
      by apply elem_of_nil in Hin.
  - intros currency currency' n n' name H1%getNetworkName_Some H2%getNetworkName_Some.
    destruct H1 as [[-> ->]|[[-> ->]|[[-> ->]|[[-> ->]|[[-> ->]|[-> ->]]]]]];
      destruct H2 as [[-> ?]|[[-> ?]|[[-> ?]|[[-> ?]|[[-> ?]|[-> ?]]]]]];
      done.
  - intros currency. repeat constructor.
Qed.

(** X16: the id the mock gives an order ends in the digits of the number
    drawn below 1000, and the status the mock reports for that id is the
    entry of [statusOptions] at the last digit modulo 7: [finished] for a
    last digit 4, [failed] for 5, [refunded] for 6, and a status still in
    progress for every other digit.  The status is always defined for
    such an id, and a payout hash is reported exactly when the status is
    [finished], in which case it is the pay-in hash. *)
Theorem getMockTransactionStatus_of_mock_order
    (number : Type) (parseFloat : string → number) (times : number → number → number)
    (number_toString : number → string) (toLowerCase : string → string) now random
    fromCurrency toCurrency amount toAddress refundAddress fromChainId toChainId :
  (0 ≤ random < 1000)%Z →
  let order :=
    ChangeNowAPI.getMockTransaction number parseFloat times number_toString toLowerCase
      now random
      fromCurrency toCurrency amount toAddress refundAddress fromChainId toChainId in
  let answer := ChangeNowAPI.getMockTransactionStatus (ChangeNow.SwapTransaction.id order) in
  ChangeNowAPI.MockStatus.status answer
  = ChangeNowAPI.statusOptions !! Z.to_nat ((random mod 10) mod 7)
  ∧ is_Some (ChangeNowAPI.MockStatus.status answer)
  ∧ (ChangeNowAPI.MockStatus.status answer = Some ChangeNow.finished ↔ random mod 10 = 4)%Z
  ∧ (ChangeNowAPI.MockStatus.status answer = Some ChangeNow.failed ↔ random mod 10 = 5)%Z
  ∧ (ChangeNowAPI.MockStatus.status answer = Some ChangeNow.refunded ↔ random mod 10 = 6)%Z
  ∧ ChangeNowAPI.MockStatus.payoutHash answer
    = (if decide (random mod 10 = 4)%Z
       then Some (ChangeNowAPI.MockStatus.payinHash answer) else None).
Proof.
  intros Hr order answer.
  assert (ChangeNowAPI.MockStatus.status answer
          = ChangeNowAPI.statusOptions !! Z.to_nat ((random mod 10) mod 7)) as Hst.
  { unfold answer, order, ChangeNowAPI.getMockTransaction.
    cbn [ChangeNow.SwapTransaction.id].
    rewrite <- !append_assoc. apply mock_status_of_id. done. }
  assert (random mod 10 ∈ Z.of_nat <$> seq 0 10)%Z as Hd.
  { apply list_elem_of_fmap. exists (Z.to_nat (random mod 10)).
    pose proof (Z.mod_pos_bound random 10). split; [lia|].
    apply list_elem_of_In, in_seq. lia. }
  assert (ChangeNowAPI.MockStatus.payoutHash answer
          = if decide (ChangeNowAPI.MockStatus.status answer = Some ChangeNow.finished)
            then Some (ChangeNowAPI.MockStatus.payinHash answer) else None) as Hpay
    by reflexivity.
  rewrite Hpay, Hst. clear Hpay Hst. cbn in Hd.
  repeat (apply elem_of_cons in Hd as [->|Hd];
          [cbn; split_and!; (done || by eexists)|]).
  by apply elem_of_nil in Hd.
Qed.

Lemma getMockTransactionStatus_of_mock_order_witness :
  ChangeNowAPI.MockStatus.status
    (ChangeNowAPI.getMockTransactionStatus
       (ChangeNow.SwapTransaction.id
          (ChangeNowAPI.getMockTransaction string id (λ a b, a +:+ "*" +:+ b) id
             Js.toLowerCase_ascii 1700000000000 734 "ETH" "BTC" "1.0" "bc1q" "0xAbC" (Some 1%Z) None)))
  = Some ChangeNow.finished.
Proof.
  assert (0 ≤ 734 < 1000)%Z as Hr by lia.
  apply (proj1 (proj2 (proj2 (getMockTransactionStatus_of_mock_order
           string id (λ a b, a +:+ "*" +:+ b) id Js.toLowerCase_ascii 1700000000000 734
           "ETH" "BTC" "1.0" "bc1q" "0xAbC" (Some 1%Z) None Hr)))).
  reflexivity.
Defined.

(** ** [WalletService] beyond the claims *)

Section WalletServiceMore.

Import MockDatabase WalletService.

Lemma createWallet_with_wallets now userId walletData ws db :
  connected db = true →
  createWallet now userId walletData (with_wallets ws db)
  = (inr (wallet_record (walletIdCounter db + Z.of_nat (length ws)) now userId walletData),
     with_wallets
       (ws ++ [wallet_record (walletIdCounter db + Z.of_nat (length ws)) now userId
                 walletData]) db).
Proof.
  intros Hc. rewrite run_createWallet by done. cbv zeta.
  unfold with_wallets, wallet_record. cbn. f_equal. f_equal.
  - by rewrite app_assoc.
  - rewrite length_app. cbn. lia.
Qed.

Lemma with_wallets_nil db : with_wallets [] db = db.
Proof. destruct db. unfold with_wallets. cbn. f_equal; [apply app_nil_r|lia]. Qed.

Variable gen : Generators.

(** [generateAndStoreWallets] up to the generator that throws, if one
    does. *)
Lemma run_generateAndStoreWallets now userId password chainId db :
  connected db = true →
  generateAndStoreWallets gen now userId password chainId db
  = (let c := walletIdCounter db in
     let evm := number_or chainId CHAIN_IDS.ETHEREUM_MAINNET in
     match EthereumWalletGenerator gen password with
     | inl e => (inl e, db)
     | inr eth =>
         let w1 := wallet_record c now userId (ethereum_data eth evm) in
         match BitcoinWalletGenerator gen password BitcoinNetwork.mainnet with
         | inl e => (inl e, with_wallets [w1] db)
         | inr btc =>
             let w2 := wallet_record (c + 1) now userId (bitcoin_data btc) in
             match SolanaWalletGenerator gen password with
             | inl e => (inl e, with_wallets [w1; w2] db)
             | inr sol =>
                 let w3 := wallet_record (c + 2) now userId
                             (plainWalletData WalletType.solana sol) in
                 match TronWalletGenerator gen password with
                 | inl e => (inl e, with_wallets [w1; w2; w3] db)
                 | inr tron =>
                     let w4 := wallet_record (c + 3) now userId
                                 (plainWalletData WalletType.tron tron) in
                     (inr (mkData (eth, Some evm) btc sol tron),
                      with_wallets [w1; w2; w3; w4] db)
                 end
             end
         end
     end).
Proof using Type.
  intros Hc. cbv zeta. unfold generateAndStoreWallets.
  unfold mbind at 1, eff_bind, await at 1.
  destruct (EthereumWalletGenerator gen password) as [e|eth]; [done|].
  unfold mbind at 1, eff_bind.
  rewrite <- (with_wallets_nil db) at 1.
  rewrite createWallet_with_wallets by done.
  cbn [length app Z.of_nat]. rewrite Z.add_0_r.
  unfold mbind at 1, eff_bind, await at 1.
  destruct (BitcoinWalletGenerator gen password _) as [e|btc]; [done|].
  unfold mbind at 1, eff_bind.
  rewrite createWallet_with_wallets by done.
  cbn [length app]. change (Z.of_nat 1) with 1%Z.
  unfold mbind at 1, eff_bind, await at 1.
  destruct (SolanaWalletGenerator gen password) as [e|sol]; [done|].
  unfold mbind at 1, eff_bind.
  rewrite createWallet_with_wallets by done.
  cbn [length app]. change (Z.of_nat 2) with 2%Z.
  unfold mbind at 1, eff_bind, await at 1.
  destruct (TronWalletGenerator gen password) as [e|tron]; [done|].
  unfold mbind at 1, eff_bind.
  rewrite createWallet_with_wallets by done.
  cbn [length app]. change (Z.of_nat 3) with 3%Z.
  reflexivity.
Qed.

End WalletServiceMore.

(** X18: on a connected store, when the four generators return,
    [generateAndStoreWallets] stores four wallets of the owner, in the
    order Ethereum, Bitcoin, Solana, Tron, under four consecutive ids that
    start at the counter; the Ethereum record carries the chain id given
    (1 when none is), the Bitcoin record the network of the generated
    wallet, the other two neither.  It returns the four generated wallets,
    and [getWallets] of the owner afterwards returns the owner's earlier
    wallets followed by the four. *)
Theorem generateAndStoreWallets_stores_four gen now userId password chainId
    eth btc sol tron db :
  MockDatabase.connected db = true →
  WalletService.EthereumWalletGenerator gen password = inr eth →
  WalletService.BitcoinWalletGenerator gen password BitcoinNetwork.mainnet = inr btc →
  WalletService.SolanaWalletGenerator gen password = inr sol →
  WalletService.TronWalletGenerator gen password = inr tron →
  let c := MockDatabase.walletIdCounter db in
  let evm := WalletService.number_or chainId CHAIN_IDS.ETHEREUM_MAINNET in
  let stored :=
    [wallet_record c now userId (ethereum_data eth evm);
     wallet_record (c + 1) now userId (bitcoin_data btc);
     wallet_record (c + 2) now userId (WalletService.plainWalletData WalletType.solana sol);
     wallet_record (c + 3) now userId (WalletService.plainWalletData WalletType.tron tron)] in
  WalletService.generateAndStoreWallets gen now userId password chainId db
  = (inr (WalletService.mkData (eth, Some evm) btc sol tron), with_wallets stored db)
  ∧ WalletService.getWallets userId (with_wallets stored db)
    = (inr (filter (λ w, WalletRecord.userId w = userId) (MockDatabase.wallets db)
            ++ stored), with_wallets stored db).
Proof.
  intros Hc Heth Hbtc Hsol Htron c evm stored.
  rewrite run_generateAndStoreWallets by done. cbv zeta.
  rewrite Heth, Hbtc, Hsol, Htron. split; [done|].
  unfold WalletService.getWallets. rewrite run_getWalletsByUser by done.
  cbn [MockDatabase.wallets with_wallets]. rewrite filter_app.
  do 2 f_equal. f_equal. unfold stored.
  by rewrite !filter_cons_True, filter_nil by done.
Qed.

Lemma generateAndStoreWallets_stores_four_witness :
  ∃ db',
    WalletService.generateAndStoreWallets sample_generators 9 "alice" "hunter2" None
      store_with_wallet
    = (inr (WalletService.mkData
              (sample_wallet, Some 1%Z)
              (EncryptedBitcoinWallet.mk "1BoatSLRHtKNngkdXEeobR76b53LETtpyT"
                 "c0ffee" "00" "11" BitcoinNetwork.mainnet)
              (EncryptedWallet.mk "4Nd1mY" "c0ffee" "00" "11")
              (EncryptedWallet.mk "TRjE1H8dxypKM1NZRdysbs9wo7huR4bdNz" "c0ffee" "00" "11")),
       db')
    ∧ WalletRecord.id <$> MockDatabase.wallets db' = [1; 2; 3; 4; 5]%Z.
Proof.
  eexists. split.
  - apply (generateAndStoreWallets_stores_four sample_generators 9 "alice" "hunter2" None
             _ _ _ _ store_with_wallet eq_refl eq_refl eq_refl eq_refl eq_refl).
  - reflexivity.
Defined.

(** X19: [generateAndStoreWallets] has no rollback.  When one of the
    generators throws, the error leaves the method as it is, and the
    wallets created before it stay in the store: none if the Ethereum
    generator throws, the Ethereum wallet if the Bitcoin generator does,
    two wallets if the Solana generator does, three if the Tron generator
    does. *)
Theorem generateAndStoreWallets_keeps_earlier_wallets gen now userId password chainId e db :
  MockDatabase.connected db = true →
  let c := MockDatabase.walletIdCounter db in
  let evm := WalletService.number_or chainId CHAIN_IDS.ETHEREUM_MAINNET in
  (WalletService.EthereumWalletGenerator gen password = inl e →
   WalletService.generateAndStoreWallets gen now userId password chainId db = (inl e, db))
  ∧ (∀ eth,
       WalletService.EthereumWalletGenerator gen password = inr eth →
       WalletService.BitcoinWalletGenerator gen password BitcoinNetwork.mainnet = inl e →
       WalletService.generateAndStoreWallets gen now userId password chainId db
       = (inl e, with_wallets [wallet_record c now userId (ethereum_data eth evm)] db))
  ∧ (∀ eth btc,
       WalletService.EthereumWalletGenerator gen password = inr eth →
       WalletService.BitcoinWalletGenerator gen password BitcoinNetwork.mainnet = inr btc →
       WalletService.SolanaWalletGenerator gen password = inl e →
       WalletService.generateAndStoreWallets gen now userId password chainId db
       = (inl e,
          with_wallets [wallet_record c now userId (ethereum_data eth evm);
                        wallet_record (c + 1) now userId (bitcoin_data btc)] db))
  ∧ (∀ eth btc sol,
       WalletService.EthereumWalletGenerator gen password = inr eth →
       WalletService.BitcoinWalletGenerator gen password BitcoinNetwork.mainnet = inr btc →
       WalletService.SolanaWalletGenerator gen password = inr sol →
       WalletService.TronWalletGenerator gen password = inl e →
       WalletService.generateAndStoreWallets gen now userId password chainId db
       = (inl e,
          with_wallets [wallet_record c now userId (ethereum_data eth evm);
                        wallet_record (c + 1) now userId (bitcoin_data btc);
                        wallet_record (c + 2) now userId
                          (WalletService.plainWalletData WalletType.solana sol)] db)).
Proof.
  intros Hc c evm. split_and!.
  - intros Heth. rewrite run_generateAndStoreWallets by done. cbv zeta. by rewrite Heth.
  - intros eth Heth Hbtc. rewrite run_generateAndStoreWallets by done. cbv zeta.
    by rewrite Heth, Hbtc.
  - intros eth btc Heth Hbtc Hsol. rewrite run_generateAndStoreWallets by done. cbv zeta.
    by rewrite Heth, Hbtc, Hsol.
  - intros eth btc sol Heth Hbtc Hsol Htron.
    rewrite run_generateAndStoreWallets by done. cbv zeta.
    by rewrite Heth, Hbtc, Hsol, Htron.
Qed.

Lemma generateAndStoreWallets_keeps_earlier_wallets_witness :
  ∃ db',
    WalletService.generateAndStoreWallets generators_without_tron 9 "alice" "hunter2" None
      (MockDatabase.set_connected true MockDatabase.new)
    = (inl (Js.mkError "Generated address is invalid"), db')
    ∧ WalletRecord.walletType <$> MockDatabase.wallets db'
      = [WalletType.ethereum; WalletType.bitcoin; WalletType.solana].
Proof.
  eexists. split.
  - apply (proj2 (proj2 (proj2 (generateAndStoreWallets_keeps_earlier_wallets
             generators_without_tron 9 "alice" "hunter2" None
             (Js.mkError "Generated address is invalid")
             (MockDatabase.set_connected true MockDatabase.new) eq_refl)))
             _ _ _ eq_refl eq_refl eq_refl eq_refl).
  - reflexivity.
Defined.



(** X21: the wallets that [generateBitcoinWallet], [generateSolanaWallet]
    and [generateTronWallet] store carry no chain id (the Bitcoin one
    carries the network of the generated wallet instead), so
    [getWalletsByChain] returns after each of them, for every chain id,
    exactly what it would have returned before. *)
Theorem non_evm_wallets_match_no_chain gen now userId password network owner chainId db :
  MockDatabase.connected db = true →
  let before :=
    filter (λ w, WalletRecord.userId w = owner ∧ WalletRecord.chainId w = Some chainId)
           (MockDatabase.wallets db) in
  (∀ btc,
     WalletService.BitcoinWalletGenerator gen password network = inr btc →
     ∃ w db',
       WalletService.generateBitcoinWallet gen now userId password network db = (inr w, db')
       ∧ w ∈ MockDatabase.wallets db'
       ∧ WalletRecord.walletType w = WalletType.bitcoin
       ∧ WalletRecord.network w
         = Some (BitcoinNetwork.to_string (EncryptedBitcoinWallet.network btc))
       ∧ WalletRecord.chainId w = None
       ∧ WalletService.getWalletsByChain owner chainId db' = (inr before, db'))
  ∧ (∀ sol,
       WalletService.SolanaWalletGenerator gen password = inr sol →
       ∃ w db',
         WalletService.generateSolanaWallet gen now userId password db = (inr w, db')
         ∧ w ∈ MockDatabase.wallets db'
         ∧ WalletRecord.walletType w = WalletType.solana
         ∧ WalletRecord.network w = None
         ∧ WalletRecord.chainId w = None
         ∧ WalletService.getWalletsByChain owner chainId db' = (inr before, db'))
  ∧ (∀ tron,
       WalletService.TronWalletGenerator gen password = inr tron →
       ∃ w db',
         WalletService.generateTronWallet gen now userId password db = (inr w, db')
         ∧ w ∈ MockDatabase.wallets db'
         ∧ WalletRecord.walletType w = WalletType.tron
         ∧ WalletRecord.network w = None
         ∧ WalletRecord.chainId w = None
         ∧ WalletService.getWalletsByChain owner chainId db' = (inr before, db')).
Proof.
  intros Hc before.
  assert (∀ walletData,
            CreateWalletData.chainId walletData = None →
            ∃ w db',
              MockDatabase.createWallet now userId walletData db = (inr w, db')
              ∧ w ∈ MockDatabase.wallets db'
              ∧ WalletRecord.walletType w = CreateWalletData.walletType walletData
              ∧ WalletRecord.network w = CreateWalletData.network walletData
              ∧ WalletRecord.chainId w = None
              ∧ WalletService.getWalletsByChain owner chainId db' = (inr before, db'))
    as Hstore.
  { intros walletData Hnone. rewrite run_createWallet by done. cbv zeta.
    eexists _, _. split; [reflexivity|]. split_and!; try done.
    - cbn. apply elem_of_app. right. apply list_elem_of_here.
    - unfold WalletService.getWalletsByChain. rewrite run_getWalletsByChainId by done.
      cbn [MockDatabase.wallets]. rewrite filter_app, filter_cons_False, filter_nil.
      + by rewrite app_nil_r.
      + cbn. rewrite Hnone. by intros [_ ?]. }
  split_and!.
  - intros btc Hbtc. unfold WalletService.generateBitcoinWallet.
    unfold mbind at 1, eff_bind, await at 1. rewrite Hbtc. by apply Hstore.
  - intros sol Hsol. unfold WalletService.generateSolanaWallet.
    unfold mbind at 1, eff_bind, await at 1. rewrite Hsol. by apply Hstore.
  - intros tron Htron. unfold WalletService.generateTronWallet.
    unfold mbind at 1, eff_bind, await at 1. rewrite Htron. by apply Hstore.
Qed.

Lemma non_evm_wallets_match_no_chain_witness :
  ∃ w db',
    WalletService.generateBitcoinWallet sample_generators 9 "alice" "hunter2"
      BitcoinNetwork.testnet store_with_wallet = (inr w, db')
    ∧ WalletRecord.network w = Some "testnet"
    ∧ WalletService.getWalletsByChain "alice" 1 db' = (inr [stored_wallet], db').
Proof.
  destruct (proj1 (non_evm_wallets_match_no_chain sample_generators 9 "alice" "hunter2"
                     BitcoinNetwork.testnet "alice" 1 store_with_wallet eq_refl)
              _ eq_refl)
    as (w & db' & H1 & _ & _ & H2 & _ & H3).
  by exists w, db'.
Defined.

(** ** The other generators *)

Section Generators.

Lemma length_to_hex b : String.length (Buffer.to_hex b) = 2 * length b.
Proof. induction b as [|c b IH]; [done|]. cbn [Buffer.to_hex String.length length]. lia. Qed.

Lemma length_cipher_update_final cipher data :
String.length (crypto.cipher_update_final cipher data)
= 32 * (String.length data / 16 + 1).
Proof.
  destruct (ciphertext_blocks cipher data) as (cs & Hcs & _ & _ & Hlen).
  assert (crypto.cipher_update_final cipher data = Buffer.to_hex (concat cs)) as ->.
  { rewrite <- Hcs.
    with_strategy transparent [crypto.cipher_update_final]
      (unfold crypto.cipher_update_final).
    by rewrite from_hex_to_hex. }
  rewrite length_to_hex, Hlen. unfold Buffer.from_utf8.
  rewrite length_list_ascii. lia.
Qed.

(** The steps the four generators share: under the key derived from
    one password and salt, and the vector read back from its
    hexadecimal form, what was encrypted is decrypted. *)
Lemma secret_round_trip password salt iv data :
  length iv = 16 →
  Buffer.is_string data = true →
  let key := crypto.pbkdf2Sync password salt 100000 32 in
  crypto.createCipheriv key iv = inr (crypto.mkCipheriv key iv)
  ∧ crypto.createDecipheriv key (Buffer.from_hex (Buffer.to_hex iv))
    = inr (crypto.mkCipheriv key iv)
  ∧ crypto.decipher_update_final (crypto.mkCipheriv key iv)
      (crypto.cipher_update_final (crypto.mkCipheriv key iv) data) = inr data.
Proof.
  intros Hiv Hdata key. unfold crypto.createDecipheriv. rewrite from_hex_to_hex.
  rewrite createCipheriv_ok by (apply length_pbkdf2Sync || done).
  split; [done|]. split; [done|]. by apply decipher_cipher.
Qed.

End Generators.

(** X22: whatever account, salt and 16-byte vector
    [TronWalletGenerator.generateEncryptedWallet] draws, if the account's
    address has the form of a Tron address the call returns an encrypted
    wallet with that address, and [decryptWallet] of it under the same
    password returns the address together with exactly the private key
    that was encrypted. *)
Theorem tron_decryptWallet_generateEncryptedWallet drawn password :
  TronWalletGenerator.validateTronAddress (Draws.address drawn) = true →
  length (Draws.iv drawn) = 16 →
  Buffer.is_string (Draws.privateKey drawn) = true →
  ∃ encryptedWallet,
    TronWalletGenerator.generateEncryptedWallet drawn password = inr encryptedWallet
    ∧ EncryptedWallet.address encryptedWallet = Draws.address drawn
    ∧ TronWalletGenerator.decryptWallet encryptedWallet password
      = inr (TronWalletGenerator.mkAccount (Draws.address drawn) (Draws.privateKey drawn)).
Proof.
  intros Hvalid Hiv Hkey.
  destruct (secret_round_trip password (Buffer.to_hex (Draws.salt drawn))
              (Draws.iv drawn) (Draws.privateKey drawn) Hiv Hkey) as (Hc & Hd & Hrt).
  unfold TronWalletGenerator.generateEncryptedWallet. rewrite Hvalid. cbn [negb].
  rewrite Hc. eexists. split; [reflexivity|]. split; [reflexivity|].
  unfold TronWalletGenerator.decryptWallet.
  cbn [EncryptedWallet.address EncryptedWallet.salt EncryptedWallet.iv
       EncryptedWallet.encryptedPrivateKey].
  rewrite Hvalid. cbn [negb]. rewrite Hd.
  cbn [mbind result_bind]. by rewrite Hrt.
Qed.

Lemma tron_decryptWallet_generateEncryptedWallet_witness :
  ∃ encryptedWallet,
    TronWalletGenerator.generateEncryptedWallet
      (Draws.mk "TRjE1H8dxypKM1NZRdysbs9wo7huR4bdNz"
         "4c0883a69102937d6231471b5dbb6204fe5129617082792ae468d01a3f362318"
         (Draws.salt sample_draws) (Draws.iv sample_draws)) "TestPassword123!"
    = inr encryptedWallet
    ∧ TronWalletGenerator.decryptWallet encryptedWallet "TestPassword123!"
      = inr (TronWalletGenerator.mkAccount "TRjE1H8dxypKM1NZRdysbs9wo7huR4bdNz"
               "4c0883a69102937d6231471b5dbb6204fe5129617082792ae468d01a3f362318").
Proof.
  destruct (tron_decryptWallet_generateEncryptedWallet
              (Draws.mk "TRjE1H8dxypKM1NZRdysbs9wo7huR4bdNz"
                 "4c0883a69102937d6231471b5dbb6204fe5129617082792ae468d01a3f362318"
                 (Draws.salt sample_draws) (Draws.iv sample_draws)) "TestPassword123!")
    as (w & Hgen & _ & Hdec).
  - vm_compute. reflexivity.
  - vm_compute. reflexivity.
  - vm_compute. reflexivity.
  - exists w. split; [exact Hgen|exact Hdec].
Defined.

(** X23: the address check of the Tron generator.  A drawn account whose
    address has not the form of a Tron address makes
    [generateEncryptedWallet] throw ["Generated address is invalid"], so
    every wallet it returns has an address of that form; and
    [decryptWallet] of a wallet whose address has not that form throws
    ["Invalid Tron address format"] whatever the password and the other
    fields are, also for a wallet that was generated under that password
    and had its address replaced afterwards. *)
Theorem tron_address_is_checked_first :
  (∀ drawn password,
     TronWalletGenerator.validateTronAddress (Draws.address drawn) = false →
     TronWalletGenerator.generateEncryptedWallet drawn password
     = inl (Js.mkError "Generated address is invalid"))
  ∧ (∀ drawn password encryptedWallet,
       TronWalletGenerator.generateEncryptedWallet drawn password = inr encryptedWallet →
       TronWalletGenerator.validateTronAddress (EncryptedWallet.address encryptedWallet)
       = true)
  ∧ (∀ encryptedWallet password,
       TronWalletGenerator.validateTronAddress (EncryptedWallet.address encryptedWallet)
       = false →
       TronWalletGenerator.decryptWallet encryptedWallet password
       = inl (Js.mkError "Invalid Tron address format"))
  ∧ (∀ drawn password encryptedWallet,
       TronWalletGenerator.generateEncryptedWallet drawn password = inr encryptedWallet →
       TronWalletGenerator.decryptWallet
         (EncryptedWallet.mk "InvalidTronAddress"
            (EncryptedWallet.encryptedPrivateKey encryptedWallet)
            (EncryptedWallet.salt encryptedWallet) (EncryptedWallet.iv encryptedWallet))
         password
       = inl (Js.mkError "Invalid Tron address format")).
Proof.
  split_and!.
  - intros drawn password Hinvalid.
    unfold TronWalletGenerator.generateEncryptedWallet. by rewrite Hinvalid.
  - intros drawn password w. unfold TronWalletGenerator.generateEncryptedWallet.
    destruct (TronWalletGenerator.validateTronAddress (Draws.address drawn)) eqn:Hvalid;
      [|done].
    cbn [negb]. destruct (crypto.createCipheriv _ _); [done|].
    cbn [mbind result_bind mret result_ret]. by intros [= <-].
  - intros w password Hinvalid.
    unfold TronWalletGenerator.decryptWallet. by rewrite Hinvalid.
  - intros drawn password w _. reflexivity.
Qed.

(** X24: whatever key pair, salt and 16-byte vector
    [BitcoinWalletGenerator.generateEncryptedWallet] draws, it returns an
    encrypted wallet that records the network asked for, and
    [decryptWallet] of it under the same password hands [ECPair.fromWIF]
    exactly the WIF string that was encrypted, together with the network
    the wallet records. *)
Theorem bitcoin_decryptWallet_generateEncryptedWallet
    (KeyPair : Type) (fromWIF : string → BitcoinNetwork.t → Js.Error + KeyPair)
    drawn password network :
  length (Draws.iv drawn) = 16 →
  Buffer.is_string (Draws.privateKey drawn) = true →
  ∃ encryptedWallet,
    BitcoinWalletGenerator.generateEncryptedWallet drawn password network
    = inr encryptedWallet
    ∧ EncryptedBitcoinWallet.address encryptedWallet = Draws.address drawn
    ∧ EncryptedBitcoinWallet.network encryptedWallet = network
    ∧ BitcoinWalletGenerator.decryptWallet KeyPair fromWIF encryptedWallet password
      = fromWIF (Draws.privateKey drawn) network.
Proof.
  intros Hiv Hkey.
  destruct (secret_round_trip password (Buffer.to_hex (Draws.salt drawn))
              (Draws.iv drawn) (Draws.privateKey drawn) Hiv Hkey) as (Hc & Hd & Hrt).
  unfold BitcoinWalletGenerator.generateEncryptedWallet. rewrite Hc.
  eexists. split; [reflexivity|]. split; [reflexivity|]. split; [reflexivity|].
  unfold BitcoinWalletGenerator.decryptWallet.
  cbn [EncryptedBitcoinWallet.salt EncryptedBitcoinWallet.iv
       EncryptedBitcoinWallet.encryptedPrivateKey EncryptedBitcoinWallet.network].
  rewrite Hd. cbn [mbind result_bind]. rewrite Hrt. by destruct network.
Qed.

Lemma bitcoin_decryptWallet_generateEncryptedWallet_witness :
  ∃ encryptedWallet,
    BitcoinWalletGenerator.generateEncryptedWallet
      (Draws.mk "mipcBbFg9gMiCh81Kj8tqqdgoZub1ZJRfn"
         "cNJFgo1driFnPcBdBX8BrJrpxchBWXwXCvNH5SoSkdcF6JXXwHMm"
         (Draws.salt sample_draws) (Draws.iv sample_draws))
      "MySecurePassword123!" BitcoinNetwork.testnet = inr encryptedWallet
    ∧ BitcoinWalletGenerator.decryptWallet (string * BitcoinNetwork.t)
        (λ wif network, inr (wif, network)) encryptedWallet "MySecurePassword123!"
      = inr ("cNJFgo1driFnPcBdBX8BrJrpxchBWXwXCvNH5SoSkdcF6JXXwHMm",
             BitcoinNetwork.testnet).
Proof.
  destruct (bitcoin_decryptWallet_generateEncryptedWallet (string * BitcoinNetwork.t)
              (λ wif network, inr (wif, network))
              (Draws.mk "mipcBbFg9gMiCh81Kj8tqqdgoZub1ZJRfn"
                 "cNJFgo1driFnPcBdBX8BrJrpxchBWXwXCvNH5SoSkdcF6JXXwHMm"
                 (Draws.salt sample_draws) (Draws.iv sample_draws))
              "MySecurePassword123!" BitcoinNetwork.testnet)
    as (w & Hgen & _ & _ & Hdec).
  - vm_compute. reflexivity.
  - vm_compute. reflexivity.
  - exists w. split; [exact Hgen|exact Hdec].
Defined.

(** X25: whatever key pair, salt and 16-byte vector
    [SolanaWalletGenerator.generateEncryptedWallet] draws, it returns an
    encrypted wallet, and [decryptWallet] of it under the same password
    hands [bs58.decode] exactly the Base58 text that was encrypted, and
    the bytes decoded to [Keypair.fromSecretKey]. *)
Theorem solana_decryptWallet_generateEncryptedWallet
    (Keypair : Type) (bs58_decode : string → Js.Error + Buffer.t)
    (fromSecretKey : Buffer.t → Js.Error + Keypair) drawn password :
  length (Draws.iv drawn) = 16 →
  Buffer.is_string (Draws.privateKey drawn) = true →
  ∃ encryptedWallet,
    SolanaWalletGenerator.generateEncryptedWallet drawn password = inr encryptedWallet
    ∧ EncryptedWallet.address encryptedWallet = Draws.address drawn
    ∧ SolanaWalletGenerator.decryptWallet Keypair bs58_decode fromSecretKey
        encryptedWallet password
      = (decryptedPrivateKeyBytes ← bs58_decode (Draws.privateKey drawn);
         fromSecretKey decryptedPrivateKeyBytes).
Proof.
  intros Hiv Hkey.
  destruct (secret_round_trip password (Buffer.to_hex (Draws.salt drawn))
              (Draws.iv drawn) (Draws.privateKey drawn) Hiv Hkey) as (Hc & Hd & Hrt).
  unfold SolanaWalletGenerator.generateEncryptedWallet. rewrite Hc.
  eexists. split; [reflexivity|]. split; [reflexivity|].
  unfold SolanaWalletGenerator.decryptWallet.
  cbn [EncryptedWallet.salt EncryptedWallet.iv EncryptedWallet.encryptedPrivateKey].
  rewrite Hd. cbn [mbind result_bind]. by rewrite Hrt.
Qed.

Lemma solana_decryptWallet_generateEncryptedWallet_witness :
  ∃ encryptedWallet,
    SolanaWalletGenerator.generateEncryptedWallet
      (Draws.mk "4Nd1mYQzvgV8Vr3Z3nYb7pD2T8mQkqPzq1Zr9sYw5h1G"
         "3AbCdEfGhJkLmNpQrStUvWxYz123456789" (Draws.salt sample_draws)
         (Draws.iv sample_draws)) "MySecurePassword123!" = inr encryptedWallet
    ∧ SolanaWalletGenerator.decryptWallet string
        (λ s, inr (Buffer.from_utf8 s)) (λ bytes, inr (Buffer.to_hex bytes))
        encryptedWallet "MySecurePassword123!"
      = inr (Buffer.to_hex (Buffer.from_utf8 "3AbCdEfGhJkLmNpQrStUvWxYz123456789")).
Proof.
  destruct (solana_decryptWallet_generateEncryptedWallet string
              (λ s, inr (Buffer.from_utf8 s)) (λ bytes, inr (Buffer.to_hex bytes))
              (Draws.mk "4Nd1mYQzvgV8Vr3Z3nYb7pD2T8mQkqPzq1Zr9sYw5h1G"
                 "3AbCdEfGhJkLmNpQrStUvWxYz123456789" (Draws.salt sample_draws)
                 (Draws.iv sample_draws)) "MySecurePassword123!")
    as (w & Hgen & _ & Hdec).
  - vm_compute. reflexivity.
  - vm_compute. reflexivity.
  - exists w. split; [exact Hgen|exact Hdec].
Defined.

(** X26: the shape of what [EthereumWalletGenerator.generateEncryptedWallet]
    returns for 16 random bytes of salt and of vector: [salt] and [iv] are
    32 hexadecimal digits that decode to the bytes drawn, the address is
    the drawn one, and [encryptedPrivateKey] has 32 digits for every
    started block of 16 bytes of the private key and 32 more; for the 66
    characters of an Ethereum private key that is 160 digits. *)
Theorem generateEncryptedWallet_shape drawn password :
  length (Draws.salt drawn) = 16 →
  length (Draws.iv drawn) = 16 →
  ∃ encryptedWallet,
    EthereumWalletGenerator.generateEncryptedWallet drawn password = inr encryptedWallet
    ∧ EncryptedWallet.address encryptedWallet = Draws.address drawn
    ∧ String.length (EncryptedWallet.salt encryptedWallet) = 32
    ∧ Buffer.from_hex (EncryptedWallet.salt encryptedWallet) = Draws.salt drawn
    ∧ String.length (EncryptedWallet.iv encryptedWallet) = 32
    ∧ Buffer.from_hex (EncryptedWallet.iv encryptedWallet) = Draws.iv drawn
    ∧ String.length (EncryptedWallet.encryptedPrivateKey encryptedWallet)
      = 32 * (String.length (Draws.privateKey drawn) / 16 + 1)
    ∧ (String.length (Draws.privateKey drawn) = 66 →
String.length (EncryptedWallet.encryptedPrivateKey encryptedWallet) = 160).
Proof.
  intros Hsalt Hiv. unfold EthereumWalletGenerator.generateEncryptedWallet.
  rewrite createCipheriv_ok by (apply length_pbkdf2Sync || done).
  eexists. split; [reflexivity|].
  cbn [EncryptedWallet.address EncryptedWallet.salt EncryptedWallet.iv
       EncryptedWallet.encryptedPrivateKey].
  rewrite !length_to_hex, !from_hex_to_hex, Hsalt, Hiv, length_cipher_update_final.
  split_and!; try done. by intros ->.
Qed.

Lemma generateEncryptedWallet_shape_witness :
  ∃ encryptedWallet,
    EthereumWalletGenerator.generateEncryptedWallet sample_draws "MySecurePassword123!"
    = inr encryptedWallet
    ∧ String.length (EncryptedWallet.encryptedPrivateKey encryptedWallet) = 160.
Proof.
  destruct (generateEncryptedWallet_shape sample_draws "MySecurePassword123!")
    as (w & Hgen & _ & _ & _ & _ & _ & _ & Hlen).
  - vm_compute. reflexivity.
  - vm_compute. reflexivity.
  - exists w. split; [exact Hgen|]. apply Hlen. vm_compute. reflexivity.
Defined.

(** X27: [EthereumWalletGenerator.decryptWallet] on a record that was
    tampered with.  When the [iv] field does not decode to 16 bytes it
    throws ["Invalid initialization vector"], and when the vector is in
    order but [encryptedPrivateKey] decodes to no bytes or not to whole
    blocks of 16 it throws as well; in both cases this holds for every
    password, and the wallet constructor is not reached. *)
Theorem decryptWallet_rejects_malformed_record
    (Wallet : Type) (new_Wallet : string → Js.Error + Wallet) encryptedWallet password :
  (length (Buffer.from_hex (EncryptedWallet.iv encryptedWallet)) ≠ 16 →
   EthereumWalletGenerator.decryptWallet Wallet new_Wallet encryptedWallet password
   = inl (Js.mkError "Invalid initialization vector"))
  ∧ (length (Buffer.from_hex (EncryptedWallet.iv encryptedWallet)) = 16 →
     length (Buffer.from_hex (EncryptedWallet.encryptedPrivateKey encryptedWallet)) = 0
     ∨ length (Buffer.from_hex (EncryptedWallet.encryptedPrivateKey encryptedWallet))
         mod 16 ≠ 0 →
     ∃ e, EthereumWalletGenerator.decryptWallet Wallet new_Wallet encryptedWallet password
          = inl e
          ∧ ∀ new_Wallet',
              EthereumWalletGenerator.decryptWallet Wallet new_Wallet' encryptedWallet
                password = inl e).
Proof.
  unfold EthereumWalletGenerator.decryptWallet, crypto.createDecipheriv,
    crypto.createCipheriv.
  rewrite length_pbkdf2Sync. cbn [Nat.eqb negb].
  split.
  - intros Hiv. apply Nat.eqb_neq in Hiv. by rewrite Hiv.
  - intros Hiv Hct. rewrite Hiv. cbn [Nat.eqb negb mbind result_bind].
    with_strategy transparent [crypto.decipher_update_final]
      (unfold crypto.decipher_update_final).
    destruct (Nat.odd _); [by eexists|].
    assert ((length (Buffer.from_hex (EncryptedWallet.encryptedPrivateKey encryptedWallet))
             =? 0)
            || negb (length (Buffer.from_hex
                               (EncryptedWallet.encryptedPrivateKey encryptedWallet))
                     mod 16 =? 0) = true) as ->.
    { apply orb_true_iff. destruct Hct as [H0|Hmod].
      - left. by apply Nat.eqb_eq.
      - right. apply negb_true_iff. by apply Nat.eqb_neq. }
    by eexists.
Qed.

(** ** The relational store *)

Section Relational.

Lemma filter_length_lt {A} (P : A → Prop) `{!∀ x, Decision (P x)} (l : list A) :
  (0 <? length l - length (filter P l)) = bool_decide (¬ Forall P l).
Proof.
  pose proof (length_filter P l) as Hle. pose proof (filter_length_all P l) as Hall.
  destruct (decide (Forall P l)) as [HP|HP].
  - rewrite bool_decide_eq_true_2 in Hall by done. apply Nat.eqb_eq in Hall.
    rewrite Hall, Nat.sub_diag. by rewrite bool_decide_eq_false_2 by auto.
  - rewrite bool_decide_eq_false_2 in Hall by done. apply Nat.eqb_neq in Hall.
    rewrite bool_decide_eq_true_2 by done. apply Nat.ltb_lt. lia.
Qed.

End Relational.

(** X28: [MySQLDatabase.deleteWallet] on a connected store first deletes
    the transactions of the wallet and then the wallet: it answers
    whether a wallet of that id was stored; afterwards the wallets are
    the others, the transactions are those of other wallet ids, and
    [getTransactionsByWallet] of the id is empty.  Without a connection
    it throws the error of [ensureConnected]. *)
Theorem mysql_deleteWallet_deletes_transactions_first walletId :
  (∀ tb,
     MySQLDatabase.deleteWallet walletId (MySQLDatabase.mk (Some tb))
     = (inr (bool_decide (walletId ∈ WalletRecord.id <$> MySQLDatabase.wallets tb)),
        MySQLDatabase.mk
          (Some (MySQLDatabase.mkTables
                   (filter (λ w, WalletRecord.id w ≠ walletId) (MySQLDatabase.wallets tb))
                   (filter (λ tx, TransactionRecord.walletId tx ≠ walletId)
                           (MySQLDatabase.transactions tb)))))
     ∧ (∀ other,
          other ≠ walletId →
          fst ((MySQLDatabase.deleteWallet walletId;;
                MySQLDatabase.getTransactionsByWallet other) (MySQLDatabase.mk (Some tb)))
          = fst (MySQLDatabase.getTransactionsByWallet other (MySQLDatabase.mk (Some tb))))
     ∧ fst ((MySQLDatabase.deleteWallet walletId;;
             MySQLDatabase.getTransactionsByWallet walletId) (MySQLDatabase.mk (Some tb)))
       = inr [])
  ∧ MySQLDatabase.deleteWallet walletId (MySQLDatabase.mk None)
    = (inl notConnected, MySQLDatabase.mk None).
Proof.
  split; [|done]. intros tb.
  assert (MySQLDatabase.deleteWallet walletId (MySQLDatabase.mk (Some tb))
          = (inr (bool_decide (walletId ∈ WalletRecord.id <$> MySQLDatabase.wallets tb)),
             MySQLDatabase.mk
               (Some (MySQLDatabase.mkTables
                        (filter (λ w, WalletRecord.id w ≠ walletId)
                                (MySQLDatabase.wallets tb))
                        (filter (λ tx, TransactionRecord.walletId tx ≠ walletId)
                                (MySQLDatabase.transactions tb)))))) as Hrun.
  { unfold MySQLDatabase.deleteWallet, MySQLDatabase.ensureConnected.
    eff_unfold. cbn [MySQLDatabase.connection MySQLDatabase.wallets
                     MySQLDatabase.transactions].
    f_equal. f_equal. rewrite filter_length_lt.
    apply bool_decide_ext. split.
    - intros Hn. destruct (decide (walletId ∈ WalletRecord.id <$> MySQLDatabase.wallets tb))
        as [|Hnot]; [done|].
      exfalso. apply Hn, Forall_forall. intros w Hw Heq. apply Hnot.
      rewrite <- Heq. by apply list_elem_of_fmap_2.
    - intros (w & -> & Hw)%list_elem_of_fmap Hall.
      by apply (proj1 (Forall_forall _ _) Hall w Hw). }
  split; [exact Hrun|].
  unfold mbind, eff_bind. rewrite Hrun.
  unfold MySQLDatabase.getTransactionsByWallet, MySQLDatabase.ensureConnected.
  eff_unfold. cbn. split.
  - intros other Hother. do 2 f_equal. rewrite list_filter_filter.
    apply list_filter_iff. intros tx. split; [tauto|]. intros Heq. split; [done|congruence].
  - f_equal. rewrite filter_none; [done|].
    apply Forall_forall. intros tx Htx%list_elem_of_filter. tauto.
Qed.

(** ** Two services, two stores *)

Section TwoStores.

Import testSwapService.

Lemma on_walletService_run {A} (m : Eff MockDatabase.t A) s r db' :
  m (walletService s) = (r, db') →
  on_walletService m s = (r, mkServices db' (swapService s)).
Proof. intros Hm. unfold on_walletService. by rewrite Hm. Qed.

Lemma on_swapService_run {A} (m : Eff MockDatabase.t A) s r db' :
  m (swapService s) = (r, db') →
  on_swapService m s = (r, mkServices (walletService s) db').
Proof. intros Hm. unfold on_swapService. by rewrite Hm. Qed.

(** [createSwap] on a store that holds no wallet of the id. *)
Lemma createSwap_missing_wallet api now walletId fromCurrency toCurrency fromAmount
    toAddress refundAddress fromChainId toChainId db :
  MockDatabase.connected db = true →
  Forall (λ w, WalletRecord.id w ≠ walletId) (MockDatabase.wallets db) →
  SwapService.createSwap api now walletId fromCurrency toCurrency fromAmount
    toAddress refundAddress fromChainId toChainId db
  = (inl (Js.mkError ("Failed to create swap: Wallet with ID "
                      +:+ Js.string_of_number walletId +:+ " not found")), db).
Proof.
  intros Hc Hnone. unfold SwapService.createSwap, try_catch.
  unfold mbind at 1, eff_bind. rewrite run_getWalletById by done.
  rewrite find_None by done. unfold throw.
  by rewrite message_walletNotFound.
Qed.

End TwoStores.

(** X30: with the in-memory store, [WalletService] and [SwapService] do
    not share their data: each constructor gets a store of its own from
    [DatabaseFactory.createDatabase].  So in the swap test, after the
    wallet service has generated and stored the four wallets and the test
    has read the Ethereum wallet (id 1) back from it, [createSwap] of the
    swap service throws
    ["Failed to create swap: Wallet with ID 1 not found"]: the four
    wallets are in the wallet service's store, and the store of the swap
    service is connected and empty. *)
Theorem testSwapService_finds_no_wallet gen api now now' userId eth btc sol tron rate :
  WalletService.EthereumWalletGenerator gen "Test123!" = inr eth →
  WalletService.BitcoinWalletGenerator gen "Test123!" BitcoinNetwork.mainnet = inr btc →
  WalletService.SolanaWalletGenerator gen "Test123!" = inr sol →
  WalletService.TronWalletGenerator gen "Test123!" = inr tron →
  ChangeNow.getExchangeRate api "ETH" "BTC" "1.0" (Some CHAIN_IDS.ETHEREUM_MAINNET) None
  = inr rate →
  ∃ s0 s,
    testSwapService.new_services (Some "true") = Some s0
    ∧ testSwapService.try_body gen api now now' userId s0
      = (inl (Js.mkError "Failed to create swap: Wallet with ID 1 not found"), s)
    ∧ WalletRecord.id <$> MockDatabase.wallets (testSwapService.walletService s)
      = [1; 2; 3; 4]%Z
    ∧ testSwapService.swapService s = MockDatabase.set_connected true MockDatabase.new.
Proof.
  intros Heth Hbtc Hsol Htron Hrate.
  eexists _, _. split; [reflexivity|].
  unfold testSwapService.try_body. cbv zeta.
  unfold mbind at 1, eff_bind.
  rewrite (on_walletService_run WalletService.init _ (inr tt)
             (MockDatabase.set_connected true MockDatabase.new)) by reflexivity.
  unfold mbind at 1, eff_bind.
  rewrite (on_swapService_run SwapService.init _ (inr tt)
             (MockDatabase.set_connected true MockDatabase.new)) by reflexivity.
  cbn [testSwapService.walletService testSwapService.swapService].
  unfold mbind at 1, eff_bind.
  erewrite on_walletService_run; cycle 1.
  { cbn [testSwapService.walletService].
    rewrite run_generateAndStoreWallets by reflexivity. cbv zeta.
    rewrite Heth, Hbtc, Hsol, Htron. reflexivity. }
  cbn [testSwapService.walletService testSwapService.swapService].
  unfold mbind at 1, eff_bind.
  erewrite on_walletService_run; cycle 1.
  { cbn [testSwapService.walletService]. unfold WalletService.getWallets.
    rewrite run_getWalletsByUser by reflexivity. reflexivity. }
  cbn [testSwapService.walletService testSwapService.swapService
       MockDatabase.wallets with_wallets MockDatabase.new MockDatabase.set_connected app].
  rewrite filter_cons_True by reflexivity.
  rewrite find_cons_here by reflexivity.
  unfold mbind at 1, eff_bind.
  erewrite on_swapService_run; cycle 1.
  { cbn [testSwapService.swapService]. unfold SwapService.getExchangeRate, await.
    rewrite Hrate. reflexivity. }
  cbn [testSwapService.walletService testSwapService.swapService].
  unfold mbind at 1, eff_bind.
  erewrite on_swapService_run; cycle 1.
  { cbn [testSwapService.swapService wallet_record WalletRecord.id WalletRecord.address
         MockDatabase.walletIdCounter MockDatabase.new].
    apply createSwap_missing_wallet; [reflexivity|constructor]. }
  split; [reflexivity|]. split; reflexivity.
Qed.

Lemma testSwapService_finds_no_wallet_witness :
  ∃ s0 s,
    testSwapService.new_services (Some "true") = Some s0
    ∧ testSwapService.try_body sample_generators
        (ChangeNow.scripted "order-1" ChangeNow.finished) 1 2 "test-1700000000000" s0
      = (inl (Js.mkError "Failed to create swap: Wallet with ID 1 not found"), s).
Proof.
  destruct (testSwapService_finds_no_wallet sample_generators
              (ChangeNow.scripted "order-1" ChangeNow.finished) 1 2 "test-1700000000000"
              _ _ _ _ _ eq_refl eq_refl eq_refl eq_refl eq_refl)
    as (s0 & s & H1 & H2 & _).
  by exists s0, s.
Defined.
